(** * A shallow embedding of [qc.py], the in-browser QC visualisation tool

    The development follows the layout of the Python module:
    - Python strings and the few [str] methods the program calls;
    - [float()] on a form value, with the message of its [ValueError];
    - data frames, as far as [run_tests], [make_mask] and the download use
      them;
    - the session state (the global [uploaded_df] and the page's DOM) and a
      state-and-exception monad in which the handlers run;
    - the handlers themselves, and then the theorems about them. *)

From Stdlib Require Import ZArith QArith String Ascii List Lia Bool DecimalString.
From stdpp Require Import base gmap strings list.

Set Default Proof Using "Type".
Local Open Scope Z_scope.

(** ** Python strings *)

Module PyStr.

(** [s.count(c)] for a one-character [c]. *)
Fixpoint count (c : ascii) (s : string) : nat :=
  match s with
  | EmptyString => 0%nat
  | String a s' => ((if Ascii.eqb a c then 1 else 0) + count c s')%nat
  end.

(** [c in s] for a one-character [c]. *)
Fixpoint contains_char (c : ascii) (s : string) : bool :=
  match s with
  | EmptyString => false
  | String a s' => Ascii.eqb a c || contains_char c s'
  end.

(** The slice [s[:n]]. *)
Fixpoint slice_to (n : nat) (s : string) : string :=
  match n, s with
  | S n', String a s' => String a (slice_to n' s')
  | _, _ => EmptyString
  end.

(** The slice [s[n:]]. *)
Fixpoint slice_from (n : nat) (s : string) : string :=
  match n, s with
  | S n', String _ s' => slice_from n' s'
  | _, _ => s
  end.

(** [str.lower] on one character.  A character is a code point below 256:
    the letters A to Z and the capital letters of Latin-1 (192 to 222, the
    multiplication sign 215 apart) move 32 places up, every other character
    stays. *)
Definition lower_char (a : ascii) : ascii :=
  let n := nat_of_ascii a in
  if (65 <=? n)%nat && (n <=? 90)%nat
     || (192 <=? n)%nat && (n <=? 222)%nat && negb (n =? 215)%nat
  then ascii_of_nat (n + 32) else a.

Fixpoint lower (s : string) : string :=
  match s with
  | EmptyString => EmptyString
  | String a s' => String (lower_char a) (lower s')
  end.

(** [s.endswith(suffix)]: the last [len(suffix)] characters of [s] are
    [suffix]. *)
Definition endswith (s suffix : string) : bool :=
  (String.length suffix <=? String.length s)%nat
  && String.eqb (slice_from (String.length s - String.length suffix) s) suffix.

(** [needle in s] for strings: [needle] starts at some position of [s]. *)
Fixpoint contains (s needle : string) : bool :=
  String.prefix needle s
  || match s with
     | EmptyString => false
     | String _ s' => contains s' needle
     end.

(** The white space of [str.isspace] and [str.strip] among the code points
    below 256: tab to carriage return, the four separators 28 to 31, the
    space, the next-line character 133 and the no-break space 160. *)
Definition isspace (a : ascii) : bool :=
  let n := nat_of_ascii a in
  ((9 <=? n) && (n <=? 13) || (28 <=? n) && (n <=? 32) || (n =? 133) || (n =? 160))%nat.

Fixpoint lstrip (s : string) : string :=
  match s with
  | String a s' => if isspace a then lstrip s' else s
  | EmptyString => EmptyString
  end.

(** [s.strip()]. *)
Definition strip (s : string) : string :=
  String.rev (lstrip (String.rev (lstrip s))).

End PyStr.

(** ** Delimiter sniffing ([handle_file_upload], lines 56 to 63) *)

Definition TAB : ascii := "009"%char.

Definition sniff_delimiter (content : string) : ascii :=
  let sample := PyStr.slice_to 1024 content in
  if PyStr.contains_char ";" sample
     && (PyStr.count "," sample <? PyStr.count ";" sample)%nat
  then ";"%char
  else if PyStr.contains_char TAB sample
          && (PyStr.count "," sample <? PyStr.count TAB sample)%nat
  then TAB
  else ","%char.

(** The rule the specification words: counts over the first 1024 characters,
    semicolon on a strict majority over comma, else tab on a strict majority
    over comma, else comma. *)
Definition sniff_rule (content : string) : ascii :=
  let sample := PyStr.slice_to 1024 content in
  if (PyStr.count "," sample <? PyStr.count ";" sample)%nat then ";"%char
  else if (PyStr.count "," sample <? PyStr.count TAB sample)%nat then TAB
  else ","%char.

(** ** Exceptions

    Every [raise] of the module raises [ValueError]; the other classes are
    the ones the interpreter and the libraries raise on the paths modelled
    here.  [LibraryError] stands for whatever an external reader or the QC
    engine raises from inside. *)

Inductive exn : Type :=
| ValueError (msg : string)
| KeyError (key : string)
| IndexError (msg : string)
| AttributeError (msg : string)
| LibraryError (msg : string).

Inductive outcome (A : Type) : Type :=
| Ok (a : A)
| Raise (e : exn).
Arguments Ok {A} a.
Arguments Raise {A} e.

Definition DQUOTE : ascii := "034"%char.
Definition SQUOTE : ascii := "039"%char.
Definition BACKSLASH : ascii := "092"%char.

(** [repr] of a string, as [%R] and an f-string's [!r] print it: single
    quotes unless the string has a single quote and no double quote; the
    quote in use and the backslash are escaped, tab, newline and carriage
    return are written with their letters and the other characters that are
    not printable (the control characters below 32 and from 127 to 159, the
    no-break space 160 and the soft hyphen 173) as [\xhh]. *)
Module PyRepr.

Definition hex_digit (n : nat) : ascii :=
  if (n <? 10)%nat then ascii_of_nat (48 + n) else ascii_of_nat (87 + n).

Definition escape_char (quote a : ascii) : string :=
  let n := nat_of_ascii a in
  if Ascii.eqb a quote || Ascii.eqb a BACKSLASH
  then String BACKSLASH (String a "")
  else if (n =? 9)%nat then String BACKSLASH "t"
  else if (n =? 10)%nat then String BACKSLASH "n"
  else if (n =? 13)%nat then String BACKSLASH "r"
  else if (n <? 32)%nat || (127 <=? n)%nat && (n <=? 160)%nat || (n =? 173)%nat
  then String BACKSLASH
         (String "x" (String (hex_digit (n / 16)) (String (hex_digit (n mod 16)) "")))
  else String a "".

Fixpoint escape (quote : ascii) (s : string) : string :=
  match s with
  | EmptyString => EmptyString
  | String a s' => escape_char quote a +:+ escape quote s'
  end.

Definition repr (s : string) : string :=
  let quote :=
    if PyStr.contains_char SQUOTE s && negb (PyStr.contains_char DQUOTE s)
    then DQUOTE else SQUOTE in
  String quote (escape quote s +:+ String quote "").

End PyRepr.

(** [str(e)], which the f-strings of the handlers apply to a caught
    exception: the message, and for a [KeyError] the [repr] of the key. *)
Definition str_exn (e : exn) : string :=
  match e with
  | ValueError msg | IndexError msg | AttributeError msg | LibraryError msg => msg
  | KeyError key => PyRepr.repr key
  end.

(** ** [float()] on a string

    The accepted syntax is the one of CPython on strings of code points
    below 256.  The white space beyond ASCII (the next-line character 133
    and the no-break space 160) is first turned into a space; an underscore
    may stand between two digits; the white space of C ([isspace]: tab to
    carriage return and the space, not the separators 28 to 31) is dropped
    at both ends; then come an optional sign and either [inf], [infinity] or
    [nan] in any case, or digits with an optional point and an optional
    exponent.  No code point from 128 to 255 is a decimal digit, so every
    other character beyond ASCII makes the string unreadable.

    A finite value is kept as the decimal it denotes, [m * 10^e]: rounding
    to a binary double is not modelled, except that a decimal too large for
    a double reads as an infinity, as [float()] has it. *)
Module PyFloat.

Inductive t : Type :=
| Finite (m e : Z)
| Inf (negative : bool)
| NaN.

(** What the conversion to ASCII does to one character before the string
    is read. *)
Definition to_ascii_char (a : ascii) : ascii :=
  let n := nat_of_ascii a in
  if (n =? 133)%nat || (n =? 160)%nat then " "%char else a.

Fixpoint to_ascii (s : string) : string :=
  match s with
  | EmptyString => EmptyString
  | String a s' => String (to_ascii_char a) (to_ascii s')
  end.

Definition is_space (a : ascii) : bool :=
  let n := nat_of_ascii a in
  ((9 <=? n) && (n <=? 13) || (n =? 32))%nat.

Definition is_digit (a : ascii) : bool :=
  let n := nat_of_ascii a in ((48 <=? n) && (n <=? 57))%nat.

Definition digit_val (a : ascii) : Z := Z.of_nat (nat_of_ascii a) - 48.

Fixpoint lstrip (s : string) : string :=
  match s with
  | String a s' => if is_space a then lstrip s' else s
  | EmptyString => EmptyString
  end.

Definition strip (s : string) : string :=
  String.rev (lstrip (String.rev (lstrip s))).

(** Underscores: allowed only after a digit and before a digit.  [prev] is
    the previous character, if any. *)
Fixpoint drop_underscores (prev : option ascii) (s : string) : option string :=
  match s with
  | EmptyString =>
      match prev with
      | Some "_"%char => None
      | _ => Some EmptyString
      end
  | String a s' =>
      if Ascii.eqb a "_" then
        match prev with
        | Some p => if is_digit p then drop_underscores (Some a) s' else None
        | None => None
        end
      else
        match prev with
        | Some "_"%char =>
            if is_digit a
            then option_map (String a) (drop_underscores (Some a) s')
            else None
        | _ => option_map (String a) (drop_underscores (Some a) s')
        end
  end.

(** Reads a run of digits: the number read on top of [acc], how many
    digits there were, and what follows. *)
Fixpoint digits (acc : Z) (s : string) : Z * nat * string :=
  match s with
  | String a s' =>
      if is_digit a
      then let '(v, n, rest) := digits (10 * acc + digit_val a) s' in (v, S n, rest)
      else (acc, 0%nat, s)
  | EmptyString => (acc, 0%nat, s)
  end.

Definition sign (s : string) : bool * string :=
  match s with
  | String "-" s' => (true, s')
  | String "+" s' => (false, s')
  | _ => (false, s)
  end.

(** The exponent part, when there is a well-formed one at the head of [s];
    otherwise nothing is consumed. *)
Definition exponent (s : string) : Z * string :=
  match s with
  | String a s' =>
      if Ascii.eqb a "e" || Ascii.eqb a "E" then
        let '(neg, s'') := sign s' in
        let '(v, n, rest) := digits 0 s'' in
        match n with
        | O => (0, s)
        | S _ => (if neg then - v else v, rest)
        end
      else (0, s)
  | EmptyString => (0, s)
  end.

(** The decimals that round to an infinity: those of magnitude at least
    [2^1024 - 2^970], half a step above the largest double. *)
Definition overflows (m e : Z) : bool :=
  let limit := (2 ^ 54 - 1) * 2 ^ 970 in
  if 0 <=? e then limit <=? Z.abs m * 10 ^ e
  else limit * 10 ^ (- e) <=? Z.abs m.

Definition number (neg : bool) (s : string) : option t :=
  let '(ip, ni, r1) := digits 0 s in
  let '(m, nf, r2) :=
    match r1 with
    | String "." r => digits ip r
    | _ => (ip, 0%nat, r1)
    end in
  match (ni + nf)%nat with
  | O => None
  | S _ =>
      let '(ex, r3) := exponent r2 in
      match r3 with
      | EmptyString =>
          let e := ex - Z.of_nat nf in
          if overflows m e then Some (Inf neg)
          else Some (Finite (if neg then - m else m) e)
      | _ => None
      end
  end.

Definition parse (s : string) : option t :=
  match drop_underscores None (to_ascii s) with
  | None => None
  | Some s0 =>
      let '(neg, s2) := sign (strip s0) in
      let word := PyStr.lower s2 in
      if String.eqb word "inf" || String.eqb word "infinity" then Some (Inf neg)
      else if String.eqb word "nan" then Some NaN
      else number neg s2
  end.

(** The message of the [ValueError] that [float(s)] raises. *)
Definition error_message (s : string) : string :=
  "could not convert string to float: " +:+ PyRepr.repr s.

Definition float (s : string) : outcome t :=
  match parse s with
  | Some x => Ok x
  | None => Raise (ValueError (error_message s))
  end.

End PyFloat.

(** ** Data frames

    A cell is a missing value, a number or a string.  Numbers are rationals:
    the measurements and the flag codes are numbers, and nothing below
    depends on how a double rounds.  What a time stamp is once converted is
    left to the conversion, which the plot takes as a parameter. *)

Inductive cell : Type :=
| NaN
| Num (q : Q)
| Str (s : string).

Definition num_of_Z (z : Z) : cell := Num (inject_Z z).

(** Equality of two labels of an index. *)
Definition cell_eqb (a b : cell) : bool :=
  match a, b with
  | NaN, NaN => true
  | Num p, Num q => Qeq_bool p q
  | Str s, Str t => String.eqb s t
  | _, _ => false
  end.

(** The element-wise [c != k] of a column against an integer: a missing
    value and a string differ from every number. *)
Definition cell_ne (k : Z) (c : cell) : bool :=
  match c with
  | Num q => negb (Qeq_bool q (inject_Z k))
  | _ => true
  end.

(** The order of two labels, for a time index: numbers by value, strings
    lexicographically; a missing value is not comparable. *)
Definition cell_leb (a b : cell) : bool :=
  match a, b with
  | Num p, Num q => Qle_bool p q
  | Str s, Str t => String.leb s t
  | _, _ => false
  end.

(** What [frame[name]] selects: one column, or, when several columns carry
    the name, a two-dimensional block of them. *)
Inductive ndarray (A : Type) : Type :=
| Arr1 (xs : list A)
| Arr2 (rows : nat) (cols : list (list A)).
Arguments Arr1 {A} xs.
Arguments Arr2 {A} rows cols.

Definition shape {A} (a : ndarray A) : list nat :=
  match a with
  | Arr1 xs => [length xs]
  | Arr2 rows cols => [rows; length cols]
  end.

Definition ndarray_map {A B} (f : A -> B) (a : ndarray A) : ndarray B :=
  match a with
  | Arr1 xs => Arr1 (map f xs)
  | Arr2 rows cols => Arr2 rows (map (map f) cols)
  end.

Record DataFrame : Type := {
  index : list cell;
  columns : list (string * list cell)
}.

Definition nrows (df : DataFrame) : nat := length (index df).
Definition ncols (df : DataFrame) : nat := length (columns df).
Definition column_names (df : DataFrame) : list string := map fst (columns df).

(** The default row labels 0, 1, ..., n-1. *)
Definition range_index (n : nat) : list cell :=
  map (fun i => num_of_Z (Z.of_nat i)) (seq 0 n).

Definition named (name : string) (c : string * list cell) : bool :=
  String.eqb (fst c) name.

(** [df[name]]. *)
Definition getitem (df : DataFrame) (name : string) : outcome (ndarray cell) :=
  match List.filter (fun c => named name c) (columns df) with
  | [] => Raise (KeyError name)
  | [c] => Ok (Arr1 (snd c))
  | cs => Ok (Arr2 (nrows df) (map snd cs))
  end.

(** [df[name]] kept as a frame: the same columns under their name, with the
    row labels.  This is the operand of [pd.concat]. *)
Definition getitem_labelled (df : DataFrame) (name : string) : outcome DataFrame :=
  match List.filter (fun c => named name c) (columns df) with
  | [] => Raise (KeyError name)
  | cs => Ok {| index := index df; columns := cs |}
  end.

Definition index_eqb (i j : list cell) : bool :=
  (length i =? length j)%nat && forallb (fun p => cell_eqb (fst p) (snd p)) (combine i j).

Definition label_mem (l : cell) (labels : list cell) : bool :=
  existsb (cell_eqb l) labels.

Fixpoint unique_labels (labels : list cell) : bool :=
  match labels with
  | [] => true
  | l :: rest => negb (label_mem l rest) && unique_labels rest
  end.

(** The value a column holds at label [l], a missing value when the label is
    not in the column's index. *)
Fixpoint at_label (labels values : list cell) (l : cell) : cell :=
  match labels, values with
  | l' :: labels', v :: values' =>
      if cell_eqb l' l then v else at_label labels' values' l
  | _, _ => NaN
  end.

Definition reindex (labels values target : list cell) : list cell :=
  map (at_label labels values) target.

(** [pd.concat([a, b], axis=1)]: the columns of [a] and then those of [b],
    aligned on the row labels.  With equal indexes the rows are kept as they
    are.  Otherwise the rows are the union of the labels (those of [a], then
    the new ones of [b]) and a column is missing where it has no such label;
    pandas refuses this when a label occurs twice. *)
Definition concat_axis1 (a b : DataFrame) : outcome DataFrame :=
  if index_eqb (index a) (index b) then
    Ok {| index := index a; columns := columns a ++ columns b |}
  else if unique_labels (index a) && unique_labels (index b) then
    let idx :=
      index a ++ List.filter (fun l => negb (label_mem l (index a))) (index b) in
    Ok {| index := idx;
          columns :=
            map (fun c => (fst c, reindex (index a) (snd c) idx)) (columns a)
            ++ map (fun c => (fst c, reindex (index b) (snd c) idx)) (columns b) |}
  else
    Raise (LibraryError "Reindexing only valid with uniquely valued Index objects").

(** [df.set_index(key)]: the column [key] becomes the row labels and leaves
    the columns; the rows keep their order.  A key that names several
    columns is refused (as a library error: which one pandas raises there
    is not traced). *)
Definition set_index (df : DataFrame) (key : string) : outcome DataFrame :=
  match getitem df key with
  | Raise _ => Raise (KeyError ("None of [" +:+ PyRepr.repr key +:+ "] are in the columns"))
  | Ok (Arr1 xs) =>
      Ok {| index := xs;
            columns := List.filter (fun c => negb (named key c)) (columns df) |}
  | Ok (Arr2 _ _) => Raise (LibraryError "set_index on a duplicated column label")
  end.

(** [df.dropna(axis=0, how='all')]: the rows whose cells are all missing go,
    the others keep their labels. *)
Definition is_nan (c : cell) : bool :=
  match c with NaN => true | _ => false end.

Definition row_at (df : DataFrame) (i : nat) : list cell :=
  map (fun c => nth i (snd c) NaN) (columns df).

Definition keep_rows (df : DataFrame) : list bool :=
  map (fun i => negb (forallb is_nan (row_at df i))) (seq 0 (nrows df)).

Fixpoint select {A} (keep : list bool) (xs : list A) : list A :=
  match keep, xs with
  | k :: keep', x :: xs' => if k then x :: select keep' xs' else select keep' xs'
  | _, _ => []
  end.

Definition dropna_all (df : DataFrame) : DataFrame :=
  let keep := keep_rows df in
  {| index := select keep (index df);
     columns := map (fun c => (fst c, select keep (snd c))) (columns df) |}.

(** *** CSV documents

    [to_csv] and [read_csv] are pandas'; the text they exchange is kept as
    the header fields and the records' fields, a field being the cell it
    prints.  Quoting and the inference of types are not modelled. *)
Record CsvDocument : Type := {
  header : list string;
  records : list (list cell)
}.

(** [df.to_csv(index=False)]: the column names, then one record per row; the
    row labels are not written. *)
Definition to_csv_no_index (df : DataFrame) : CsvDocument :=
  {| header := column_names df;
     records := map (row_at df) (seq 0 (nrows df)) |}.

(** Reading a document back: one column per header field, one row per
    record, default row labels. *)
Definition read_csv_document (doc : CsvDocument) : DataFrame :=
  {| index := range_index (length (records doc));
     columns :=
       map (fun jn => (snd jn, map (fun r => nth (fst jn) r NaN) (records doc)))
           (combine (seq 0 (length (header doc))) (header doc)) |}.

(** *** Masked arrays *)

Record MaskedArray : Type := {
  ma_data : ndarray cell;
  ma_mask : ndarray bool
}.

(** [str] of a length, in decimal. *)
Definition py_nat (n : nat) : string := NilZero.string_of_uint (Nat.to_uint n).

(** A shape as Python prints the tuple: [(3,)], [(3, 2)]. *)
Definition shape_repr (s : list nat) : string :=
  match s with
  | [n] => "(" +:+ py_nat n +:+ ",)"
  | _ => "(" +:+ String.concat ", " (map py_nat s) +:+ ")"
  end.

(** [np.ma.masked_where(condition, a)]: [a] with the positions masked where
    the condition holds; the two must have one shape, and the error names
    both shapes when they differ. *)
Definition masked_where (condition : ndarray bool) (a : ndarray cell)
  : outcome MaskedArray :=
  if bool_decide (shape condition = shape a)
  then Ok {| ma_data := a; ma_mask := condition |}
  else Raise (IndexError
                ("Inconsistent shape between the condition and the input (got "
                 +:+ shape_repr (shape condition) +:+ " and "
                 +:+ shape_repr (shape a) +:+ ")")).

(** [m.tolist()] of a one-dimensional masked array: the value, or [None]
    where it is masked. *)
Definition tolist (m : MaskedArray) : list (option cell) :=
  match ma_data m, ma_mask m with
  | Arr1 xs, Arr1 ms =>
      map (fun p => if snd p : bool then None else Some (fst p)) (combine xs ms)
  | _, _ => []
  end.

(** [m.count()]: how many values are not masked. *)
Definition ma_count (m : MaskedArray) : nat :=
  length (List.filter (fun o => match o with Some _ => true | None => false end) (tolist m)).

(** ** The session: the global [uploaded_df], the page, the bundled
    configuration *)

(** An element of the page, with the attributes the handlers touch.  The
    children of a [select] are its options, by value; the message area has
    one child, the text shown. *)
Record Element : Type := {
  value : string;
  className : string;
  innerText : string;
  display : string;
  children : list string
}.

(** A test's parameters: a number, or a pair of bounds. *)
Inductive param_value : Type :=
| Scalar (x : PyFloat.t)
| Span (lo hi : PyFloat.t).

Definition TestConfig : Type := list (string * param_value).

(** [{"qartod": {test: {param: value}}}]: package, test, parameters. *)
Definition ConfigDict : Type := list (string * list (string * TestConfig)).

Record World : Type := {
  uploaded_df : option DataFrame;
  document : gmap string Element;
  qc_config_json : option ConfigDict;   (* the resource ./qc_config.json *)
  stdout : list string
}.

(** Handlers run in a state-and-exception monad: what was written before a
    [raise] stays written. *)
Definition M (A : Type) : Type := World -> outcome A * World.

Definition ret {A} (a : A) : M A := fun w => (Ok a, w).

Definition bind {A B} (m : M A) (k : A -> M B) : M B :=
  fun w =>
    match m w with
    | (Ok a, w') => k a w'
    | (Raise e, w') => (Raise e, w')
    end.

Definition raise {A} (e : exn) : M A := fun w => (Raise e, w).

Definition lift {A} (r : outcome A) : M A := fun w => (r, w).

Definition try_except {A} (body : M A) (handler : exn -> M A) : M A :=
  fun w =>
    match body w with
    | (Ok a, w') => (Ok a, w')
    | (Raise e, w') => handler e w'
    end.

Declare Scope monad_scope.
Delimit Scope monad_scope with M.
Notation "x <- m ;; k" := (bind m (fun x => k))
  (at level 100, m at next level, right associativity) : monad_scope.
Notation "m ;; k" := (bind m (fun _ => k))
  (at level 100, right associativity) : monad_scope.
Local Open Scope monad_scope.

Fixpoint for_each {A} (xs : list A) (body : A -> M unit) : M unit :=
  match xs with
  | [] => ret tt
  | x :: xs' => body x ;; for_each xs' body
  end.

Definition getElementById (id : string) : M (option Element) :=
  fun w => (Ok (document w !! id), w).

(** An attribute of what [getElementById] gave: [None] has none. *)
Definition attr (el : option Element) (name : string) : M Element :=
  match el with
  | Some e => ret e
  | None =>
      raise (AttributeError
               ("'NoneType' object has no attribute '" +:+ name +:+ "'"))
  end.

Definition set_element (id : string) (e : Element) : M unit :=
  fun w =>
    (Ok tt, {| uploaded_df := uploaded_df w;
               document := <[id := e]> (document w);
               qc_config_json := qc_config_json w;
               stdout := stdout w |}).

Definition set_uploaded_df (df : DataFrame) : M unit :=
  fun w =>
    (Ok tt, {| uploaded_df := Some df;
               document := document w;
               qc_config_json := qc_config_json w;
               stdout := stdout w |}).

Definition get_uploaded_df : M (option DataFrame) :=
  fun w => (Ok (uploaded_df w), w).

Definition print (line : string) : M unit :=
  fun w =>
    (Ok tt, {| uploaded_df := uploaded_df w;
               document := document w;
               qc_config_json := qc_config_json w;
               stdout := stdout w ++ [line] |}).

(** [show_message], lines 403 to 411. *)
Definition show_message (msg_html alert_type : string) : M unit :=
  message_div <- getElementById "message" ;;
  e <- attr message_div "className" ;;
  set_element "message"
    {| value := value e;
       className := "alert alert-" +:+ alert_type;
       innerText := innerText e;
       display := "block";
       children := [msg_html] |}.

(** [update_variable_options], lines 318 to 332. *)
Definition update_variable_options : M unit :=
  df <- get_uploaded_df ;;
  match df with
  | None => ret tt
  | Some df =>
      for_each ["variableSelect"; "xVariableSelect"; "yVariableSelect"]
        (fun var_id =>
           select_el <- getElementById var_id ;;
           e <- attr select_el "innerHTML" ;;
           set_element var_id
             {| value := value e;
                className := className e;
                innerText := innerText e;
                display := display e;
                children := column_names df |})
  end.

(** [get_value_by_id], lines 102 to 106. *)
Definition get_value_by_id (id : string) : M PyFloat.t :=
  el <- getElementById id ;;
  match el with
  | None => raise (ValueError ("Element with ID '" +:+ id +:+ "' not found."))
  | Some e => lift (PyFloat.float (value e))
  end.

(** [get_user_config], lines 130 to 161. *)
Definition get_user_config (selected_test : string) : M ConfigDict :=
  config <-
    (if String.eqb selected_test "gross_range_test" then
       fail_span_min <- get_value_by_id "fail_span_min" ;;
       fail_span_max <- get_value_by_id "fail_span_max" ;;
       suspect_span_min <- get_value_by_id "suspect_span_min" ;;
       suspect_span_max <- get_value_by_id "suspect_span_max" ;;
       ret [("fail_span", Span fail_span_min fail_span_max);
            ("suspect_span", Span suspect_span_min suspect_span_max)]
     else if String.eqb selected_test "flat_line_test" then
       tolerance <- get_value_by_id "tolerance" ;;
       suspect_threshold <- get_value_by_id "suspect_threshold" ;;
       fail_threshold <- get_value_by_id "fail_threshold" ;;
       ret [("tolerance", Scalar tolerance);
            ("suspect_threshold", Scalar suspect_threshold);
            ("fail_threshold", Scalar fail_threshold)]
     else if String.eqb selected_test "rate_of_change_test" then
       threshold <- get_value_by_id "threshold" ;;
       ret [("threshold", Scalar threshold)]
     else if String.eqb selected_test "spike_test" then
       suspect_threshold <- get_value_by_id "suspect_threshold" ;;
       fail_threshold <- get_value_by_id "fail_threshold" ;;
       ret [("suspect_threshold", Scalar suspect_threshold);
            ("fail_threshold", Scalar fail_threshold)]
     else
       raise (ValueError ("Unknown test selected: " +:+ selected_test))) ;;
  ret [("qartod", [(selected_test, config)])].

(** The four masked arrays [make_mask] returns, under their keys. *)
Record Masks : Type := {
  qc_pass : MaskedArray;
  qc_suspect : MaskedArray;
  qc_fail : MaskedArray;
  qc_notrun : MaskedArray
}.

Definition outcome_bind {A B} (r : outcome A) (k : A -> outcome B) : outcome B :=
  match r with
  | Ok a => k a
  | Raise e => Raise e
  end.

(** [make_mask], lines 188 to 197. *)
Definition make_mask (df result : DataFrame) (variable qc_test : string)
  : outcome Masks :=
  outcome_bind (getitem df variable) (fun obs =>
  outcome_bind (getitem result qc_test) (fun mask =>
  outcome_bind (masked_where (ndarray_map (cell_ne 1) mask) obs) (fun p =>
  outcome_bind (masked_where (ndarray_map (cell_ne 3) mask) obs) (fun s =>
  outcome_bind (masked_where (ndarray_map (cell_ne 4) mask) obs) (fun f =>
  outcome_bind (masked_where (ndarray_map (cell_ne 2) mask) obs) (fun n =>
  Ok {| qc_pass := p; qc_suspect := s; qc_fail := f; qc_notrun := n |})))))).

(** ** The handlers that call the external libraries

    The readers and the QC engine are not part of the program: they are
    parameters here.  A reader gives a frame or fails with a message of its
    own; the engine is built from a configuration and then run on three
    selections of the frame, giving per package and test one flag code per
    observation. *)

Abbreviation EngineResults := (gmap string (gmap string (list Z))).

Definition from_library {A} (r : string + A) : outcome A :=
  match r with
  | inr a => Ok a
  | inl msg => Raise (LibraryError msg)
  end.

(** [pd.DataFrame(d, columns=d.keys())] for a dict of arrays: one column per
    key, default row labels; arrays of different lengths are refused. *)
Definition frame_of_dict (d : gmap string (list Z)) : outcome DataFrame :=
  match map_to_list d with
  | [] => Ok {| index := []; columns := [] |}
  | (k, a) :: rest =>
      if forallb (fun c => (length (snd c) =? length a)%nat) rest
      then Ok {| index := range_index (length a);
                 columns := map (fun c => (fst c, map num_of_Z (snd c)))
                                ((k, a) :: rest) |}
      else Raise (ValueError "All arrays must be of the same length")
  end.

Definition UNSUPPORTED : string :=
  "Unsupported file type. Please upload a .csv or .nc file.".

Section Handlers.

(** [pd.read_csv(StringIO(content), delimiter=delimiter)]. *)
Variable read_csv : string -> ascii -> string + DataFrame.

(** [xr.open_dataset(io.BytesIO(buffer))], then
    [ds.to_dataframe().reset_index()]. *)
Variable open_dataset_to_dataframe : string -> string + DataFrame.

(** [QcConfig(qc_config)] and [qc.run(inp=..., tinp=..., zinp=...)]. *)
Variable qc : Type.
Variable QcConfig : ConfigDict -> string + qc.
Variable run :
  qc -> ndarray cell -> ndarray cell -> ndarray cell -> string + EngineResults.

(** [json.load(open_url("./qc_config.json"))]. *)
Definition load_default_config : M ConfigDict :=
  fun w =>
    match qc_config_json w with
    | Some c => (Ok c, w)
    | None => (Raise (LibraryError "./qc_config.json"), w)
    end.

(** [run_tests], lines 164 to 186. *)
Definition run_tests (df : DataFrame) (variable selected_test x_var y_var : string)
           (use_defaults : bool) : M DataFrame :=
  qc_config <-
    (if use_defaults then load_default_config
     else get_user_config selected_test) ;;
  qc <- lift (from_library (QcConfig qc_config)) ;;
  inp <- lift (getitem df variable) ;;
  tinp <- lift (getitem df x_var) ;;
  zinp <- lift (getitem df y_var) ;;
  qc_results <- lift (from_library (run qc inp tinp zinp)) ;;
  qartod <-
    lift (match qc_results !! "qartod" with
          | Some d => Ok d
          | None => Raise (KeyError "qartod")
          end) ;;
  qc_result_pd <- lift (frame_of_dict qartod) ;;
  test_results <- lift (getitem_labelled qc_result_pd selected_test) ;;
  result <- lift (concat_axis1 df test_results) ;;
  lift (set_index result x_var).

(** The dispatch on the file name inside [onload], lines 54 to 80: what
    the [try] runs up to the assignment of [uploaded_df]. *)
Definition ingest (filename content : string) : M unit :=
  if PyStr.endswith filename ".csv" then
    let delimiter := sniff_delimiter content in
    df <- lift (from_library (read_csv content delimiter)) ;;
    set_uploaded_df df
  else if PyStr.endswith filename ".nc" then
    df <- lift (from_library (open_dataset_to_dataframe content)) ;;
    set_uploaded_df (dropna_all df)
  else
    raise (ValueError UNSUPPORTED).

(** [onload], lines 48 to 90. *)
Definition onload (file_name content : string) : M unit :=
  let filename := PyStr.lower file_name in
  try_except
    (ingest filename content ;;
     update_variable_options ;;
     filename_display <- getElementById "filename-display" ;;
     e <- attr filename_display "innerText" ;;
     set_element "filename-display"
       {| value := value e;
          className := className e;
          innerText := file_name;
          display := display e;
          children := children e |} ;;
     show_message ("File '" +:+ file_name +:+ "' loaded successfully.") "success")
    (fun e =>
       show_message ("Failed to load file: " +:+ str_exn e) "danger" ;;
       print ("File load error: " +:+ str_exn e)).

(** The two blocks of [onload] on their own.  [onload_try] is the [try]
    block, lines 53 to 86, entered with the name lower-cased by line 51;
    [onload_except] is the [except] block, lines 88 to 90. *)
Definition onload_try (file_name content : string) : M unit :=
  let filename := PyStr.lower file_name in
  ingest filename content ;;
  update_variable_options ;;
  filename_display <- getElementById "filename-display" ;;
  e <- attr filename_display "innerText" ;;
  set_element "filename-display"
    {| value := value e;
       className := className e;
       innerText := file_name;
       display := display e;
       children := children e |} ;;
  show_message ("File '" +:+ file_name +:+ "' loaded successfully.") "success".

Definition onload_except (e : exn) : M unit :=
  show_message ("Failed to load file: " +:+ str_exn e) "danger" ;;
  print ("File load error: " +:+ str_exn e).

(** [handle_file_upload], lines 41 to 99: with a file selected, the reader
    delivers its content to [onload]; without one nothing happens. *)
Definition handle_file_upload (file : option (string * string)) : M unit :=
  match file with
  | Some (name, content) => onload name content
  | None => ret tt
  end.

(** [download_processed_data], lines 334 to 361, up to the CSV it offers:
    [None] when no data was uploaded. *)
Definition download_processed_data : M (option CsvDocument) :=
  df <- get_uploaded_df ;;
  match df with
  | None =>
      show_message "No data to download. Please upload a file first." "warning" ;;
      ret None
  | Some uploaded =>
      select <- getElementById "select" ;;
      qc_test <- attr select "value" ;;
      variableSelect <- getElementById "variableSelect" ;;
      variable <- attr variableSelect "value" ;;
      xVariableSelect <- getElementById "xVariableSelect" ;;
      x_var <- attr xVariableSelect "value" ;;
      yVariableSelect <- getElementById "yVariableSelect" ;;
      y_var <- attr yVariableSelect "value" ;;
      result <- run_tests uploaded (value variable) (value qc_test)
                          (value x_var) (value y_var) false ;;
      let csv_content := to_csv_no_index result in
      show_message "File successfully downloaded." "success" ;;
      ret (Some csv_content)
  end.

(** The chain of the round trip: annotate, mask, write the annotated frame
    as the download does, read it back. *)
Definition annotate_mask_export_reload
           (df : DataFrame) (variable selected_test x_var y_var : string)
  : M DataFrame :=
  result <- run_tests df variable selected_test x_var y_var false ;;
  _ <- lift (make_mask df result variable selected_test) ;;
  ret (read_csv_document (to_csv_no_index result)).

End Handlers.

Arguments run_tests {qc} QcConfig run df variable selected_test x_var y_var use_defaults.
Arguments download_processed_data {qc} QcConfig run.
Arguments annotate_mask_export_reload {qc} QcConfig run df variable selected_test x_var y_var.

(** The labels of a time index follow one another in ascending order. *)
Fixpoint ascending (labels : list cell) : bool :=
  match labels with
  | a :: (b :: _) as rest => cell_leb a b && ascending rest
  | _ => true
  end.

(** A frame is well formed when every column has one cell per row label. *)
Definition well_formed (df : DataFrame) : Prop :=
  Forall (fun c => length (snd c) = nrows df) (columns df).

(** A cell holds the flag code [code]. *)
Definition has_code (c : cell) (code : Z) : Prop :=
  cell_eqb c (num_of_Z code) = true.

(** The flag codes the masks are cut by: PASS, NOT_RUN, SUSPECT, FAIL. *)
Definition flag_codes : list Z := [1; 2; 3; 4].

(** A bucket's entry for a row holds a value (is not the absent marker). *)
Definition holds_value (entry : option (option cell)) : bool :=
  match entry with
  | Some (Some _) => true
  | _ => false
  end.

(** ** The parameter schema, [test_params], lines 19 to 38 *)

Record ParamDescriptor : Type := {
  name : string;
  label : string;
  type : string;
  default : Q
}.

Definition test_params : list (string * list ParamDescriptor) :=
  [("gross_range_test",
    [{| name := "fail_span_min"; label := "Fail Span Min"; type := "number"; default := -10 |};
     {| name := "fail_span_max"; label := "Fail Span Max"; type := "number"; default := 10 |};
     {| name := "suspect_span_min"; label := "Suspect Span Min"; type := "number"; default := -2 |};
     {| name := "suspect_span_max"; label := "Suspect Span Max"; type := "number"; default := 3 |}]);
   ("flat_line_test",
    [{| name := "tolerance"; label := "Tolerance"; type := "number"; default := 1 # 1000 |};
     {| name := "suspect_threshold"; label := "Suspect Threshold"; type := "number"; default := 10800 |};
     {| name := "fail_threshold"; label := "Fail Threshold"; type := "number"; default := 21600 |}]);
   ("rate_of_change_test",
    [{| name := "threshold"; label := "Threshold"; type := "number"; default := 1 # 1000 |}]);
   ("spike_test",
    [{| name := "suspect_threshold"; label := "Suspect Threshold"; type := "number"; default := 8 # 10 |};
     {| name := "fail_threshold"; label := "Fail Threshold"; type := "number"; default := 3 |}])]%Q.

(** The built-in test identifiers: the keys of [test_params]. *)
Definition built_in_tests : list string := map fst test_params.

(** The form fields of a test, in the order of its descriptors. *)
Definition form_fields (test : string) : list string :=
  match List.find (fun t => String.eqb (fst t) test) test_params with
  | Some t => map name (snd t)
  | None => []
  end.

(** ** Sample data: a page, an upload, an engine

    The concrete inputs the examples below are run on. *)

Definition input_with (v : string) : Element :=
  {| value := v; className := "form-control"; innerText := "";
     display := ""; children := [] |}.

Definition blank : Element := input_with "".

(** The page after [render_test_inputs] for the spike test, defaults in. *)
Definition spike_page : gmap string Element :=
  <["suspect_threshold" := input_with "0.8"]>
    (<["fail_threshold" := input_with "3"]>
       (<["message" := blank]>
          (<["filename-display" := blank]>
             (<["variableSelect" := blank]>
                (<["xVariableSelect" := blank]>
                   (<["yVariableSelect" := blank]> ∅)))))).

(** The same page with the rate-of-change form, its one field cleared. *)
Definition cleared_page : gmap string Element :=
  <["threshold" := input_with ""]> spike_page.

Definition world_of (df : option DataFrame) (page : gmap string Element) : World :=
  {| uploaded_df := df; document := page; qc_config_json := None; stdout := [] |}.

(** Three observations, not in time order. *)
Definition sample_df : DataFrame :=
  {| index := range_index 3;
     columns :=
       [("time", [num_of_Z 30; num_of_Z 10; num_of_Z 20]);
        ("z", [num_of_Z 0; num_of_Z 0; num_of_Z 0]);
        ("sea_surface_height_above_sea_level", [Num (3 # 2); Num (1 # 2); Num (5 # 2)])] |}.

(** [sample_df] annotated by the spike test as [run_tests] returns it with
    the engine below: the time column is the index, the flags come last. *)
Definition sample_annotated : DataFrame :=
  {| index := [num_of_Z 30; num_of_Z 10; num_of_Z 20];
     columns :=
       [("z", [num_of_Z 0; num_of_Z 0; num_of_Z 0]);
        ("sea_surface_height_above_sea_level", [Num (3 # 2); Num (1 # 2); Num (5 # 2)]);
        ("spike_test", [num_of_Z 1; num_of_Z 1; num_of_Z 1])] |}.

(** The same with one observation failing and one suspect. *)
Definition sample_flagged : DataFrame :=
  {| index := [num_of_Z 30; num_of_Z 10; num_of_Z 20];
     columns :=
       [("z", [num_of_Z 0; num_of_Z 0; num_of_Z 0]);
        ("sea_surface_height_above_sea_level", [Num (3 # 2); Num (1 # 2); Num (5 # 2)]);
        ("spike_test", [num_of_Z 1; num_of_Z 4; num_of_Z 3])] |}.

(** [sample_df] with one more column, which [make_mask] does not read. *)
Definition sample_df_with_notes : DataFrame :=
  {| index := index sample_df;
     columns := columns sample_df ++ [("notes", [Str "a"; Str "b"; Str "c"])] |}.

(** What reading back the CSV of [sample_annotated] gives. *)
Definition sample_reloaded : DataFrame :=
  {| index := range_index 3; columns := columns sample_annotated |}.

(** A decoded NetCDF table whose second row is empty throughout, and the
    dataset [onload] keeps of it: the rows labelled 0 and 2. *)
Definition decoded_with_empty_row : DataFrame :=
  {| index := range_index 3;
     columns :=
       [("time", [num_of_Z 10; NaN; num_of_Z 30]);
        ("z", [num_of_Z 0; NaN; num_of_Z 0]);
        ("sea_surface_height_above_sea_level", [Num (3 # 2); NaN; Num (5 # 2)])] |}.

Definition gapped_df : DataFrame := dropna_all decoded_with_empty_row.

(** An engine that accepts every configuration and flags every observation
    of a one-dimensional input as passing, for each test configured. *)
Definition accept_config (c : ConfigDict) : string + ConfigDict := inr c.

Definition pass_all (c : ConfigDict) (inp tinp zinp : ndarray cell)
  : string + EngineResults :=
  match inp with
  | Arr1 xs =>
      inr (list_to_map
             (map (fun pkg =>
                     (fst pkg,
                      list_to_map
                        (map (fun t => (fst t, repeat 1 (length xs))) (snd pkg))))
                  c))
  | Arr2 _ _ => inl "the input is not one-dimensional"
  end.

(** The configuration the builder reads off [spike_page], and what
    [pass_all] answers on [sample_df] under it. *)
Definition sample_config : ConfigDict :=
  [("qartod",
    [("spike_test",
      [("suspect_threshold", Scalar (PyFloat.Finite 8 (-1)));
       ("fail_threshold", Scalar (PyFloat.Finite 3 0))])])].

Definition sample_flags : gmap string (list Z) := {["spike_test" := [1; 1; 1]]}.

Definition sample_results : EngineResults := {["qartod" := sample_flags]}.

(** Readers: one that parses every text to [sample_df] except the empty one,
    on which pandas reports that there is nothing to parse; one that fails
    on every buffer. *)
Definition sample_read_csv (content : string) (delimiter : ascii)
  : string + DataFrame :=
  if String.eqb content "" then inl "No columns to parse from file"
  else inr sample_df.

Definition failing_open_dataset (content : string) : string + DataFrame :=
  inl "did not find a match in any of xarray's currently installed IO backends".

(** ** Vocabulary of the statements *)

(** A computation that only reads: whatever it answers, the world it leaves
    is the one it found. *)
Definition read_only {A} (m : M A) : Prop := forall w, snd (m w) = w.

(** A field reads when it is on the page and [float] accepts its value. *)
Definition field_reads (w : World) (id : string) : Prop :=
  exists e x, document w !! id = Some e /\ PyFloat.parse (value e) = Some x.

(** The last character of a string, if it has one. *)
Fixpoint last_char (s : string) : option ascii :=
  match s with
  | EmptyString => None
  | String a EmptyString => Some a
  | String _ s' => last_char s'
  end.

(** A computation that leaves the global [uploaded_df] as it found it. *)
Definition keeps_dataset {A} (m : M A) : Prop :=
  forall w, uploaded_df (snd (m w)) = uploaded_df w.

(** The one-dimensional masked array of [obs] under [condition]. *)
Definition mask_1d (obs : list cell) (condition : list bool) : MaskedArray :=
  {| ma_data := Arr1 obs; ma_mask := Arr1 condition |}.

(** A column of the engine's dict, as the column of cells the frame holds. *)
Definition flag_column (c : string * list Z) : string * list cell :=
  (fst c, map num_of_Z (snd c)).

(** ** Further sample data *)

(** [sample_annotated] with the second observation flagged MISSING (9), the
    code the engine gives a value it could not test. *)
Definition sample_missing_flag : DataFrame :=
  {| index := [num_of_Z 30; num_of_Z 10; num_of_Z 20];
     columns :=
       [("z", [num_of_Z 0; num_of_Z 0; num_of_Z 0]);
        ("sea_surface_height_above_sea_level", [Num (3 # 2); Num (1 # 2); Num (5 # 2)]);
        ("spike_test", [num_of_Z 1; num_of_Z 9; num_of_Z 3])] |}.

(** An annotated frame one row short. *)
Definition sample_short : DataFrame :=
  {| index := [num_of_Z 30; num_of_Z 10];
     columns := [("spike_test", [num_of_Z 1; num_of_Z 1])] |}.

(** ** Vocabulary of the further statements *)

(** The session [w] with the page [d]. *)
Definition with_document (w : World) (d : gmap string Element) : World :=
  {| uploaded_df := uploaded_df w;
     document := d;
     qc_config_json := qc_config_json w;
     stdout := stdout w |}.

(** The message area [e] once it shows [msg_html] as an alert of
    [alert_type]. *)
Definition message_shown (e : Element) (msg_html alert_type : string) : Element :=
  {| value := value e;
     className := "alert alert-" +:+ alert_type;
     innerText := innerText e;
     display := "block";
     children := [msg_html] |}.

(** The selector [e] once its options are [names]. *)
Definition with_options (e : Element) (names : list string) : Element :=
  {| value := value e;
     className := className e;
     innerText := innerText e;
     display := display e;
     children := names |}.

(** The three selectors of the page. *)
Definition selectors : list string :=
  ["variableSelect"; "xVariableSelect"; "yVariableSelect"].

(** A computation that leaves the message area on the page if it was
    there. *)
Definition keeps_message {A} (m : M A) : Prop :=
  forall w, is_Some (document w !! "message") ->
            is_Some (document (snd (m w)) !! "message").

(** A page with neither message area nor anything else. *)
Definition bare_world : World := world_of None ∅.

(** A page with everything [onload] touches but the file name display. *)
Definition page_without_filename_display : gmap string Element :=
  delete "filename-display" spike_page.

(** A page with the test selector on [spike_test], the three column
    selectors on the columns of [sample_df], and the spike form filled. *)
Definition chosen_page : gmap string Element :=
  <["select" := input_with "spike_test"]>
    (<["variableSelect" := input_with "sea_surface_height_above_sea_level"]>
       (<["xVariableSelect" := input_with "time"]>
          (<["yVariableSelect" := input_with "z"]> spike_page))).

(** The same page with the spike form's second field cleared. *)
Definition chosen_page_cleared : gmap string Element :=
  <["fail_threshold" := input_with ""]> chosen_page.

(** An engine that ran only the gross range test. *)
Definition gross_range_only (c : ConfigDict) (inp tinp zinp : ndarray cell)
  : string + EngineResults :=
  inr {["qartod" := {["gross_range_test" := [1; 1; 1]]}]}.

(** A session that holds the bundled configuration, on the page [page]. *)
Definition bundled_world (page : gmap string Element) : World :=
  {| uploaded_df := None;
     document := page;
     qc_config_json := Some sample_config;
     stdout := [] |}.

(** ** The form of a test: [render_test_inputs], lines 108 to 128 *)

(** [str] of a default of the schema.  An integral default is a Python int
    and prints as one; the others are floats with a short terminating
    decimal expansion, which is what [str] prints for them. *)
Fixpoint fixed_digits (k : nat) (n : Z) : string :=
  match k with
  | O => ""
  | S k' =>
      fixed_digits k' (n / 10)
      +:+ String (ascii_of_nat (48 + Z.to_nat (n mod 10))) ""
  end.

Fixpoint decimals (fuel k : nat) (num den : Z) : nat :=
  match fuel with
  | O => k
  | S fuel' =>
      if (num * 10 ^ Z.of_nat k) mod den =? 0 then k
      else decimals fuel' (S k) num den
  end.

Definition py_str_number (q : Q) : string :=
  let n := Qnum q in
  let d := Z.pos (Qden q) in
  if d =? 1 then NilZero.string_of_int (Z.to_int n)
  else
    let k := decimals 17 0 n d in
    let scaled := Z.abs n * 10 ^ Z.of_nat k / d in
    (if n <? 0 then "-" else "")
    +:+ NilZero.string_of_int (Z.to_int (scaled / 10 ^ Z.of_nat k))
    +:+ "." +:+ fixed_digits k (scaled mod 10 ^ Z.of_nat k).

(** The input element created for a parameter: its id is the parameter's
    name, its value the default as [str] prints it.  (The label, which has
    no id, and the input's type are not kept.) *)
Definition new_input (param : ParamDescriptor) : Element :=
  {| value := py_str_number (default param);
     className := "form-control";
     innerText := "";
     display := "";
     children := [] |}.

(** [test_params[selected_test]]. *)
Definition test_params_getitem (selected_test : string)
  : outcome (list ParamDescriptor) :=
  match List.find (fun t => String.eqb (fst t) selected_test) test_params with
  | Some t => Ok (snd t)
  | None => Raise (KeyError selected_test)
  end.

(** The page keeps, for a container, the ids of the elements inside it.
    [container.innerHTML = ""] takes these elements off the page. *)
Definition clear_container (id : string) (container : Element) : M unit :=
  fun w =>
    (Ok tt,
     {| uploaded_df := uploaded_df w;
        document :=
          <[id := {| value := value container;
                     className := className container;
                     innerText := innerText container;
                     display := display container;
                     children := [] |}]>
            (foldr delete (document w) (children container));
        qc_config_json := qc_config_json w;
        stdout := stdout w |}).

(** [container.appendChild(...)] of an element that carries the id
    [child_id]: the element is on the page from then on, as the last one of
    the container. *)
Definition append_child (id child_id : string) (child : Element) : M unit :=
  container <- getElementById id ;;
  c <- attr container "appendChild" ;;
  set_element child_id child ;;
  set_element id
    {| value := value c;
       className := className c;
       innerText := innerText c;
       display := display c;
       children := children c ++ [child_id] |}.

Definition render_test_inputs : M unit :=
  select <- getElementById "select" ;;
  s <- attr select "value" ;;
  let selected_test := value s in
  container <- getElementById "params-form" ;;
  c <- attr container "innerHTML" ;;
  clear_container "params-form" c ;;
  params <- lift (test_params_getitem selected_test) ;;
  for_each params (fun param => append_child "params-form" (name param) (new_input param)).

(** [selectChange], lines 313 to 316. *)
Definition selectChange : M unit :=
  select <- getElementById "select" ;;
  choice <- attr select "value" ;;
  print ("Selected choice: " +:+ value choice) ;;
  render_test_inputs.

(** ** Plotting: [plot], [run_qc_test], [handle_example_btn] *)

(** [try: body finally: final]: [final] runs however [body] ends; an
    exception of [final] replaces the outcome. *)
Definition try_finally {A} (body : M A) (final : M unit) : M A :=
  fun w =>
    match body w with
    | (r, w') =>
        match final w' with
        | (Ok _, w'') => (r, w'')
        | (Raise e, w'') => (Raise e, w'')
        end
    end.

(** [el.style.display = d] under [if el:]: nothing without the element. *)
Definition set_display_if_present (id d : string) : M unit :=
  el <- getElementById id ;;
  match el with
  | None => ret tt
  | Some e =>
      set_element id
        {| value := value e;
           className := className e;
           innerText := innerText e;
           display := d;
           children := children e |}
  end.

(** [document.getElementById(id).style.display = d]. *)
Definition set_display (id d : string) : M unit :=
  el <- getElementById id ;;
  e <- attr el "style" ;;
  set_element id
    {| value := value e;
       className := className e;
       innerText := innerText e;
       display := d;
       children := children e |}.

Definition QUOTE : string := String DQUOTE "".

(** The message of lines 227 and 418. *)
Definition DEFAULT_FILE_MESSAGE : string :=
  "Using <a href=" +:+ QUOTE
  +:+ "https://github.com/ioos/ioos-qc-wasm-web/blob/main/water_level_example_test.csv"
  +:+ QUOTE +:+ " target=" +:+ QUOTE +:+ "_blank" +:+ QUOTE
  +:+ ">default file (water_level_example_test.csv)</a> for display.".

(** [df[name] = values], for values of the frame's length: the column takes
    the values where it is, or comes last if the frame has none of that
    name. *)
Definition setitem (df : DataFrame) (name : string) (values : list cell)
  : DataFrame :=
  {| index := index df;
     columns :=
       if existsb (fun c => named name c) (columns df)
       then map (fun c => if named name c then (fst c, values) else c) (columns df)
       else columns df ++ [(name, values)] |}.

(** [m.tolist()] in general: the values in the array's shape, [None] where
    masked. *)
Definition masked_tolist (m : MaskedArray) : ndarray (option cell) :=
  match ma_data m, ma_mask m with
  | Arr1 _, Arr1 _ => Arr1 (tolist m)
  | Arr2 rows cols, Arr2 _ masks =>
      Arr2 rows
           (map (fun p =>
                   map (fun q => if snd q : bool then None else Some (fst q))
                       (combine (fst p) (snd p)))
                (combine cols masks))
  | _, _ => Arr1 []
  end.

(** A trace handed to Plotly, and the figure. *)
Record Trace : Type := {
  trace_x : ndarray string;
  trace_y : ndarray (option cell);
  trace_mode : string;
  trace_name : string;
  trace_color : string
}.

Record Figure : Type := {
  traces : list Trace;
  title : string;
  xaxis_title : string;
  yaxis_title : string
}.

(** The columns [plot] works on: the selectors' values, or the names of the
    example file when the measurement selector is empty. *)
Definition chosen_columns (variable x_var y_var : string)
  : string * string * string :=
  if String.eqb variable ""
  then ("sea_surface_height_above_sea_level", "time", "z")
  else (variable, x_var, y_var).

Section PlotHandlers.

Variable qc : Type.
Variable QcConfig : ConfigDict -> string + qc.
Variable run :
  qc -> ndarray cell -> ndarray cell -> ndarray cell -> string + EngineResults.

(** [str] of a cell, as [astype(str)] prints it. *)
Variable astype_str : cell -> string.

(** [pd.to_datetime(column, errors="raise")]. *)
Variable to_datetime : ndarray cell -> string + list cell.

(** [pd.read_csv(open_url("./water_level_example_test.csv"))]. *)
Variable read_example_csv : string + DataFrame.

(** [df[x_var].astype(str).str.strip()]: only a single column has [.str]. *)
Definition astype_str_strip (column : ndarray cell) : outcome (list cell) :=
  match column with
  | Arr1 xs => Ok (map (fun c => Str (PyStr.strip (astype_str c))) xs)
  | Arr2 _ _ => Raise (AttributeError "'DataFrame' object has no attribute 'str'")
  end.

(** The figure of lines 242 to 298: the line of the measurements and the
    four marker series, all over the same times. *)
Definition build_figure (df : DataFrame) (mask : Masks)
           (variable x_var qc_test : string) : outcome Figure :=
  outcome_bind (getitem df x_var) (fun times =>
  outcome_bind (getitem df variable) (fun obs =>
  let x := ndarray_map astype_str times in
  Ok {| traces :=
          [{| trace_x := x; trace_y := ndarray_map Some obs;
              trace_mode := "lines"; trace_name := variable; trace_color := "blue" |};
           {| trace_x := x; trace_y := masked_tolist (qc_fail mask);
              trace_mode := "markers"; trace_name := "Fail"; trace_color := "red" |};
           {| trace_x := x; trace_y := masked_tolist (qc_notrun mask);
              trace_mode := "markers"; trace_name := "Not Run"; trace_color := "gray" |};
           {| trace_x := x; trace_y := masked_tolist (qc_suspect mask);
              trace_mode := "markers"; trace_name := "Suspect"; trace_color := "orange" |};
           {| trace_x := x; trace_y := masked_tolist (qc_pass mask);
              trace_mode := "markers"; trace_name := "Pass"; trace_color := "green" |}];
        title := variable +:+ " - " +:+ qc_test;
        xaxis_title := x_var;
        yaxis_title := variable |})).

(** What [plot] runs under its [try], lines 207 to 305.  The frame [df] is
    the global [uploaded_df] itself, so each assignment to a column is an
    assignment to the global.  The value is the figure handed to Plotly,
    [None] when nothing is drawn. *)
Definition plot_body (qc_test : string) (use_defaults : bool) : M (option Figure) :=
  uploaded <- get_uploaded_df ;;
  match uploaded with
  | None => show_message "No file uploaded." "info" ;; ret None
  | Some df =>
      variable_select <- getElementById "variableSelect" ;;
      v <- attr variable_select "value" ;;
      x_select <- getElementById "xVariableSelect" ;;
      x <- attr x_select "value" ;;
      y_select <- getElementById "yVariableSelect" ;;
      y <- attr y_select "value" ;;
      (if String.eqb (value v) ""
       then show_message DEFAULT_FILE_MESSAGE "info"
       else show_message "Uploaded file loaded and used." "info") ;;
      let '(variable, x_var, y_var) := chosen_columns (value v) (value x) (value y) in
      column <- lift (getitem df x_var) ;;
      stripped <- lift (astype_str_strip column) ;;
      let df1 := setitem df x_var stripped in
      set_uploaded_df df1 ;;
      column1 <- lift (getitem df1 x_var) ;;
      times <- lift (from_library (to_datetime column1)) ;;
      let df2 := setitem df1 x_var times in
      set_uploaded_df df2 ;;
      result <- run_tests QcConfig run df2 variable qc_test x_var y_var use_defaults ;;
      mask <- lift (make_mask df2 result variable qc_test) ;;
      fig <- lift (build_figure df2 mask variable x_var qc_test) ;;
      ret (Some fig)
  end.

(** [plot], lines 199 to 312. *)
Definition plot (qc_test : string) (use_defaults : bool) : M (option Figure) :=
  set_display_if_present "loadingIndicator" "block" ;;
  try_finally
    (try_except
       (plot_body qc_test use_defaults)
       (fun e =>
          show_message ("Error during plotting: " +:+ str_exn e) "danger" ;;
          print ("Plotting error: " +:+ str_exn e) ;;
          ret None))
    (set_display_if_present "loadingIndicator" "none").

(** [run_qc_test], lines 363 to 373. *)
Definition run_qc_test : M (option Figure) :=
  select <- getElementById "select" ;;
  s <- attr select "value" ;;
  let qc_test := value s in
  uploaded <- get_uploaded_df ;;
  match uploaded with
  | None =>
      show_message "No uploaded file found. Please upload a file first." "warning" ;;
      ret None
  | Some _ =>
      try_except
        (plot qc_test false)
        (fun e =>
           show_message ("Error running test: " +:+ str_exn e) "danger" ;;
           print ("Error: " +:+ str_exn e) ;;
           ret None)
  end.

(** [handle_example_btn], lines 414 to 427. *)
Definition handle_example_btn : M (option Figure) :=
  try_except
    (show_message DEFAULT_FILE_MESSAGE "info" ;;
     set_display "defaultDataBtnContainer" "none" ;;
     df <- lift (from_library read_example_csv) ;;
     set_uploaded_df df ;;
     select <- getElementById "select" ;;
     s <- attr select "value" ;;
     plot (value s) true)
    (fun e =>
       show_message ("Error loading example dataset: " +:+ str_exn e) "danger" ;;
       ret None).

End PlotHandlers.

Arguments plot_body {qc} QcConfig run astype_str to_datetime qc_test use_defaults.
Arguments plot {qc} QcConfig run astype_str to_datetime qc_test use_defaults.
Arguments run_qc_test {qc} QcConfig run astype_str to_datetime.
Arguments handle_example_btn {qc} QcConfig run astype_str to_datetime read_example_csv.

(** The container [c] with one more element inside. *)
Definition with_child (c : Element) (child_id : string) : Element :=
  {| value := value c;
     className := className c;
     innerText := innerText c;
     display := display c;
     children := children c ++ [child_id] |}.

(** The page [doc] once the inputs of [params] are appended, one after the
    other, to the form [c]. *)
Fixpoint add_fields (params : list ParamDescriptor) (c : Element)
         (doc : gmap string Element) : gmap string Element :=
  match params with
  | [] => doc
  | p :: params' =>
      add_fields params' (with_child c (name p))
                 (<["params-form" := with_child c (name p)]>
                    (<[name p := new_input p]> doc))
  end.

(** The page with the flat line form rendered and the selector just moved
    to the spike test. *)
Definition flat_line_page : gmap string Element :=
  <["select" := input_with "spike_test"]>
    (<["params-form" :=
         {| value := ""; className := ""; innerText := ""; display := "";
            children := ["tolerance"; "suspect_threshold"; "fail_threshold"] |}]>
       (<["tolerance" := input_with "0.001"]>
          (<["suspect_threshold" := input_with "10800"]>
             (<["fail_threshold" := input_with "21600"]> ∅)))).

(** The same with the selector on a test the schema does not have. *)
Definition unknown_test_page : gmap string Element :=
  <["select" := input_with "climatology_test"]> flat_line_page.

(** A computation that leaves the element [id] on the page if it was there. *)
Definition keeps_present (id : string) {A} (m : M A) : Prop :=
  forall w, is_Some (document w !! id) ->
            is_Some (document (snd (m w)) !! id).

(** Sample renderings for the plot: a number prints as its numerator (the
    samples are integers), and a column of such prints converts to the
    numbers; anything else is no date. *)
Definition sample_astype_str (c : cell) : string :=
  match c with
  | Num q => NilZero.string_of_int (Z.to_int (Qnum q))
  | Str s => s
  | NaN => "nan"
  end.

Definition sample_datetime (c : cell) : option cell :=
  match c with
  | Str s =>
      match PyFloat.parse s with
      | Some (PyFloat.Finite m 0) => Some (num_of_Z m)
      | _ => None
      end
  | _ => None
  end.

Definition sample_to_datetime (column : ndarray cell) : string + list cell :=
  match column with
  | Arr1 xs =>
      if forallb (fun c => match sample_datetime c with Some _ => true | None => false end) xs
      then inr (map (fun c => match sample_datetime c with Some t => t | None => NaN end) xs)
      else inl "Unknown datetime string format"
  | Arr2 _ _ => inl "not a column"
  end.

(** [sample_df] with a time column that is no date. *)
Definition sample_df_bad_time : DataFrame :=
  {| index := range_index 3;
     columns :=
       [("time", [Str " noon "; Str "10"; Str "20"]);
        ("z", [num_of_Z 0; num_of_Z 0; num_of_Z 0]);
        ("sea_surface_height_above_sea_level", [Num (3 # 2); Num (1 # 2); Num (5 # 2)])] |}.

(** [chosen_page] with the loading indicator and the example button's
    container. *)
Definition full_page : gmap string Element :=
  <["loadingIndicator" := blank]>
    (<["defaultDataBtnContainer" := blank]> chosen_page).

(** What the message area says before the times are converted. *)
Definition plot_notice (variable : string) : string :=
  if String.eqb variable "" then DEFAULT_FILE_MESSAGE
  else "Uploaded file loaded and used.".

(** The times of a column as [plot] hands them to [pd.to_datetime]. *)
Definition stripped_strings (astype_str : cell -> string) (column : list cell)
  : list cell :=
  map (fun c => Str (PyStr.strip (astype_str c))) column.

(** The rows of a frame, top to bottom. *)
Definition rows (df : DataFrame) : list (list cell) :=
  map (row_at df) (seq 0 (nrows df)).

(** A row with a value in some column. *)
Definition has_value (row : list cell) : bool := negb (forallb is_nan row).

(** A NetCDF reader that decodes every buffer to [decoded_with_empty_row]. *)
Definition sample_open_dataset (content : string) : string + DataFrame :=
  inr decoded_with_empty_row.

(** A sample conversion of dates for the plot.  A time stamp is kept as
    its ISO print, [yyyy-mm-dd], which orders and prints as the time stamp
    does; a column converts when every string in it is a date of the
    calendar within the years a time stamp reaches, and the column is
    refused otherwise. *)
Definition leap_year (y : Z) : bool :=
  (y mod 4 =? 0) && (negb (y mod 100 =? 0) || (y mod 400 =? 0)).

Definition days_in_month (y m : Z) : Z :=
  if m =? 2 then (if leap_year y then 29 else 28)
  else if (m =? 4) || (m =? 6) || (m =? 9) || (m =? 11) then 30
  else 31.

Definition iso_date (s : string) : option (Z * Z * Z) :=
  match s with
  | String y1 (String y2 (String y3 (String y4 (String "-"
      (String m1 (String m2 (String "-" (String d1 (String d2 EmptyString))))))))) =>
      if forallb PyFloat.is_digit [y1; y2; y3; y4; m1; m2; d1; d2]
      then
        let v := PyFloat.digit_val in
        Some (1000 * v y1 + 100 * v y2 + 10 * v y3 + v y4,
              10 * v m1 + v m2,
              10 * v d1 + v d2)
      else None
  | _ => None
  end.

Definition is_iso_date (c : cell) : bool :=
  match c with
  | Str s =>
      match iso_date s with
      | Some (y, m, d) =>
          (1678 <=? y) && (y <=? 2261) && (1 <=? m) && (m <=? 12)
          && (1 <=? d) && (d <=? days_in_month y m)
      | None => false
      end
  | _ => false
  end.

Definition iso_to_datetime (column : ndarray cell) : string + list cell :=
  match column with
  | Arr1 xs =>
      if forallb is_iso_date xs then inr xs
      else inl "Unknown datetime string format"
  | Arr2 _ _ => inl "to_datetime: the input is not one-dimensional"
  end.

(** Three observations dated out of order, the dates as a CSV reader leaves
    them, with the blanks of the file around two of them. *)
Definition dated_df : DataFrame :=
  {| index := range_index 3;
     columns :=
       [("time", [Str " 2021-03-03"; Str "2021-03-01"; Str "2021-03-02 "]);
        ("z", [num_of_Z 0; num_of_Z 0; num_of_Z 0]);
        ("sea_surface_height_above_sea_level", [Num (3 # 2); Num (1 # 2); Num (5 # 2)])] |}.

(** A computation whose only exceptions are the [AttributeError]s of a
    page element that is not there. *)
Definition raises_attribute_errors_only {A} (m : M A) : Prop :=
  forall w e, fst (m w) = Raise e -> exists msg, e = AttributeError msg.

(** * Facts

    ** Strings *)

Module PyStrFacts.
Import PyStr.

Lemma contains_char_count c s :
  contains_char c s = (0 <? count c s)%nat.
Proof.
  induction s as [|a s IH]; simpl; [reflexivity|].
  destruct (Ascii.eqb a c); simpl; [reflexivity|exact IH].
Qed.

Lemma slice_to_idem n s : slice_to n (slice_to n s) = slice_to n s.
Proof.
  revert s; induction n as [|n IH]; intros [|a s]; simpl; try reflexivity.
  now rewrite IH.
Qed.

Lemma slice_to_length n s : (String.length (slice_to n s) <= n)%nat.
Proof.
  revert s; induction n as [|n IH]; intros [|a s]; simpl; try lia.
  specialize (IH s); lia.
Qed.

Lemma append_nil t : "" +:+ t = t.
Proof. reflexivity. Qed.

Lemma append_cons a s t : String a s +:+ t = String a (s +:+ t).
Proof. reflexivity. Qed.

Lemma length_append s t :
  String.length (s +:+ t) = (String.length s + String.length t)%nat.
Proof.
  induction s as [|a s IH]; [reflexivity|].
  rewrite append_cons; simpl; now rewrite IH.
Qed.

Lemma lower_append s t : lower (s +:+ t) = lower s +:+ lower t.
Proof.
  induction s as [|a s IH]; [reflexivity|].
  rewrite append_cons; simpl; now rewrite IH, append_cons.
Qed.

Lemma slice_from_append s t : slice_from (String.length s) (s +:+ t) = t.
Proof.
  induction s as [|a s IH]; [now destruct t|].
  rewrite append_cons; exact IH.
Qed.

Lemma endswith_append s t : endswith (s +:+ t) t = true.
Proof.
  unfold endswith. rewrite length_append.
  replace (String.length s + String.length t - String.length t)%nat
    with (String.length s) by lia.
  rewrite slice_from_append, String.eqb_refl, andb_true_r.
  apply Nat.leb_le; lia.
Qed.

Lemma prefix_append s t : String.prefix s (s +:+ t) = true.
Proof.
  induction s as [|a s IH]; [now destruct t|].
  rewrite append_cons; simpl.
  destruct (ascii_dec a a) as [_|n]; [exact IH|now destruct n].
Qed.

Lemma contains_prefix s needle :
  String.prefix needle s = true -> contains s needle = true.
Proof. intros H; destruct s; cbn [contains]; rewrite H; reflexivity. Qed.

Lemma contains_append pre s post : contains (pre +:+ s +:+ post) s = true.
Proof.
  induction pre as [|a pre IH].
  - rewrite append_nil. apply contains_prefix, prefix_append.
  - rewrite append_cons. cbn [contains]. rewrite IH. apply orb_true_r.
Qed.

End PyStrFacts.

(** [float()] drops the white space of C only: a separator such as
    character 28 makes the string unreadable, a tab, a space or the
    next-line character at an end does not; a decimal beyond the doubles
    reads as an infinity. *)
Lemma float_white_space_and_overflow :
  PyFloat.parse (String "028" "7") = None
  /\ PyFloat.parse (String "009" "7 ") = Some (PyFloat.Finite 7 0)
  /\ PyFloat.parse (String (ascii_of_nat 133) "3") = Some (PyFloat.Finite 3 0)
  /\ PyFloat.parse "1_0.5e1" = Some (PyFloat.Finite 105 0)
  /\ PyFloat.parse "-1e400" = Some (PyFloat.Inf true)
  /\ PyStr.strip (String "028" "7") = "7".
Proof. vm_compute. repeat split. Qed.

(** ** Delimiter sniffing *)

Lemma sniff_delimiter_rule content : sniff_delimiter content = sniff_rule content.
Proof.
  unfold sniff_delimiter, sniff_rule.
  set (sample := PyStr.slice_to 1024 content).
  rewrite !PyStrFacts.contains_char_count.
  destruct (Nat.ltb_spec (PyStr.count "," sample) (PyStr.count ";" sample)) as [H|H].
  - replace (0 <? PyStr.count ";" sample)%nat with true; [reflexivity|].
    symmetry; apply Nat.ltb_lt; lia.
  - rewrite andb_false_r.
    destruct (Nat.ltb_spec (PyStr.count "," sample) (PyStr.count TAB sample)) as [H'|H'].
    + replace (0 <? PyStr.count TAB sample)%nat with true; [reflexivity|].
      symmetry; apply Nat.ltb_lt; lia.
    + rewrite andb_false_r. reflexivity.
Qed.

(** C4, as the claim states its example: on the sample [a,b;c;d] the claim
    expects comma.  The sample has one comma and two semicolons, and the
    code answers semicolon. *)
Lemma sniff_delimiter_sample_is_not_comma :
  sniff_delimiter "a,b;c;d" <> ","%char.
Proof. vm_compute. discriminate. Qed.

(** C4, amended: sniffing looks at the first 1024 characters only and
    answers semicolon exactly when the sample has strictly more semicolons
    than commas, else tab exactly when it has strictly more tabs than commas,
    else comma.  On [a,b;c;d] (one comma, two semicolons) and on [a;b;c,d]
    the answer is semicolon; on the tie [a,b,c;d;e] it is comma. *)
Theorem sniff_delimiter_strict_majority :
  (forall content,
      let sample := PyStr.slice_to 1024 content in
      let commas := PyStr.count "," sample in
      let semicolons := PyStr.count ";" sample in
      let tabs := PyStr.count TAB sample in
      (sniff_delimiter content = ";"%char <-> (commas < semicolons)%nat)
      /\ (sniff_delimiter content = TAB <->
          (semicolons <= commas)%nat /\ (commas < tabs)%nat)
      /\ (sniff_delimiter content = ","%char <->
          (semicolons <= commas)%nat /\ (tabs <= commas)%nat))
  /\ (forall content content',
         PyStr.slice_to 1024 content = PyStr.slice_to 1024 content' ->
         sniff_delimiter content = sniff_delimiter content')
  /\ sniff_delimiter "a,b;c;d" = ";"%char
  /\ sniff_delimiter "a;b;c,d" = ";"%char
  /\ sniff_delimiter "a,b,c;d;e" = ","%char.
Proof.
  split; [|split; [|repeat split; vm_compute; reflexivity]].
  - intros content sample commas semicolons tabs.
    rewrite sniff_delimiter_rule. unfold sniff_rule.
    fold sample. fold commas. fold semicolons. fold tabs.
    destruct (Nat.ltb_spec commas semicolons) as [H|H];
      [|destruct (Nat.ltb_spec commas tabs) as [H'|H']];
      (repeat split; intros; try discriminate; try lia; try reflexivity).
  - intros content content' Heq. unfold sniff_delimiter. rewrite Heq. reflexivity.
Qed.

Lemma sniff_delimiter_strict_majority_witness :
  sniff_delimiter (String.concat "" (repeat "a;b;c,d" 200))
  = sniff_delimiter (PyStr.slice_to 1024 (String.concat "" (repeat "a;b;c,d" 200))).
Proof.
  apply (proj1 (proj2 sniff_delimiter_strict_majority)).
  symmetry. apply PyStrFacts.slice_to_idem.
Defined.

(** ** The state-and-exception monad *)

Lemma bind_ok {A B} (m : M A) (k : A -> M B) w a w' :
  m w = (Ok a, w') -> bind m k w = k a w'.
Proof. unfold bind; intros ->; reflexivity. Qed.

Lemma bind_raise {A B} (m : M A) (k : A -> M B) w e w' :
  m w = (Raise e, w') -> bind m k w = (Raise e, w').
Proof. unfold bind; intros ->; reflexivity. Qed.

Lemma read_only_ret {A} (a : A) : read_only (ret a).
Proof. intros w; reflexivity. Qed.

Lemma read_only_raise {A} e : read_only (@raise A e).
Proof. intros w; reflexivity. Qed.

Lemma read_only_lift {A} (r : outcome A) : read_only (lift r).
Proof. intros w; reflexivity. Qed.

Lemma read_only_bind {A B} (m : M A) (k : A -> M B) :
  read_only m -> (forall a, read_only (k a)) -> read_only (bind m k).
Proof.
  intros Hm Hk w. unfold bind. specialize (Hm w).
  destruct (m w) as [[a|e] w']; simpl in Hm; subst w'; [apply Hk|reflexivity].
Qed.

Lemma read_only_eq {A} (m : M A) w : read_only m -> m w = (fst (m w), w).
Proof. intros H. specialize (H w). destruct (m w); simpl in *; now subst. Qed.

Lemma read_only_getElementById id : read_only (getElementById id).
Proof. intros w; reflexivity. Qed.

Lemma read_only_get_value_by_id id : read_only (get_value_by_id id).
Proof.
  apply read_only_bind; [apply read_only_getElementById|].
  intros [e|]; [apply read_only_lift|apply read_only_raise].
Qed.

Lemma read_only_get_user_config selected_test :
  read_only (get_user_config selected_test).
Proof.
  unfold get_user_config.
  apply read_only_bind; [|intros; apply read_only_ret].
  repeat match goal with
         | |- read_only (if ?b then _ else _) => destruct b
         | |- read_only (bind _ _) => apply read_only_bind; [|intros ?]
         | |- read_only (get_value_by_id _) => apply read_only_get_value_by_id
         | |- read_only (ret _) => apply read_only_ret
         | |- read_only (raise _) => apply read_only_raise
         end.
Qed.

(** ** The configuration builder *)

Lemma get_value_by_id_missing id w :
  document w !! id = None ->
  get_value_by_id id w
  = (Raise (ValueError ("Element with ID '" +:+ id +:+ "' not found.")), w).
Proof.
  intros H. unfold get_value_by_id, bind, getElementById. rewrite H. reflexivity.
Qed.

Lemma get_value_by_id_present id w e :
  document w !! id = Some e ->
  get_value_by_id id w = (PyFloat.float (value e), w).
Proof.
  intros H. unfold get_value_by_id, bind, getElementById. rewrite H. reflexivity.
Qed.

(** C6: for every test identifier other than the four built-in ones, the
    configuration builder fails with the unknown-test error (the
    [ValueError] of line 159, which carries the identifier), whatever the
    page holds, and changes nothing. *)
Theorem get_user_config_unknown_test (selected_test : string) (w : World) :
  ~ In selected_test built_in_tests ->
  get_user_config selected_test w
  = (Raise (ValueError ("Unknown test selected: " +:+ selected_test)), w).
Proof.
  intros Hnot. unfold get_user_config.
  apply bind_raise.
  repeat match goal with
         | |- context [String.eqb selected_test ?t] =>
             destruct (String.eqb_spec selected_test t) as [->|_];
             [exfalso; apply Hnot; vm_compute; tauto|]
         end.
  reflexivity.
Qed.

Lemma get_user_config_unknown_test_witness :
  get_user_config "climatology_test" (world_of None spike_page)
  = (Raise (ValueError "Unknown test selected: climatology_test"),
     world_of None spike_page).
Proof.
  apply (get_user_config_unknown_test "climatology_test" (world_of None spike_page)).
  vm_compute. intros H; decompose [or] H; discriminate || assumption.
Defined.

Lemma get_value_by_id_reads id w :
  field_reads w id -> exists x, get_value_by_id id w = (Ok x, w).
Proof.
  intros (e & x & He & Hx). exists x.
  rewrite (get_value_by_id_present _ _ _ He). unfold PyFloat.float.
  rewrite Hx. reflexivity.
Qed.

Lemma get_value_by_id_not_numeric id w e :
  document w !! id = Some e ->
  PyFloat.parse (value e) = None ->
  get_value_by_id id w
  = (Raise (ValueError (PyFloat.error_message (value e))), w).
Proof.
  intros He Hx. rewrite (get_value_by_id_present _ _ _ He).
  unfold PyFloat.float. rewrite Hx. reflexivity.
Qed.

(** The message of line 105 names the field. *)
Lemma not_found_message_names_id id :
  PyStr.contains ("Element with ID '" +:+ id +:+ "' not found.") id = true.
Proof. apply PyStrFacts.contains_append. Qed.

Ltac decide_test_names :=
  repeat match goal with
         | |- context [String.eqb ?a ?b] =>
             let v := eval vm_compute in (String.eqb a b) in
             change (String.eqb a b) with v
         end;
  cbv beta iota.

(** Runs the builder up to the field [id]: the fields before it read, so
    their binds go through. *)
Ltac read_fields_before :=
  repeat match goal with
         | H : field_reads ?w ?f |- bind (get_value_by_id ?f) _ ?w = _ =>
             let x := fresh "x" in
             let Hx := fresh "Hx" in
             destruct (get_value_by_id_reads f w H) as [x Hx];
             rewrite (bind_ok _ _ _ _ _ Hx); clear H
         end.

Lemma get_user_config_first_failure test before id after w e :
  In test built_in_tests ->
  form_fields test = before ++ id :: after ->
  Forall (field_reads w) before ->
  get_value_by_id id w = (Raise e, w) ->
  get_user_config test w = (Raise e, w).
Proof.
  intros Htest Hfields Hbefore Hid.
  vm_compute in Htest.
  destruct Htest as [<-|[<-|[<-|[<-|[]]]]]; vm_compute in Hfields;
    destruct before as [|b1 [|b2 [|b3 [|b4 before]]]];
    simpl in Hfields; simplify_eq;
    try (destruct before; discriminate);
    repeat match goal with
           | H : Forall _ (_ :: _) |- _ => apply Forall_cons_1 in H; destruct H
           end;
    unfold get_user_config; decide_test_names;
    apply bind_raise; read_fields_before; apply bind_raise; exact Hid.
Qed.

(** C7, as stated, fails on a field that is present and not numeric: with
    the one field of the rate-of-change form cleared, the builder fails with
    the error of [float], whose message quotes the (empty) value and does
    not name the field [threshold]. *)
Lemma cleared_field_error_does_not_name_the_field :
  get_user_config "rate_of_change_test" (world_of None cleared_page)
  = (Raise (ValueError "could not convert string to float: ''"),
     world_of None cleared_page)
  /\ PyStr.contains "could not convert string to float: ''" "threshold" = false.
Proof. split; vm_compute; reflexivity. Qed.

(** C7, amended: for every form field the builder reads (the fields before
    it having read), if the field is missing the builder fails with the
    error of line 105, whose message names the field id; if the field is
    there and its value is not numeric the builder fails with the error of
    [float], whose message quotes the value and is the same whatever the
    field is called.  Neither failure changes anything. *)
Theorem get_user_config_field_failure test before id after (w : World) :
  In test built_in_tests ->
  form_fields test = before ++ id :: after ->
  Forall (field_reads w) before ->
  (document w !! id = None ->
   exists msg,
     get_user_config test w = (Raise (ValueError msg), w)
     /\ msg = "Element with ID '" +:+ id +:+ "' not found."
     /\ PyStr.contains msg id = true)
  /\ (forall e,
         document w !! id = Some e ->
         PyFloat.parse (value e) = None ->
         get_user_config test w
         = (Raise (ValueError
                     ("could not convert string to float: "
                      +:+ PyRepr.repr (value e))), w)).
Proof.
  intros Htest Hfields Hbefore. split.
  - intros Hmissing. eexists. split; [|split; [reflexivity|]].
    + eapply get_user_config_first_failure; eauto.
      apply get_value_by_id_missing, Hmissing.
    + apply not_found_message_names_id.
  - intros e He Hx.
    eapply get_user_config_first_failure; eauto.
    apply get_value_by_id_not_numeric; assumption.
Qed.

(** The spike page without its second field. *)
Lemma get_user_config_field_failure_witness :
  get_user_config "spike_test" (world_of None (delete "fail_threshold" spike_page))
  = (Raise (ValueError "Element with ID 'fail_threshold' not found."),
     world_of None (delete "fail_threshold" spike_page)).
Proof.
  destruct (get_user_config_field_failure
              "spike_test" ["suspect_threshold"] "fail_threshold" []
              (world_of None (delete "fail_threshold" spike_page)))
    as [Hmissing _].
  - vm_compute; tauto.
  - reflexivity.
  - constructor; [|constructor].
    exists (input_with "0.8"), (PyFloat.Finite 8 (-1)).
    split; vm_compute; reflexivity.
  - destruct Hmissing as (msg & Hfail & -> & _); [vm_compute; reflexivity|].
    exact Hfail.
Defined.

(** ** The upload handler *)

Lemma slice_from_empty k : PyStr.slice_from k "" = "".
Proof. destruct k; reflexivity. Qed.

Lemma last_char_slice_from k s :
  PyStr.slice_from k s <> "" -> last_char (PyStr.slice_from k s) = last_char s.
Proof.
  revert s; induction k as [|k IH]; intros s H; [destruct s; reflexivity|].
  destruct s as [|a s]; [reflexivity|]. simpl in *.
  rewrite (IH s H). destruct s as [|b s]; [|reflexivity].
  rewrite slice_from_empty in H. congruence.
Qed.

Lemma endswith_last_char s suffix :
  suffix <> "" -> PyStr.endswith s suffix = true -> last_char s = last_char suffix.
Proof.
  intros Hne H. unfold PyStr.endswith in H.
  apply andb_true_iff in H as [_ H]. apply String.eqb_eq in H.
  rewrite <- (f_equal last_char H). symmetry.
  apply last_char_slice_from. rewrite H. exact Hne.
Qed.

Lemma endswith_nc_not_csv s :
  PyStr.endswith s ".nc" = true -> PyStr.endswith s ".csv" = false.
Proof.
  intros Hnc. destruct (PyStr.endswith s ".csv") eqn:Hcsv; [|reflexivity].
  apply endswith_last_char in Hnc; [|discriminate].
  apply endswith_last_char in Hcsv; [|discriminate].
  rewrite Hnc in Hcsv. discriminate.
Qed.

Lemma keeps_dataset_read_only {A} (m : M A) : read_only m -> keeps_dataset m.
Proof. intros H w. now rewrite H. Qed.

Lemma keeps_dataset_bind {A B} (m : M A) (k : A -> M B) :
  keeps_dataset m -> (forall a, keeps_dataset (k a)) -> keeps_dataset (bind m k).
Proof.
  intros Hm Hk w. unfold bind. specialize (Hm w).
  destruct (m w) as [[a|e] w']; simpl in *; [rewrite Hk|]; exact Hm.
Qed.

Lemma keeps_dataset_try_except {A} (body : M A) handler :
  keeps_dataset body -> (forall e, keeps_dataset (handler e)) ->
  keeps_dataset (try_except body handler).
Proof.
  intros Hm Hk w. unfold try_except. specialize (Hm w).
  destruct (body w) as [[a|e] w']; simpl in *; [|rewrite Hk]; exact Hm.
Qed.

Lemma keeps_dataset_attr el attribute : keeps_dataset (attr el attribute).
Proof. destruct el; intros w; reflexivity. Qed.

Lemma keeps_dataset_set_element id e : keeps_dataset (set_element id e).
Proof. intros w; reflexivity. Qed.

Lemma keeps_dataset_print line : keeps_dataset (print line).
Proof. intros w; reflexivity. Qed.

Lemma keeps_dataset_for_each {A} (xs : list A) body :
  (forall x, keeps_dataset (body x)) -> keeps_dataset (for_each xs body).
Proof.
  intros H. induction xs as [|x xs IH]; [intros w; reflexivity|].
  simpl. apply keeps_dataset_bind; [apply H|intros _; exact IH].
Qed.

Ltac keeps_dataset_step :=
  match goal with
  | |- keeps_dataset (bind _ _) => apply keeps_dataset_bind; [|intros ?]
  | |- keeps_dataset (getElementById _) =>
      apply keeps_dataset_read_only, read_only_getElementById
  | |- keeps_dataset (attr _ _) => apply keeps_dataset_attr
  | |- keeps_dataset (set_element _ _) => apply keeps_dataset_set_element
  | |- keeps_dataset (print _) => apply keeps_dataset_print
  | |- keeps_dataset (ret _) => apply keeps_dataset_read_only, read_only_ret
  | |- keeps_dataset (for_each _ _) => apply keeps_dataset_for_each; intros ?
  end.

Lemma keeps_dataset_show_message msg_html alert_type :
  keeps_dataset (show_message msg_html alert_type).
Proof. unfold show_message. repeat keeps_dataset_step. Qed.

Lemma keeps_dataset_update_variable_options :
  keeps_dataset update_variable_options.
Proof.
  unfold update_variable_options.
  apply keeps_dataset_bind; [intros w; reflexivity|].
  intros [df|]; repeat keeps_dataset_step.
Qed.

Section UploadFacts.

Variable read_csv : string -> ascii -> string + DataFrame.
Variable open_dataset_to_dataframe : string -> string + DataFrame.

(** What [ingest] does on each of its three branches. *)
Lemma ingest_csv filename content w :
  PyStr.endswith filename ".csv" = true ->
  ingest read_csv open_dataset_to_dataframe filename content w
  = match read_csv content (sniff_delimiter content) with
    | inr df => set_uploaded_df df w
    | inl msg => (Raise (LibraryError msg), w)
    end.
Proof.
  intros H. unfold ingest. rewrite H. unfold bind, lift.
  destruct (read_csv content (sniff_delimiter content)); reflexivity.
Qed.

Lemma ingest_nc filename content w :
  PyStr.endswith filename ".nc" = true ->
  ingest read_csv open_dataset_to_dataframe filename content w
  = match open_dataset_to_dataframe content with
    | inr df => set_uploaded_df (dropna_all df) w
    | inl msg => (Raise (LibraryError msg), w)
    end.
Proof.
  intros H. unfold ingest. rewrite (endswith_nc_not_csv _ H), H.
  unfold bind, lift.
  destruct (open_dataset_to_dataframe content); reflexivity.
Qed.

Lemma ingest_other filename content w :
  PyStr.endswith filename ".csv" = false ->
  PyStr.endswith filename ".nc" = false ->
  ingest read_csv open_dataset_to_dataframe filename content w
  = (Raise (ValueError UNSUPPORTED), w).
Proof. intros H1 H2. unfold ingest. rewrite H1, H2. reflexivity. Qed.

(** A failing [ingest] has written nothing. *)
Lemma ingest_raise_world filename content w e w' :
  ingest read_csv open_dataset_to_dataframe filename content w = (Raise e, w') ->
  w' = w.
Proof.
  destruct (PyStr.endswith filename ".csv") eqn:Hcsv;
    [|destruct (PyStr.endswith filename ".nc") eqn:Hnc].
  - rewrite (ingest_csv _ _ _ Hcsv).
    destruct (read_csv _ _); unfold set_uploaded_df; congruence.
  - rewrite (ingest_nc _ _ _ Hnc).
    destruct (open_dataset_to_dataframe _); unfold set_uploaded_df; congruence.
  - rewrite (ingest_other _ _ _ Hcsv Hnc). congruence.
Qed.

(** Whatever happens after [ingest], the dataset is the one [ingest]
    left. *)
Lemma onload_dataset file_name content w :
  uploaded_df (snd (onload read_csv open_dataset_to_dataframe file_name content w))
  = uploaded_df
      (snd (ingest read_csv open_dataset_to_dataframe
                   (PyStr.lower file_name) content w)).
Proof.
  unfold onload, try_except.
  set (rest := bind update_variable_options _).
  assert (Hrest : keeps_dataset rest).
  { subst rest. apply keeps_dataset_bind;
      [apply keeps_dataset_update_variable_options|intros _].
    repeat keeps_dataset_step. apply keeps_dataset_show_message. }
  assert (Hhandler : forall e : exn,
             keeps_dataset
               (bind (show_message ("Failed to load file: " +:+ str_exn e) "danger")
                     (fun _ => print ("File load error: " +:+ str_exn e)))).
  { intros e. apply keeps_dataset_bind;
      [apply keeps_dataset_show_message|intros _; apply keeps_dataset_print]. }
  unfold bind at 1.
  destruct (ingest read_csv open_dataset_to_dataframe
                   (PyStr.lower file_name) content w) as [[[]|e] w1]; simpl.
  - specialize (Hrest w1). destruct (rest w1) as [[[]|e] w2]; simpl in *.
    + exact Hrest.
    + rewrite Hhandler. exact Hrest.
  - apply Hhandler.
Qed.

(** After a successful [ingest], the [try] block of [onload] touches the
    page only. *)
Lemma raises_attribute_errors_only_bind {A B} (m : M A) (k : A -> M B) :
  raises_attribute_errors_only m ->
  (forall a, raises_attribute_errors_only (k a)) ->
  raises_attribute_errors_only (bind m k).
Proof.
  intros Hm Hk w e. unfold bind. specialize (Hm w).
  destruct (m w) as [[a|e'] w']; simpl in *.
  - apply Hk.
  - intros H. injection H as <-. apply Hm. reflexivity.
Qed.

Lemma raises_attribute_errors_only_total {A} (m : M A) :
  (forall w, exists a, fst (m w) = Ok a) -> raises_attribute_errors_only m.
Proof. intros H w e He. destruct (H w) as [a Ha]. congruence. Qed.

Lemma raises_attribute_errors_only_attr el attribute :
  raises_attribute_errors_only (attr el attribute).
Proof.
  destruct el as [el|]; intros w e H; simpl in H; [discriminate|].
  injection H as <-. eexists; reflexivity.
Qed.

Lemma raises_attribute_errors_only_for_each {A} (xs : list A) body :
  (forall x, raises_attribute_errors_only (body x)) ->
  raises_attribute_errors_only (for_each xs body).
Proof.
  intros H. induction xs as [|x xs IH]; [intros w e He; discriminate|].
  simpl. apply raises_attribute_errors_only_bind; [apply H|intros _; exact IH].
Qed.

Ltac attribute_errors_step :=
  match goal with
  | |- raises_attribute_errors_only (bind _ _) =>
      apply raises_attribute_errors_only_bind; [|intros ?]
  | |- raises_attribute_errors_only (attr _ _) =>
      apply raises_attribute_errors_only_attr
  | |- raises_attribute_errors_only (for_each _ _) =>
      apply raises_attribute_errors_only_for_each; intros ?
  | |- raises_attribute_errors_only _ =>
      apply raises_attribute_errors_only_total; intros ?; eexists; reflexivity
  end.

Lemma raises_attribute_errors_only_show_message msg_html alert_type :
  raises_attribute_errors_only (show_message msg_html alert_type).
Proof. unfold show_message. repeat attribute_errors_step. Qed.

Lemma raises_attribute_errors_only_update_variable_options :
  raises_attribute_errors_only update_variable_options.
Proof.
  unfold update_variable_options.
  apply raises_attribute_errors_only_bind; [attribute_errors_step|].
  intros [df|]; repeat attribute_errors_step.
Qed.

(** C10: [onload] tests the extension on the lower-cased name.  [onload]
    is its [try] block under its [except] block, and the [try] block is
    entered with the name as uploaded.  That block raises the
    unsupported-format error (the [ValueError] of line 80) exactly when the
    lower-cased name ends in neither [.csv] nor [.nc].  A name that ends in
    any casing of [.csv] is accepted and parsed: the content goes to the CSV
    reader with the sniffed delimiter, and the frame read is the session's
    dataset once [onload] is over (the dataset stays as it was when the
    reader refuses the content).  The same holds for any casing of [.nc]
    with the NetCDF reader, the frame being cleaned of its empty rows.  With
    neither ending [onload] comes down to its [except] block on the
    unsupported-format error, no reader having been called. *)
Theorem onload_dispatches_on_lower_cased_name file_name content (w : World) :
  onload read_csv open_dataset_to_dataframe file_name content
  = try_except (onload_try read_csv open_dataset_to_dataframe file_name content)
               onload_except
  /\ (fst (onload_try read_csv open_dataset_to_dataframe file_name content w)
      = Raise (ValueError UNSUPPORTED)
      <-> PyStr.endswith (PyStr.lower file_name) ".csv" = false
          /\ PyStr.endswith (PyStr.lower file_name) ".nc" = false)
  /\ (forall stem ext,
         file_name = stem +:+ ext -> PyStr.lower ext = ".csv" ->
         uploaded_df
           (snd (onload read_csv open_dataset_to_dataframe file_name content w))
         = match read_csv content (sniff_delimiter content) with
           | inr df => Some df
           | inl _ => uploaded_df w
           end)
  /\ (forall stem ext,
         file_name = stem +:+ ext -> PyStr.lower ext = ".nc" ->
         uploaded_df
           (snd (onload read_csv open_dataset_to_dataframe file_name content w))
         = match open_dataset_to_dataframe content with
           | inr df => Some (dropna_all df)
           | inl _ => uploaded_df w
           end)
  /\ (PyStr.endswith (PyStr.lower file_name) ".csv" = false ->
      PyStr.endswith (PyStr.lower file_name) ".nc" = false ->
      onload read_csv open_dataset_to_dataframe file_name content w
      = onload_except (ValueError UNSUPPORTED) w).
Proof.
  split; [reflexivity|]. split; [|split; [|split]].
  - unfold onload_try. cbv zeta. unfold bind at 1.
    set (rest := bind update_variable_options _).
    assert (Hrest : raises_attribute_errors_only rest).
    { subst rest. apply raises_attribute_errors_only_bind;
        [apply raises_attribute_errors_only_update_variable_options|intros _].
      apply raises_attribute_errors_only_bind; [attribute_errors_step|intros el].
      apply raises_attribute_errors_only_bind; [attribute_errors_step|intros e].
      apply raises_attribute_errors_only_bind; [attribute_errors_step|intros _].
      apply raises_attribute_errors_only_show_message. }
    split.
    + intros H.
      destruct (PyStr.endswith (PyStr.lower file_name) ".csv") eqn:Hcsv;
        [|destruct (PyStr.endswith (PyStr.lower file_name) ".nc") eqn:Hnc;
          [|tauto]];
        exfalso.
      * rewrite (ingest_csv _ _ _ Hcsv) in H.
        destruct (read_csv _ _); [discriminate|].
        unfold set_uploaded_df in H.
        apply Hrest in H as [msg H]. discriminate.
      * rewrite (ingest_nc _ _ _ Hnc) in H.
        destruct (open_dataset_to_dataframe _); [discriminate|].
        unfold set_uploaded_df in H.
        apply Hrest in H as [msg H]. discriminate.
    + intros [Hcsv Hnc]. rewrite (ingest_other _ _ _ Hcsv Hnc). reflexivity.
  - intros stem ext -> Hext. rewrite onload_dataset, ingest_csv.
    + destruct (read_csv _ _); reflexivity.
    + rewrite PyStrFacts.lower_append, Hext. apply PyStrFacts.endswith_append.
  - intros stem ext -> Hext. rewrite onload_dataset, ingest_nc.
    + destruct (open_dataset_to_dataframe _); reflexivity.
    + rewrite PyStrFacts.lower_append, Hext. apply PyStrFacts.endswith_append.
  - intros Hcsv Hnc. unfold onload, try_except. cbv zeta. unfold bind at 1.
    rewrite (ingest_other _ _ _ Hcsv Hnc). reflexivity.
Qed.

(** C8: when the parsing of an upload fails, be it in a reader or on the
    extension, the dataset handle after the handler is the one before it:
    the previous dataset, or none.  And after any upload the handle is
    either that or one whole frame a reader returned (cleaned of its empty
    rows for NetCDF). *)
Theorem failed_ingestion_keeps_dataset file_name content (w : World) :
  let after :=
    snd (handle_file_upload read_csv open_dataset_to_dataframe
                            (Some (file_name, content)) w) in
  (forall e,
      fst (ingest read_csv open_dataset_to_dataframe
                  (PyStr.lower file_name) content w) = Raise e ->
      uploaded_df after = uploaded_df w)
  /\ (uploaded_df after = uploaded_df w
      \/ (exists df, read_csv content (sniff_delimiter content) = inr df
                     /\ uploaded_df after = Some df)
      \/ (exists df, open_dataset_to_dataframe content = inr df
                     /\ uploaded_df after = Some (dropna_all df))).
Proof.
  intros after. subst after. simpl handle_file_upload.
  rewrite onload_dataset. split.
  - intros e H.
    destruct (ingest _ _ _ _ w) as [r w'] eqn:E. simpl in H. subst r.
    now rewrite (ingest_raise_world _ _ _ _ _ E).
  - destruct (PyStr.endswith (PyStr.lower file_name) ".csv") eqn:Hcsv;
      [|destruct (PyStr.endswith (PyStr.lower file_name) ".nc") eqn:Hnc].
    + rewrite (ingest_csv _ _ _ Hcsv).
      destruct (read_csv _ _) as [msg|df]; [left; reflexivity|].
      right; left. exists df. split; reflexivity.
    + rewrite (ingest_nc _ _ _ Hnc).
      destruct (open_dataset_to_dataframe _) as [msg|df]; [left; reflexivity|].
      right; right. exists df. split; reflexivity.
    + rewrite (ingest_other _ _ _ Hcsv Hnc). left; reflexivity.
Qed.

End UploadFacts.

(** An upper-case extension reaches the CSV reader, and what it reads is
    the dataset after the upload. *)
Lemma onload_dispatches_on_lower_cased_name_witness :
  uploaded_df
    (snd (onload sample_read_csv failing_open_dataset "DATA.CSV" "t,z"
                 (world_of None spike_page)))
  = Some sample_df.
Proof.
  apply (proj1 (proj2 (proj2 (onload_dispatches_on_lower_cased_name
                                sample_read_csv failing_open_dataset
                                "DATA.CSV" "t,z" (world_of None spike_page))))
               "DATA" ".CSV"); reflexivity.
Defined.

(** An empty CSV upload while [sample_df] is loaded: the reader fails and
    [sample_df] stays. *)
Lemma failed_ingestion_keeps_dataset_witness :
  uploaded_df
    (snd (handle_file_upload sample_read_csv failing_open_dataset
                             (Some ("empty.csv", ""))
                             (world_of (Some sample_df) spike_page)))
  = Some sample_df.
Proof.
  apply (proj1 (failed_ingestion_keeps_dataset
                  sample_read_csv failing_open_dataset
                  "empty.csv" "" (world_of (Some sample_df) spike_page))
               (LibraryError "No columns to parse from file")).
  vm_compute. reflexivity.
Defined.

(** ** Masks *)

Lemma masked_where_1d condition obs :
  length condition = length obs ->
  masked_where (Arr1 condition) (Arr1 obs) = Ok (mask_1d obs condition).
Proof.
  intros H. unfold masked_where. simpl shape. rewrite H.
  rewrite bool_decide_eq_true_2; reflexivity.
Qed.

Lemma tolist_lookup (obs : list cell) (condition : list bool) (i : nat) (v : cell) (c : bool) :
  obs !! i = Some v -> condition !! i = Some c ->
  tolist (mask_1d obs condition) !! i = Some (if c then None else Some v).
Proof.
  unfold tolist; simpl.
  revert condition i; induction obs as [|x obs IH]; intros [|m condition] [|i];
    simpl; try discriminate.
  - intros [= ->] [= ->]. reflexivity.
  - apply IH.
Qed.

Lemma ma_count_1d obs condition :
  length condition = length obs ->
  ma_count (mask_1d obs condition) = length (List.filter negb condition).
Proof.
  unfold ma_count, tolist; simpl.
  revert condition; induction obs as [|x obs IH]; intros [|m condition] H;
    simpl in *; try discriminate; try reflexivity.
  injection H as H. specialize (IH _ H). destruct m; simpl; congruence.
Qed.

Lemma cell_ne_code c code k :
  has_code c code -> cell_ne k c = negb (code =? k).
Proof.
  unfold has_code, num_of_Z. destruct c as [|q|s]; simpl; try discriminate.
  intros H. apply Qeq_bool_iff in H. f_equal.
  destruct (Z.eqb_spec code k) as [->|Hne].
  - apply Qeq_bool_iff. exact H.
  - destruct (Qeq_bool q (inject_Z k)) eqn:E; [|reflexivity].
    apply Qeq_bool_iff in E. rewrite H in E.
    apply (proj1 (inject_Z_injective _ _)) in E. congruence.
Qed.

Lemma getitem_column_length df label xs :
  well_formed df -> getitem df label = Ok (Arr1 xs) -> length xs = nrows df.
Proof.
  intros Hwf. unfold getitem.
  destruct (List.filter _ (columns df)) as [|c [|c' cs]] eqn:E; try discriminate.
  intros [= <-].
  assert (Hin : In c (List.filter (fun c => named label c) (columns df)))
    by (rewrite E; left; reflexivity).
  apply filter_In in Hin as [Hin _].
  unfold well_formed in Hwf. rewrite Forall_forall in Hwf.
  apply Hwf. apply list_elem_of_In. exact Hin.
Qed.

(** Over the four codes, a flagged row is unmasked in exactly one of the
    four conditions. *)
Lemma one_condition_per_flag flags :
  Forall (fun c => exists code, has_code c code /\ In code flag_codes) flags ->
  (length (List.filter negb (map (cell_ne 1) flags))
   + length (List.filter negb (map (cell_ne 3) flags))
   + length (List.filter negb (map (cell_ne 4) flags))
   + length (List.filter negb (map (cell_ne 2) flags)))%nat
  = length flags.
Proof.
  induction 1 as [|c flags (code & Hc & Hin) _ IH]; [reflexivity|].
  simpl. rewrite !(cell_ne_code _ _ _ Hc).
  destruct Hin as [<-|[<-|[<-|[<-|[]]]]]; simpl; lia.
Qed.

(** C1: on a dataset and an annotated result that give [make_mask] one
    measurement column and one flag column of the dataset's length,
    [make_mask] returns four buckets such that every row flagged PASS=1,
    NOT_RUN=2, SUSPECT=3 or FAIL=4 has its measurement in exactly one
    bucket (pass for 1, not-run for 2, suspect for 3, fail for 4) and the
    absent marker in the three others; when every row is so flagged, the
    numbers of values in the four buckets add up to the number of rows. *)
Theorem make_mask_one_bucket_per_row
        df result variable qc_test (obs flags : list cell) :
  well_formed df ->
  getitem df variable = Ok (Arr1 obs) ->
  getitem result qc_test = Ok (Arr1 flags) ->
  length flags = nrows df ->
  exists m,
    make_mask df result variable qc_test = Ok m
    /\ (forall (i : nat) v c code,
           obs !! i = Some v -> flags !! i = Some c ->
           has_code c code -> In code flag_codes ->
           tolist (qc_pass m) !! i = Some (if code =? 1 then Some v else None)
           /\ tolist (qc_notrun m) !! i = Some (if code =? 2 then Some v else None)
           /\ tolist (qc_suspect m) !! i = Some (if code =? 3 then Some v else None)
           /\ tolist (qc_fail m) !! i = Some (if code =? 4 then Some v else None)
           /\ length (List.filter holds_value
                        [tolist (qc_pass m) !! i; tolist (qc_notrun m) !! i;
                         tolist (qc_suspect m) !! i; tolist (qc_fail m) !! i])
              = 1%nat)
    /\ (Forall (fun c => exists code, has_code c code /\ In code flag_codes) flags ->
        (ma_count (qc_pass m) + ma_count (qc_suspect m)
         + ma_count (qc_fail m) + ma_count (qc_notrun m))%nat
        = nrows df).
Proof.
  intros Hwf Hobs Hflags Hlen.
  pose proof (getitem_column_length _ _ _ Hwf Hobs) as Hobs_len.
  assert (Hcond : forall k, length (map (cell_ne k) flags) = length obs)
    by (intros k; rewrite length_map; congruence).
  eexists. split; [|split].
  - unfold make_mask. rewrite Hobs, Hflags. simpl.
    rewrite !masked_where_1d by apply Hcond. simpl. reflexivity.
  - intros i v c code Hv Hc Hcode Hin. simpl.
    assert (Hrow : forall k,
               tolist (mask_1d obs (map (cell_ne k) flags)) !! i
               = Some (if code =? k then Some v else None)).
    { intros k. rewrite (tolist_lookup obs _ i v (cell_ne k c) Hv).
      - rewrite (cell_ne_code _ _ _ Hcode). destruct (code =? k); reflexivity.
      - clear -Hc. revert i Hc. induction flags as [|f flags IH]; intros [|i];
          simpl; try discriminate; [intros [= ->]; reflexivity|apply IH]. }
    rewrite !Hrow. repeat split.
    destruct Hin as [<-|[<-|[<-|[<-|[]]]]]; reflexivity.
  - intros Hall. simpl. rewrite !ma_count_1d by apply Hcond.
    rewrite one_condition_per_flag by assumption. exact Hlen.
Qed.

Lemma make_mask_one_bucket_per_row_witness :
  exists m,
    make_mask sample_df sample_flagged
              "sea_surface_height_above_sea_level" "spike_test" = Ok m
    /\ (ma_count (qc_pass m) + ma_count (qc_suspect m)
        + ma_count (qc_fail m) + ma_count (qc_notrun m))%nat = 3%nat.
Proof.
  destruct (make_mask_one_bucket_per_row
              sample_df sample_flagged
              "sea_surface_height_above_sea_level" "spike_test"
              [Num (3 # 2); Num (1 # 2); Num (5 # 2)]
              [num_of_Z 1; num_of_Z 4; num_of_Z 3])
    as (m & Hm & _ & Hcount).
  - repeat constructor.
  - reflexivity.
  - reflexivity.
  - reflexivity.
  - exists m. split; [exact Hm|]. apply Hcount.
    repeat constructor.
    + exists 1. split; [reflexivity|simpl; tauto].
    + exists 4. split; [reflexivity|simpl; tauto].
    + exists 3. split; [reflexivity|simpl; tauto].
Defined.

(** C5: [make_mask] takes no part in the session state.  Called from any
    two states of the session, on datasets that agree on the measurement
    column and annotated results that agree on the flag column (equal
    inputs in particular), it returns the same four buckets, and it leaves
    the state it is called in as it was. *)
Theorem make_mask_is_pure df df' result result' variable qc_test (w1 w2 : World) :
  getitem df variable = getitem df' variable ->
  getitem result qc_test = getitem result' qc_test ->
  fst (lift (make_mask df result variable qc_test) w1)
  = fst (lift (make_mask df' result' variable qc_test) w2)
  /\ snd (lift (make_mask df result variable qc_test) w1) = w1
  /\ snd (lift (make_mask df' result' variable qc_test) w2) = w2.
Proof.
  intros Hobs Hmask. repeat split. simpl.
  unfold make_mask. rewrite Hobs, Hmask. reflexivity.
Qed.

(** Two calls, one before an upload and one after a failed one, on frames
    that differ in a column [make_mask] does not read. *)
Lemma make_mask_is_pure_witness :
  fst (lift (make_mask sample_df sample_flagged
                       "sea_surface_height_above_sea_level" "spike_test")
            (world_of None spike_page))
  = fst (lift (make_mask sample_df_with_notes sample_flagged
                         "sea_surface_height_above_sea_level" "spike_test")
              (world_of (Some sample_df) cleared_page)).
Proof.
  apply (make_mask_is_pure
           sample_df sample_df_with_notes sample_flagged sample_flagged
           "sea_surface_height_above_sea_level" "spike_test"
           (world_of None spike_page) (world_of (Some sample_df) cleared_page));
    reflexivity.
Defined.

(** ** The test runner *)

Lemma make_mask_1d df result variable qc_test obs flags :
  getitem df variable = Ok (Arr1 obs) ->
  getitem result qc_test = Ok (Arr1 flags) ->
  length flags = length obs ->
  make_mask df result variable qc_test
  = Ok {| qc_pass := mask_1d obs (map (cell_ne 1) flags);
          qc_suspect := mask_1d obs (map (cell_ne 3) flags);
          qc_fail := mask_1d obs (map (cell_ne 4) flags);
          qc_notrun := mask_1d obs (map (cell_ne 2) flags) |}.
Proof.
  intros Hobs Hflags Hlen. unfold make_mask. rewrite Hobs, Hflags. simpl.
  rewrite !masked_where_1d by (rewrite length_map; exact Hlen). reflexivity.
Qed.

Lemma cell_eqb_refl c : cell_eqb c c = true.
Proof.
  destruct c as [|q|s]; simpl; [reflexivity| |apply String.eqb_refl].
  apply Qeq_bool_iff. reflexivity.
Qed.

Lemma index_eqb_refl labels : index_eqb labels labels = true.
Proof.
  unfold index_eqb. rewrite Nat.eqb_refl. simpl.
  induction labels as [|l labels IH]; [reflexivity|].
  simpl. now rewrite cell_eqb_refl.
Qed.

Lemma filter_named_app label (xs ys : list (string * list cell)) :
  List.filter (fun c => named label c) (xs ++ ys)
  = List.filter (fun c => named label c) xs
    ++ List.filter (fun c => named label c) ys.
Proof. apply List.filter_app. Qed.

Lemma getitem_one df label xs :
  getitem df label = Ok (Arr1 xs) ->
  exists c, List.filter (fun c => named label c) (columns df) = [c] /\ snd c = xs.
Proof.
  unfold getitem.
  destruct (List.filter _ (columns df)) as [|c [|c' cs]]; try discriminate.
  intros [= <-]. exists c. split; reflexivity.
Qed.

Lemma filter_complement_length {A} (p : A -> bool) (l : list A) :
  (length (List.filter p l) + length (List.filter (fun x => negb (p x)) l))%nat
  = length l.
Proof.
  induction l as [|x l IH]; [reflexivity|].
  simpl. destruct (p x); simpl; lia.
Qed.

Lemma filter_named_absent test (l : list (string * list Z)) :
  test ∉ l.*1 ->
  List.filter (fun c => named test c) (map flag_column l) = [].
Proof.
  induction l as [|[k a] l IH]; intros Hk; [reflexivity|].
  cbn. destruct (String.eqb_spec k test) as [->|_].
  - exfalso. apply Hk. left.
  - apply IH. intros H. apply Hk. right. exact H.
Qed.

Lemma filter_named_unique test flags (l : list (string * list Z)) :
  NoDup (l.*1) -> (test, flags) ∈ l ->
  List.filter (fun c => named test c) (map flag_column l)
  = [(test, map num_of_Z flags)].
Proof.
  induction l as [|[k a] l IH]; intros Hnodup Hin; [inversion Hin|].
  cbn [fmap list_fmap fst] in Hnodup. apply NoDup_cons in Hnodup as [Hk Hnodup].
  apply elem_of_cons in Hin as [[= <- <-]|Hin].
  - cbn. rewrite String.eqb_refl. f_equal. apply filter_named_absent, Hk.
  - cbn. destruct (String.eqb_spec k test) as [->|_]; [|apply IH; assumption].
    exfalso. apply Hk. apply (list_elem_of_fmap_2 fst) in Hin. exact Hin.
Qed.

(** The flag column of a test, cut out of the frame built from the engine's
    dict. *)
Lemma frame_of_dict_test (d : gmap string (list Z)) n test flags :
  map_Forall (fun _ a => length a = n) d ->
  d !! test = Some flags ->
  exists f,
    frame_of_dict d = Ok f
    /\ getitem_labelled f test
       = Ok {| index := range_index n;
               columns := [(test, map num_of_Z flags)] |}.
Proof.
  intros Hlen Hflags.
  assert (Hin : (test, flags) ∈ map_to_list d)
    by (apply elem_of_map_to_list; exact Hflags).
  assert (Hall : forall c, c ∈ map_to_list d -> length (snd c) = n).
  { intros [k a] Hc. apply elem_of_map_to_list in Hc. exact (Hlen _ _ Hc). }
  pose proof (NoDup_fst_map_to_list d) as Hnodup.
  unfold frame_of_dict.
  destruct (map_to_list d) as [|[k a] rest] eqn:E; [inversion Hin|].
  assert (Ha : length a = n) by (apply (Hall (k, a)); left).
  assert (Hforall : forallb (fun c => (length (snd c) =? length a)%nat) rest = true).
  { apply forallb_forall. intros c Hc. apply Nat.eqb_eq.
    rewrite Ha. apply Hall. right. apply list_elem_of_In. exact Hc. }
  rewrite Hforall. eexists. split; [reflexivity|].
  unfold getitem_labelled. cbn [columns index].
  rewrite Ha.
  change (fun c : string * list Z => (fst c, map num_of_Z (snd c))) with flag_column.
  rewrite <- E in Hin, Hnodup |- *.
  rewrite (filter_named_unique _ _ _ Hnodup Hin). reflexivity.
Qed.

Section EngineFacts.

Variable qc : Type.
Variable QcConfig : ConfigDict -> string + qc.
Variable run :
  qc -> ndarray cell -> ndarray cell -> ndarray cell -> string + EngineResults.

Lemma read_only_load_default_config : read_only load_default_config.
Proof. intros w. unfold load_default_config. destruct (qc_config_json w); reflexivity. Qed.

Lemma read_only_run_tests df variable selected_test x_var y_var use_defaults :
  read_only (run_tests QcConfig run df variable selected_test x_var y_var
                       use_defaults).
Proof.
  unfold run_tests.
  apply read_only_bind;
    [destruct use_defaults;
     [apply read_only_load_default_config|apply read_only_get_user_config]|].
  repeat (intros ?; first [apply read_only_lift
                          |apply read_only_bind; [apply read_only_lift|]]).
Qed.

(** C9: a second call of [run_tests] on the same inputs, right after the
    first, returns what the first returned, be it an annotated dataset or
    an error; neither call changes the session. *)
Theorem run_tests_twice df variable selected_test x_var y_var use_defaults
        (w : World) :
  let first :=
    run_tests QcConfig run df variable selected_test x_var y_var use_defaults w in
  let second :=
    run_tests QcConfig run df variable selected_test x_var y_var use_defaults
              (snd first) in
  fst second = fst first /\ snd first = w /\ snd second = w.
Proof.
  intros first second. subst second first.
  rewrite !read_only_run_tests. auto.
Qed.

(** The run of [run_tests] on a dataset with default row labels, when the
    configuration builds, the columns are there and the engine answers
    one flag per row. *)
Lemma run_tests_returns
      df variable selected_test x_var y_var (use_defaults : bool) (w : World)
      cfg q inp time zinp (results : EngineResults)
      (qartod : gmap string (list Z)) flags :
  fst ((if use_defaults then load_default_config
        else get_user_config selected_test) w) = Ok cfg ->
  QcConfig cfg = inr q ->
  getitem df variable = Ok inp ->
  getitem df x_var = Ok (Arr1 time) ->
  getitem df y_var = Ok zinp ->
  run q inp (Arr1 time) zinp = inr results ->
  results !! "qartod" = Some qartod ->
  map_Forall (fun _ a => length a = nrows df) qartod ->
  qartod !! selected_test = Some flags ->
  index df = range_index (nrows df) ->
  x_var <> selected_test ->
  run_tests QcConfig run df variable selected_test x_var y_var use_defaults w
  = (Ok {| index := time;
           columns :=
             List.filter (fun c => negb (named x_var c)) (columns df)
             ++ [(selected_test, map num_of_Z flags)] |}, w).
Proof.
  intros Hcfg Hq Hinp Htime Hz Hrun Hpkg Hlen Hflags Hidx Hne.
  destruct (frame_of_dict_test _ _ _ _ Hlen Hflags) as (f & Hf & Hcol).
  unfold run_tests.
  assert (Hcfg' : (if use_defaults then load_default_config
                   else get_user_config selected_test) w = (Ok cfg, w)).
  { rewrite read_only_eq, Hcfg; [reflexivity|].
    destruct use_defaults;
      [apply read_only_load_default_config|apply read_only_get_user_config]. }
  rewrite (bind_ok _ _ _ _ _ Hcfg').
  unfold bind, lift. rewrite Hq, Hinp, Htime, Hz. cbn [from_library].
  rewrite Hrun. cbn [from_library]. rewrite Hpkg, Hf, Hcol.
  unfold concat_axis1. cbn [index columns].
  rewrite Hidx at 1. rewrite index_eqb_refl.
  destruct (getitem_one _ _ _ Htime) as (c & Hc & <-).
  assert (Hflagcol :
            named x_var (selected_test, map num_of_Z flags) = false).
  { unfold named. cbn. apply String.eqb_neq. congruence. }
  unfold set_index, getitem. cbn [columns].
  rewrite filter_named_app, Hc. cbn [List.filter]. rewrite Hflagcol.
  cbn [app]. rewrite List.filter_app. cbn [List.filter].
  rewrite Hflagcol. reflexivity.
Qed.

(** C2, amended: take a dataset with default row labels whose time column
    is not named like the test.  When the configuration builds, the
    measurement, time and depth columns exist (the time column once) and
    the engine answers flags for the test, one flag per row, [run_tests]
    returns the dataset's columns other than the time column, then the
    flag column under the test's name, with the time column as row labels.
    The rows stay in the dataset's order: nothing is sorted, so the labels
    ascend exactly when the dataset's time column does.  The session is not
    changed. *)
Theorem run_tests_joins_flags_in_row_order
        df variable selected_test x_var y_var (use_defaults : bool) (w : World)
        cfg q inp time zinp (results : EngineResults)
        (qartod : gmap string (list Z)) flags :
  fst ((if use_defaults then load_default_config
        else get_user_config selected_test) w) = Ok cfg ->
  QcConfig cfg = inr q ->
  getitem df variable = Ok inp ->
  getitem df x_var = Ok (Arr1 time) ->
  getitem df y_var = Ok zinp ->
  run q inp (Arr1 time) zinp = inr results ->
  results !! "qartod" = Some qartod ->
  map_Forall (fun _ a => length a = nrows df) qartod ->
  qartod !! selected_test = Some flags ->
  index df = range_index (nrows df) ->
  x_var <> selected_test ->
  exists r,
    run_tests QcConfig run df variable selected_test x_var y_var use_defaults w
    = (Ok r, w)
    /\ index r = time
    /\ columns r
       = List.filter (fun c => negb (named x_var c)) (columns df)
         ++ [(selected_test, map num_of_Z flags)]
    /\ ascending (index r) = ascending time.
Proof.
  intros. eexists. split; [eapply run_tests_returns; eassumption|].
  repeat split.
Qed.

Lemma filter_named_none label (p : string * list cell -> bool) cols :
  ~ In label (map fst cols) ->
  List.filter (fun c => named label c) (List.filter p cols) = [].
Proof.
  induction cols as [|c cols IH]; intros Hnot; [reflexivity|].
  assert (Hc : named label c = false).
  { unfold named. apply String.eqb_neq. intros E. apply Hnot. left. exact E. }
  assert (Hrest : ~ In label (map fst cols))
    by (intros H; apply Hnot; right; exact H).
  simpl. destruct (p c); simpl; [rewrite Hc|]; apply IH, Hrest.
Qed.

Lemma map_snd_combine {A B} (xs : list A) (ys : list B) (f : A * B -> B) :
  length xs = length ys -> (forall p, f p = snd p) ->
  map f (combine xs ys) = ys.
Proof.
  intros Hlen Hf. revert ys Hlen.
  induction xs as [|x xs IH]; intros [|y ys] Hlen; try discriminate;
    [reflexivity|].
  simpl. rewrite Hf. simpl. f_equal. apply IH. now injection Hlen.
Qed.

Lemma column_names_without label cols :
  map fst (List.filter (fun c : string * list cell => negb (named label c)) cols)
  = List.filter (fun n => negb (String.eqb n label)) (map fst cols).
Proof.
  induction cols as [|c cols IH]; [reflexivity|].
  simpl. unfold named at 1. destruct (String.eqb (fst c) label); simpl;
    now rewrite IH.
Qed.

Lemma reloaded_shape r :
  column_names (read_csv_document (to_csv_no_index r)) = column_names r
  /\ ncols (read_csv_document (to_csv_no_index r)) = ncols r
  /\ nrows (read_csv_document (to_csv_no_index r)) = nrows r.
Proof.
  unfold read_csv_document, to_csv_no_index, column_names, ncols, nrows.
  cbn [header records index columns]. repeat split.
  - rewrite map_map. apply map_snd_combine; [apply length_seq|reflexivity].
  - rewrite length_map, length_combine, length_seq, length_map. lia.
  - unfold range_index. now rewrite !length_map, !length_seq.
Qed.

(** C3, amended: on a well-formed dataset with default row labels, the
    chain [run_tests], [make_mask], write the annotated frame as the
    download does, read it back, returns a dataset whose columns are the
    input's columns other than the time column, followed by the flag
    column: the time column, which [run_tests] turned into the row labels,
    is not written.  It has as many columns as the input and as many rows
    as the input. *)
Theorem round_trip_keeps_shape
        df variable selected_test x_var y_var (w : World)
        cfg q obs time zinp (results : EngineResults)
        (qartod : gmap string (list Z)) flags :
  well_formed df ->
  index df = range_index (nrows df) ->
  ~ In selected_test (column_names df) ->
  fst (get_user_config selected_test w) = Ok cfg ->
  QcConfig cfg = inr q ->
  getitem df variable = Ok (Arr1 obs) ->
  getitem df x_var = Ok (Arr1 time) ->
  getitem df y_var = Ok zinp ->
  run q (Arr1 obs) (Arr1 time) zinp = inr results ->
  results !! "qartod" = Some qartod ->
  map_Forall (fun _ a => length a = nrows df) qartod ->
  qartod !! selected_test = Some flags ->
  exists reloaded,
    annotate_mask_export_reload QcConfig run df variable selected_test x_var y_var w
    = (Ok reloaded, w)
    /\ column_names reloaded
       = List.filter (fun n => negb (String.eqb n x_var)) (column_names df)
         ++ [selected_test]
    /\ ncols reloaded = ncols df
    /\ nrows reloaded = nrows df.
Proof.
  intros Hwf Hidx Hfresh Hcfg Hq Hobs Htime Hz Hrun Hpkg Hlen Hflags.
  assert (Hne : x_var <> selected_test).
  { intros ->. destruct (getitem_one _ _ _ Htime) as (c & Hc & _).
    apply Hfresh. unfold column_names. apply in_map_iff. exists c.
    assert (Hin : In c (List.filter (fun c => named selected_test c) (columns df)))
      by (rewrite Hc; left; reflexivity).
    apply filter_In in Hin as [Hin Hname]. split; [|exact Hin].
    apply String.eqb_eq. exact Hname. }
  pose proof (run_tests_returns df variable selected_test x_var y_var false w
                cfg q (Arr1 obs) time zinp results qartod flags
                Hcfg Hq Hobs Htime Hz Hrun Hpkg Hlen Hflags Hidx Hne) as Hrun_tests.
  set (r := {| index := time;
               columns :=
                 List.filter (fun c => negb (named x_var c)) (columns df)
                 ++ [(selected_test, map num_of_Z flags)] |}) in *.
  assert (Hmask : getitem r selected_test = Ok (Arr1 (map num_of_Z flags))).
  { unfold getitem, r. cbn [columns].
    rewrite filter_named_app, (filter_named_none _ _ _ Hfresh).
    cbn. rewrite String.eqb_refl. reflexivity. }
  assert (Hflags_len : length (map num_of_Z flags) = length obs).
  { rewrite length_map, (Hlen _ _ Hflags).
    symmetry. eapply getitem_column_length; eassumption. }
  exists (read_csv_document (to_csv_no_index r)). split.
  - unfold annotate_mask_export_reload.
    rewrite (bind_ok _ _ _ _ _ Hrun_tests).
    unfold bind, lift, ret. rewrite (make_mask_1d _ _ _ _ _ _ Hobs Hmask Hflags_len).
    reflexivity.
  - destruct (reloaded_shape r) as (-> & -> & ->).
    unfold column_names, ncols, nrows, r. cbn [columns index].
    rewrite map_app, column_names_without, length_app. cbn [map fst length].
    repeat split.
    + destruct (getitem_one _ _ _ Htime) as (c & Hc & _).
      pose proof (filter_complement_length (fun c => named x_var c) (columns df)) as H.
      rewrite Hc in H. simpl in H. lia.
    + eapply getitem_column_length; eassumption.
Qed.

End EngineFacts.

(** C2, as stated, fails on a dataset that is not in time order: the rows
    of [sample_df] are at times 30, 10 and 20, and [run_tests] returns them
    labelled 30, 10, 20. *)
Lemma run_tests_does_not_sort :
  fst (run_tests accept_config pass_all sample_df
                 "sea_surface_height_above_sea_level" "spike_test" "time" "z"
                 false (world_of None spike_page))
  = Ok sample_annotated
  /\ ascending (index sample_annotated) = false.
Proof. split; vm_compute; reflexivity. Qed.

(** C3, as stated, fails on [sample_df]: what is read back has the three
    columns [z], the measurement and the flag, as many as the input and not
    one more, the time column being gone. *)
Lemma round_trip_has_no_extra_column :
  fst (annotate_mask_export_reload accept_config pass_all sample_df
         "sea_surface_height_above_sea_level" "spike_test" "time" "z"
         (world_of None spike_page))
  = Ok sample_reloaded
  /\ column_names sample_reloaded
     = ["z"; "sea_surface_height_above_sea_level"; "spike_test"]
  /\ ncols sample_reloaded = ncols sample_df
  /\ ncols sample_reloaded <> (ncols sample_df + 1)%nat.
Proof. repeat split; vm_compute; try reflexivity. discriminate. Qed.

Lemma run_tests_joins_flags_in_row_order_witness :
  exists r,
    run_tests accept_config pass_all sample_df
              "sea_surface_height_above_sea_level" "spike_test" "time" "z"
              false (world_of None spike_page)
    = (Ok r, world_of None spike_page)
    /\ index r = [num_of_Z 30; num_of_Z 10; num_of_Z 20].
Proof.
  destruct (run_tests_joins_flags_in_row_order
              ConfigDict accept_config pass_all sample_df
              "sea_surface_height_above_sea_level" "spike_test" "time" "z"
              false (world_of None spike_page)
              sample_config sample_config
              (Arr1 [Num (3 # 2); Num (1 # 2); Num (5 # 2)])
              [num_of_Z 30; num_of_Z 10; num_of_Z 20]
              (Arr1 [num_of_Z 0; num_of_Z 0; num_of_Z 0])
              sample_results sample_flags [1; 1; 1])
    as (r & Hr & Hindex & _).
  - vm_compute; reflexivity.
  - reflexivity.
  - reflexivity.
  - reflexivity.
  - reflexivity.
  - vm_compute; reflexivity.
  - vm_compute; reflexivity.
  - apply map_Forall_singleton. reflexivity.
  - vm_compute; reflexivity.
  - reflexivity.
  - discriminate.
  - exists r. split; assumption.
Defined.

Lemma round_trip_keeps_shape_witness :
  exists reloaded,
    annotate_mask_export_reload accept_config pass_all sample_df
      "sea_surface_height_above_sea_level" "spike_test" "time" "z"
      (world_of None spike_page)
    = (Ok reloaded, world_of None spike_page)
    /\ ncols reloaded = 3%nat
    /\ nrows reloaded = 3%nat.
Proof.
  destruct (round_trip_keeps_shape
              ConfigDict accept_config pass_all sample_df
              "sea_surface_height_above_sea_level" "spike_test" "time" "z"
              (world_of None spike_page)
              sample_config sample_config
              [Num (3 # 2); Num (1 # 2); Num (5 # 2)]
              [num_of_Z 30; num_of_Z 10; num_of_Z 20]
              (Arr1 [num_of_Z 0; num_of_Z 0; num_of_Z 0])
              sample_results sample_flags [1; 1; 1])
    as (reloaded & Hrun & _ & Hcols & Hrows).
  - repeat constructor.
  - reflexivity.
  - simpl. intros H. decompose [or] H; discriminate || assumption.
  - vm_compute; reflexivity.
  - reflexivity.
  - reflexivity.
  - reflexivity.
  - reflexivity.
  - vm_compute; reflexivity.
  - vm_compute; reflexivity.
  - apply map_Forall_singleton. reflexivity.
  - vm_compute; reflexivity.
  - exists reloaded. repeat split; assumption.
Defined.

(** Why the row labels matter: on [gapped_df], which kept the labels 0 and 2
    of its three decoded rows, the two flags come labelled 0 and 1, the join
    is on the labels, and the annotated frame has three rows for a dataset
    of two. *)
Lemma run_tests_on_gapped_labels_adds_a_row :
  nrows gapped_df = 2%nat
  /\ option_map nrows
       (match fst (run_tests accept_config pass_all gapped_df
                             "sea_surface_height_above_sea_level" "spike_test"
                             "time" "z" false (world_of None spike_page)) with
        | Ok r => Some r
        | Raise _ => None
        end)
     = Some 3%nat.
Proof. split; vm_compute; reflexivity. Qed.

(** * Further properties

    ** [make_mask] beyond the four codes *)

Lemma list_lookup_map_cells {B} (f : cell -> B) (xs : list cell) (i : nat) c :
  xs !! i = Some c -> map f xs !! i = Some (f c).
Proof.
  revert i; induction xs as [|x xs IH]; intros [|i]; simpl; try discriminate.
  - intros [= ->]. reflexivity.
  - apply IH.
Qed.

Lemma cell_ne_false k c :
  cell_ne k c = false -> has_code c k.
Proof.
  unfold has_code, num_of_Z. destruct c as [|q|s]; simpl; try discriminate.
  intros H. apply negb_false_iff in H. exact H.
Qed.

Lemma has_code_unique c j k : has_code c j -> has_code c k -> j = k.
Proof.
  unfold has_code, num_of_Z. destruct c as [|q|s]; simpl; try discriminate.
  intros Hj Hk. apply Qeq_bool_iff in Hj, Hk. rewrite Hj in Hk.
  apply (proj1 (inject_Z_injective _ _)) in Hk. exact Hk.
Qed.

Lemma tolist_length (obs : list cell) (condition : list bool) :
  length condition = length obs ->
  length (tolist (mask_1d obs condition)) = length obs.
Proof.
  intros H. unfold tolist, mask_1d. simpl.
  rewrite length_map, length_combine. lia.
Qed.

Lemma getitem_missing df label :
  ~ In label (column_names df) -> getitem df label = Raise (KeyError label).
Proof.
  intros Hnot. unfold getitem.
  replace (List.filter (fun c => named label c) (columns df)) with (@nil (string * list cell));
    [reflexivity|].
  symmetry. unfold column_names in Hnot.
  induction (columns df) as [|c cols IH]; [reflexivity|].
  simpl. assert (Hc : named label c = false).
  { unfold named. apply String.eqb_neq. intros E. apply Hnot. left. exact E. }
  rewrite Hc. apply IH. intros H. apply Hnot. right. exact H.
Qed.

(** X1: a row whose flag is none of 1, 2, 3, 4 (the engine's MISSING=9, or
    a flag that is not a number) has the absent marker in all four buckets:
    its measurement is in no bucket. *)
Theorem make_mask_other_flag_in_no_bucket
        df result variable qc_test (obs flags : list cell) (i : nat) v c :
  getitem df variable = Ok (Arr1 obs) ->
  getitem result qc_test = Ok (Arr1 flags) ->
  length flags = length obs ->
  obs !! i = Some v ->
  flags !! i = Some c ->
  (forall code, In code flag_codes -> ~ has_code c code) ->
  exists m,
    make_mask df result variable qc_test = Ok m
    /\ tolist (qc_pass m) !! i = Some None
    /\ tolist (qc_suspect m) !! i = Some None
    /\ tolist (qc_fail m) !! i = Some None
    /\ tolist (qc_notrun m) !! i = Some None.
Proof.
  intros Hobs Hflags Hlen Hv Hc Hnone.
  eexists. split; [apply (make_mask_1d _ _ _ _ _ _ Hobs Hflags Hlen)|].
  assert (Hrow : forall k, In k flag_codes ->
             tolist (mask_1d obs (map (cell_ne k) flags)) !! i = Some None).
  { intros k Hk.
    rewrite (tolist_lookup obs _ i v (cell_ne k c) Hv
               (list_lookup_map_cells _ _ _ _ Hc)).
    destruct (cell_ne k c) eqn:E; [reflexivity|].
    exfalso. exact (Hnone k Hk (cell_ne_false _ _ E)). }
  cbn [qc_pass qc_suspect qc_fail qc_notrun].
  repeat split; apply Hrow; simpl; tauto.
Qed.

Lemma make_mask_other_flag_in_no_bucket_witness :
  exists m,
    make_mask sample_df sample_missing_flag
              "sea_surface_height_above_sea_level" "spike_test" = Ok m
    /\ tolist (qc_pass m) !! 1%nat = Some None
    /\ tolist (qc_suspect m) !! 1%nat = Some None
    /\ tolist (qc_fail m) !! 1%nat = Some None
    /\ tolist (qc_notrun m) !! 1%nat = Some None.
Proof.
  apply (make_mask_other_flag_in_no_bucket
           sample_df sample_missing_flag
           "sea_surface_height_above_sea_level" "spike_test"
           [Num (3 # 2); Num (1 # 2); Num (5 # 2)]
           [num_of_Z 1; num_of_Z 9; num_of_Z 3] 1%nat (Num (1 # 2)) (num_of_Z 9));
    try reflexivity.
  intros code Hin. simpl in Hin.
  decompose [or] Hin; subst; try contradiction; vm_compute; discriminate.
Defined.

(** X2: whatever the flags are, each of the four buckets has one entry per
    row, an entry is the absent marker or the row's own measurement, and no
    row has its measurement in two buckets. *)
Theorem make_mask_buckets_are_disjoint
        df result variable qc_test (obs flags : list cell) :
  getitem df variable = Ok (Arr1 obs) ->
  getitem result qc_test = Ok (Arr1 flags) ->
  length flags = length obs ->
  exists m,
    make_mask df result variable qc_test = Ok m
    /\ length (tolist (qc_pass m)) = length obs
    /\ length (tolist (qc_suspect m)) = length obs
    /\ length (tolist (qc_fail m)) = length obs
    /\ length (tolist (qc_notrun m)) = length obs
    /\ (forall (i : nat) v,
           obs !! i = Some v ->
           Forall (fun entry => entry = Some None \/ entry = Some (Some v))
                  [tolist (qc_pass m) !! i; tolist (qc_suspect m) !! i;
                   tolist (qc_fail m) !! i; tolist (qc_notrun m) !! i]
           /\ (length (List.filter holds_value
                         [tolist (qc_pass m) !! i; tolist (qc_suspect m) !! i;
                          tolist (qc_fail m) !! i; tolist (qc_notrun m) !! i])
               <= 1)%nat).
Proof.
  intros Hobs Hflags Hlen.
  eexists. split; [apply (make_mask_1d _ _ _ _ _ _ Hobs Hflags Hlen)|].
  cbn [qc_pass qc_suspect qc_fail qc_notrun].
  repeat (split; [apply tolist_length; rewrite length_map; exact Hlen|]).
  intros i v Hv.
  destruct (flags !! i) as [c|] eqn:Hc.
  2:{ apply lookup_ge_None in Hc. apply lookup_lt_Some in Hv. lia. }
  assert (Hrow : forall k,
             tolist (mask_1d obs (map (cell_ne k) flags)) !! i
             = Some (if cell_ne k c then None else Some v)).
  { intros k. apply tolist_lookup; [exact Hv|].
    apply list_lookup_map_cells. exact Hc. }
  rewrite !Hrow. split.
  - repeat (apply List.Forall_cons; [destruct (cell_ne _ c); auto|]).
    apply List.Forall_nil.
  - destruct (cell_ne 1 c) eqn:E1, (cell_ne 3 c) eqn:E3,
             (cell_ne 4 c) eqn:E4, (cell_ne 2 c) eqn:E2; simpl; try lia;
      exfalso;
      repeat match goal with
             | H : cell_ne _ c = false |- _ => apply cell_ne_false in H
             end;
      match goal with
      | H : has_code c ?j, H' : has_code c ?k |- _ =>
          pose proof (has_code_unique _ _ _ H H'); discriminate
      end.
Qed.

Lemma make_mask_buckets_are_disjoint_witness :
  exists m,
    make_mask sample_df sample_missing_flag
              "sea_surface_height_above_sea_level" "spike_test" = Ok m
    /\ length (tolist (qc_pass m)) = 3%nat.
Proof.
  destruct (make_mask_buckets_are_disjoint
              sample_df sample_missing_flag
              "sea_surface_height_above_sea_level" "spike_test"
              [Num (3 # 2); Num (1 # 2); Num (5 # 2)]
              [num_of_Z 1; num_of_Z 9; num_of_Z 3])
    as (m & Hm & Hpass & _); try reflexivity.
  exists m. split; assumption.
Defined.

Lemma shape_ndarray_map {A B} (f : A -> B) (a : ndarray A) :
  shape (ndarray_map f a) = shape a.
Proof.
  destruct a; cbn [ndarray_map shape]; rewrite length_map; reflexivity.
Qed.

(** X3: the errors of [make_mask].  Without the measurement column in the
    dataset it raises [KeyError] on the variable; with it but without the
    flag column in the annotated frame, [KeyError] on the test; with both
    but of different shapes (two columns of different lengths, say), the
    [IndexError] of [masked_where], whose message gives the shape of the
    flags and then the shape of the measurements. *)
Theorem make_mask_errors df result variable qc_test :
  (~ In variable (column_names df) ->
   make_mask df result variable qc_test = Raise (KeyError variable))
  /\ (forall obs,
         getitem df variable = Ok obs ->
         ~ In qc_test (column_names result) ->
         make_mask df result variable qc_test = Raise (KeyError qc_test))
  /\ (forall obs flags,
         getitem df variable = Ok obs ->
         getitem result qc_test = Ok flags ->
         shape flags <> shape obs ->
         make_mask df result variable qc_test
         = Raise (IndexError
                    ("Inconsistent shape between the condition and the input (got "
                     +:+ shape_repr (shape flags) +:+ " and "
                     +:+ shape_repr (shape obs) +:+ ")"))).
Proof.
  split; [|split].
  - intros H. unfold make_mask. rewrite (getitem_missing _ _ H). reflexivity.
  - intros obs Hobs H. unfold make_mask.
    rewrite Hobs, (getitem_missing _ _ H). reflexivity.
  - intros obs flags Hobs Hflags Hshape. unfold make_mask.
    rewrite Hobs, Hflags. cbn [outcome_bind].
    unfold masked_where at 1. rewrite shape_ndarray_map.
    rewrite bool_decide_eq_false_2; [reflexivity|assumption].
Qed.

(** A frame of two flags against the three observations of [sample_df]. *)
Lemma make_mask_errors_witness :
  make_mask sample_df sample_short
            "sea_surface_height_above_sea_level" "spike_test"
  = Raise (IndexError
             "Inconsistent shape between the condition and the input (got (2,) and (3,))").
Proof.
  apply (proj2 (proj2 (make_mask_errors
                         sample_df sample_short
                         "sea_surface_height_above_sea_level" "spike_test"))
               (Arr1 [Num (3 # 2); Num (1 # 2); Num (5 # 2)])
               (Arr1 [num_of_Z 1; num_of_Z 1]));
    [reflexivity|reflexivity|vm_compute; intros H; discriminate H].
Defined.

(** ** The message area and the selectors *)

Lemma show_message_run msg_html alert_type w e :
  document w !! "message" = Some e ->
  show_message msg_html alert_type w
  = (Ok tt,
     with_document w (<["message" := message_shown e msg_html alert_type]> (document w))).
Proof.
  intros H. unfold show_message, bind, getElementById. rewrite H. reflexivity.
Qed.

Lemma show_message_no_area msg_html alert_type w :
  document w !! "message" = None ->
  show_message msg_html alert_type w
  = (Raise (AttributeError "'NoneType' object has no attribute 'className'"), w).
Proof.
  intros H. unfold show_message, bind, getElementById. rewrite H. reflexivity.
Qed.

(** X4: [show_message] replaces what the message area showed: two messages
    in a row leave the session as the second alone would.  Without a message
    area on the page it raises [AttributeError] and changes nothing. *)
Theorem show_message_last_wins msg1 type1 msg2 type2 (w : World) :
  (is_Some (document w !! "message") ->
   bind (show_message msg1 type1) (fun _ => show_message msg2 type2) w
   = show_message msg2 type2 w)
  /\ (document w !! "message" = None ->
      show_message msg2 type2 w
      = (Raise (AttributeError "'NoneType' object has no attribute 'className'"), w)).
Proof.
  split; [|apply show_message_no_area].
  intros [e He].
  rewrite (bind_ok _ _ _ _ _ (show_message_run msg1 type1 w e He)).
  rewrite (show_message_run msg2 type2 w e He).
  erewrite show_message_run by (cbn; apply lookup_insert_eq).
  unfold with_document, message_shown. cbn. rewrite insert_insert_eq. reflexivity.
Qed.

Lemma show_message_last_wins_witness :
  bind (show_message "first" "info") (fun _ => show_message "second" "danger")
       (world_of None spike_page)
  = show_message "second" "danger" (world_of None spike_page).
Proof.
  apply (proj1 (show_message_last_wins "first" "info" "second" "danger"
                                       (world_of None spike_page))).
  exists blank. vm_compute. reflexivity.
Defined.

Lemma update_variable_options_run w df e1 e2 e3 :
  uploaded_df w = Some df ->
  document w !! "variableSelect" = Some e1 ->
  document w !! "xVariableSelect" = Some e2 ->
  document w !! "yVariableSelect" = Some e3 ->
  update_variable_options w
  = (Ok tt,
     with_document w
       (<["yVariableSelect" := with_options e3 (column_names df)]>
          (<["xVariableSelect" := with_options e2 (column_names df)]>
             (<["variableSelect" := with_options e1 (column_names df)]>
                (document w))))).
Proof.
  intros Hdf H1 H2 H3.
  unfold update_variable_options, bind, get_uploaded_df. rewrite Hdf.
  cbn [for_each]. unfold bind, getElementById, set_element. cbn.
  rewrite H1. cbn.
  rewrite lookup_insert_ne by discriminate. rewrite H2. cbn.
  rewrite !lookup_insert_ne by discriminate. rewrite H3. cbn.
  reflexivity.
Qed.

(** X5: with a dataset loaded and the three selectors on the page,
    [update_variable_options] makes each selector offer exactly the
    dataset's column names, in order, and leaves every other element and
    the dataset alone.  With no dataset it does nothing. *)
Theorem update_variable_options_lists_columns (w : World) :
  (forall df e1 e2 e3,
      uploaded_df w = Some df ->
      document w !! "variableSelect" = Some e1 ->
      document w !! "xVariableSelect" = Some e2 ->
      document w !! "yVariableSelect" = Some e3 ->
      let after := snd (update_variable_options w) in
      fst (update_variable_options w) = Ok tt
      /\ document after !! "variableSelect" = Some (with_options e1 (column_names df))
      /\ document after !! "xVariableSelect" = Some (with_options e2 (column_names df))
      /\ document after !! "yVariableSelect" = Some (with_options e3 (column_names df))
      /\ (forall id, ~ In id selectors -> document after !! id = document w !! id)
      /\ uploaded_df after = Some df)
  /\ (uploaded_df w = None -> update_variable_options w = (Ok tt, w)).
Proof.
  split.
  - intros df e1 e2 e3 Hdf H1 H2 H3 after. subst after.
    rewrite (update_variable_options_run w df e1 e2 e3 Hdf H1 H2 H3).
    cbn [fst snd with_document document uploaded_df].
    split; [reflexivity|].
    split; [rewrite !lookup_insert_ne by discriminate; apply lookup_insert_eq|].
    split; [rewrite lookup_insert_ne by discriminate; apply lookup_insert_eq|].
    split; [apply lookup_insert_eq|].
    split; [|exact Hdf].
    intros id Hid. unfold selectors in Hid. cbn in Hid.
    rewrite !lookup_insert_ne; [reflexivity|..];
      intros E; apply Hid; rewrite <- E; auto.
  - intros Hdf. unfold update_variable_options, bind, get_uploaded_df.
    rewrite Hdf. reflexivity.
Qed.

Lemma update_variable_options_lists_columns_witness :
  document (snd (update_variable_options (world_of (Some sample_df) spike_page)))
           !! "xVariableSelect"
  = Some (with_options blank ["time"; "z"; "sea_surface_height_above_sea_level"]).
Proof.
  destruct (proj1 (update_variable_options_lists_columns
                     (world_of (Some sample_df) spike_page))
                  sample_df blank blank blank)
    as (_ & _ & Hx & _);
    [vm_compute; reflexivity..|exact Hx].
Defined.

(** ** What [onload] leaves on the page *)

Lemma keeps_message_bind {A B} (m : M A) (k : A -> M B) :
  keeps_message m -> (forall a, keeps_message (k a)) -> keeps_message (bind m k).
Proof.
  intros Hm Hk w Hw. unfold bind. specialize (Hm w Hw).
  destruct (m w) as [[a|e] w']; simpl in *; [apply Hk|]; exact Hm.
Qed.

Lemma keeps_message_read_only {A} (m : M A) : read_only m -> keeps_message m.
Proof. intros H w Hw. now rewrite H. Qed.

Lemma keeps_message_attr el attribute : keeps_message (attr el attribute).
Proof. destruct el; intros w Hw; exact Hw. Qed.

Lemma keeps_message_set_element id e : keeps_message (set_element id e).
Proof.
  intros w Hw. cbn. destruct (decide (id = "message")) as [->|Hne].
  - rewrite lookup_insert_eq. eauto.
  - rewrite lookup_insert_ne by exact Hne. exact Hw.
Qed.

Lemma keeps_message_set_uploaded_df df : keeps_message (set_uploaded_df df).
Proof. intros w Hw. exact Hw. Qed.

Lemma keeps_message_for_each {A} (xs : list A) body :
  (forall x, keeps_message (body x)) -> keeps_message (for_each xs body).
Proof.
  intros H. induction xs as [|x xs IH]; [intros w Hw; exact Hw|].
  simpl. apply keeps_message_bind; [apply H|intros _; exact IH].
Qed.

Ltac keeps_message_step :=
  match goal with
  | |- keeps_message (bind _ _) => apply keeps_message_bind; [|intros ?]
  | |- keeps_message (getElementById _) =>
      apply keeps_message_read_only, read_only_getElementById
  | |- keeps_message (attr _ _) => apply keeps_message_attr
  | |- keeps_message (set_element _ _) => apply keeps_message_set_element
  | |- keeps_message (set_uploaded_df _) => apply keeps_message_set_uploaded_df
  | |- keeps_message (ret _) => apply keeps_message_read_only, read_only_ret
  | |- keeps_message (raise _) => apply keeps_message_read_only, read_only_raise
  | |- keeps_message (lift _) => apply keeps_message_read_only, read_only_lift
  | |- keeps_message (for_each _ _) => apply keeps_message_for_each; intros ?
  end.

Lemma keeps_message_show_message msg_html alert_type :
  keeps_message (show_message msg_html alert_type).
Proof. unfold show_message. repeat keeps_message_step. Qed.

Lemma keeps_message_update_variable_options :
  keeps_message update_variable_options.
Proof.
  unfold update_variable_options.
  apply keeps_message_bind; [intros w Hw; exact Hw|].
  intros [df|]; repeat keeps_message_step.
Qed.

(** One step of a run: the first computation of a [bind] ends normally. *)
Ltac bind_step := erewrite bind_ok by reflexivity; cbv beta.

Section OnloadFacts.

Variable read_csv : string -> ascii -> string + DataFrame.
Variable open_dataset_to_dataframe : string -> string + DataFrame.

Lemma keeps_message_ingest filename content :
  keeps_message (ingest read_csv open_dataset_to_dataframe filename content).
Proof.
  unfold ingest.
  destruct (PyStr.endswith filename ".csv");
    [|destruct (PyStr.endswith filename ".nc")];
    repeat keeps_message_step.
Qed.

(** The handler of the [except] branch, on a page with a message area. *)
Lemma report_failure_run (e : exn) w em :
  document w !! "message" = Some em ->
  bind (show_message ("Failed to load file: " +:+ str_exn e) "danger")
       (fun _ => print ("File load error: " +:+ str_exn e)) w
  = (Ok tt,
     {| uploaded_df := uploaded_df w;
        document :=
          <["message" :=
              message_shown em ("Failed to load file: " +:+ str_exn e) "danger"]>
            (document w);
        qc_config_json := qc_config_json w;
        stdout := stdout w ++ ["File load error: " +:+ str_exn e] |}).
Proof.
  intros H. rewrite (bind_ok _ _ _ _ _ (show_message_run _ _ w em H)).
  reflexivity.
Qed.

(** X6: an upload that parses, on a page with the three selectors, the file
    name display and the message area: the handler ends normally, the
    dataset is the parsed one, each selector offers its columns, the display
    shows the file name as the user's file has it (not lower-cased), and
    the message area announces the load as a success. *)
Theorem onload_success file_name content (w : World) df e1 e2 e3 ef em :
  ingest read_csv open_dataset_to_dataframe (PyStr.lower file_name) content w
  = set_uploaded_df df w ->
  document w !! "variableSelect" = Some e1 ->
  document w !! "xVariableSelect" = Some e2 ->
  document w !! "yVariableSelect" = Some e3 ->
  document w !! "filename-display" = Some ef ->
  document w !! "message" = Some em ->
  let after := snd (onload read_csv open_dataset_to_dataframe file_name content w) in
  fst (onload read_csv open_dataset_to_dataframe file_name content w) = Ok tt
  /\ uploaded_df after = Some df
  /\ document after !! "variableSelect" = Some (with_options e1 (column_names df))
  /\ document after !! "xVariableSelect" = Some (with_options e2 (column_names df))
  /\ document after !! "yVariableSelect" = Some (with_options e3 (column_names df))
  /\ option_map innerText (document after !! "filename-display") = Some file_name
  /\ document after !! "message"
     = Some (message_shown em ("File '" +:+ file_name +:+ "' loaded successfully.")
                           "success")
  /\ stdout after = stdout w.
Proof.
  intros Hingest H1 H2 H3 Hf Hm after. subst after.
  unfold onload, try_except.
  rewrite (bind_ok _ _ _ _ _ Hingest).
  erewrite bind_ok; [|apply (update_variable_options_run _ df e1 e2 e3);
                       [reflexivity|exact H1|exact H2|exact H3]].
  bind_step. cbn [document with_document].
  rewrite !lookup_insert_ne by discriminate. rewrite Hf.
  bind_step. bind_step.
  erewrite show_message_run
    by (cbn [document with_document]; rewrite !lookup_insert_ne by discriminate;
        exact Hm).
  cbn [fst snd with_document document uploaded_df stdout].
  split; [reflexivity|]. split; [reflexivity|].
  split; [rewrite !lookup_insert_ne by discriminate; apply lookup_insert_eq|].
  split; [rewrite !lookup_insert_ne by discriminate; apply lookup_insert_eq|].
  split; [rewrite !lookup_insert_ne by discriminate; apply lookup_insert_eq|].
  split; [rewrite lookup_insert_ne by discriminate; rewrite lookup_insert_eq;
          reflexivity|].
  split; [apply lookup_insert_eq|reflexivity].
Qed.

(** X7: an upload whose parsing fails, on a page with a message area: the
    handler ends normally, the message area shows the error after [Failed to
    load file: ] as a danger alert, the same text goes to the console after
    [File load error: ], and nothing else on the page, nor the dataset,
    changes. *)
Theorem onload_failure_is_reported file_name content (w : World) e em :
  fst (ingest read_csv open_dataset_to_dataframe (PyStr.lower file_name) content w)
  = Raise e ->
  document w !! "message" = Some em ->
  onload read_csv open_dataset_to_dataframe file_name content w
  = (Ok tt,
     {| uploaded_df := uploaded_df w;
        document :=
          <["message" :=
              message_shown em ("Failed to load file: " +:+ str_exn e) "danger"]>
            (document w);
        qc_config_json := qc_config_json w;
        stdout := stdout w ++ ["File load error: " +:+ str_exn e] |}).
Proof.
  intros Hfail Hm.
  destruct (ingest read_csv open_dataset_to_dataframe (PyStr.lower file_name)
                   content w) as [r w1] eqn:E.
  simpl in Hfail. subst r.
  pose proof (ingest_raise_world _ _ _ _ _ _ _ E) as ->.
  unfold onload, try_except.
  rewrite (bind_raise _ _ _ _ _ E).
  apply report_failure_run. exact Hm.
Qed.

(** X8: on a page with a message area, the upload handler never lets an
    exception out: whatever the file and the readers do, it ends normally. *)
Theorem onload_never_raises file_name content (w : World) :
  is_Some (document w !! "message") ->
  fst (onload read_csv open_dataset_to_dataframe file_name content w) = Ok tt.
Proof.
  intros Hm. unfold onload, try_except.
  match goal with
  | |- context [bind (ingest ?r ?o ?f ?c) ?k] => set (body := bind (ingest r o f c) k)
  end.
  assert (Hbody : keeps_message body).
  { subst body. apply keeps_message_bind; [apply keeps_message_ingest|intros _].
    apply keeps_message_bind;
      [apply keeps_message_update_variable_options|intros _].
    repeat keeps_message_step. apply keeps_message_show_message. }
  specialize (Hbody w Hm).
  destruct (body w) as [[[]|e] w1]; [reflexivity|].
  simpl in Hbody. destruct Hbody as [em Hem].
  rewrite (report_failure_run e w1 em Hem). reflexivity.
Qed.

(** X9: when the file parses but the page has no file name display, the
    dataset is replaced and the selectors list the new columns all the
    same, while the message area reports the load as failed. *)
Theorem onload_reports_failure_after_loading
        file_name content (w : World) df e1 e2 e3 em :
  ingest read_csv open_dataset_to_dataframe (PyStr.lower file_name) content w
  = set_uploaded_df df w ->
  document w !! "variableSelect" = Some e1 ->
  document w !! "xVariableSelect" = Some e2 ->
  document w !! "yVariableSelect" = Some e3 ->
  document w !! "filename-display" = None ->
  document w !! "message" = Some em ->
  let after := snd (onload read_csv open_dataset_to_dataframe file_name content w) in
  uploaded_df after = Some df
  /\ document after !! "xVariableSelect" = Some (with_options e2 (column_names df))
  /\ document after !! "message"
     = Some (message_shown
               em
               "Failed to load file: 'NoneType' object has no attribute 'innerText'"
               "danger").
Proof.
  intros Hingest H1 H2 H3 Hf Hm after. subst after.
  unfold onload, try_except.
  rewrite (bind_ok _ _ _ _ _ Hingest).
  erewrite bind_ok; [|apply (update_variable_options_run _ df e1 e2 e3);
                       [reflexivity|exact H1|exact H2|exact H3]].
  bind_step. cbn [document with_document].
  rewrite !lookup_insert_ne by discriminate. rewrite Hf.
  erewrite bind_raise by reflexivity.
  erewrite report_failure_run
    by (cbn [document with_document]; rewrite !lookup_insert_ne by discriminate;
        exact Hm).
  cbn [fst snd document with_document uploaded_df str_exn].
  split; [reflexivity|].
  split; [rewrite !lookup_insert_ne by discriminate; apply lookup_insert_eq|].
  apply lookup_insert_eq.
Qed.

End OnloadFacts.

Lemma onload_success_witness :
  uploaded_df (snd (onload sample_read_csv failing_open_dataset "Data.CSV" "t,z"
                           (world_of None spike_page)))
  = Some sample_df
  /\ option_map innerText
       (document (snd (onload sample_read_csv failing_open_dataset "Data.CSV" "t,z"
                              (world_of None spike_page)))
                 !! "filename-display")
     = Some "Data.CSV".
Proof.
  destruct (onload_success sample_read_csv failing_open_dataset
                           "Data.CSV" "t,z" (world_of None spike_page)
                           sample_df blank blank blank blank blank)
    as (_ & Hdf & _ & _ & _ & Hname & _);
    [vm_compute; reflexivity..|].
  split; assumption.
Defined.

Lemma onload_failure_is_reported_witness :
  stdout (snd (onload sample_read_csv failing_open_dataset "empty.csv" ""
                      (world_of (Some sample_df) spike_page)))
  = ["File load error: No columns to parse from file"].
Proof.
  rewrite (onload_failure_is_reported
             sample_read_csv failing_open_dataset "empty.csv" ""
             (world_of (Some sample_df) spike_page)
             (LibraryError "No columns to parse from file") blank);
    [reflexivity|vm_compute; reflexivity..].
Defined.

Lemma onload_never_raises_witness :
  fst (onload sample_read_csv failing_open_dataset "notes.txt" "hello"
              (world_of None spike_page))
  = Ok tt.
Proof.
  apply (onload_never_raises sample_read_csv failing_open_dataset
                             "notes.txt" "hello" (world_of None spike_page)).
  exists blank. vm_compute. reflexivity.
Defined.

Lemma onload_reports_failure_after_loading_witness :
  uploaded_df (snd (onload sample_read_csv failing_open_dataset "data.csv" "t,z"
                           (world_of None page_without_filename_display)))
  = Some sample_df
  /\ option_map children
       (document (snd (onload sample_read_csv failing_open_dataset "data.csv" "t,z"
                              (world_of None page_without_filename_display)))
                 !! "message")
     = Some ["Failed to load file: 'NoneType' object has no attribute 'innerText'"].
Proof.
  destruct (onload_reports_failure_after_loading
              sample_read_csv failing_open_dataset
              "data.csv" "t,z" (world_of None page_without_filename_display)
              sample_df blank blank blank blank)
    as (Hdf & _ & Hmsg);
    [vm_compute; reflexivity..|].
  split; [exact Hdf|]. rewrite Hmsg. reflexivity.
Defined.

(** ** When the configuration builder succeeds *)

Lemma get_value_by_id_cases id w :
  (exists x, get_value_by_id id w = (Ok x, w) /\ field_reads w id)
  \/ (exists e, get_value_by_id id w = (Raise e, w)).
Proof.
  destruct (document w !! id) as [el|] eqn:Hel.
  - rewrite (get_value_by_id_present _ _ _ Hel). unfold PyFloat.float.
    destruct (PyFloat.parse (value el)) as [x|] eqn:Hx.
    + left. exists x. split; [reflexivity|]. exists el, x. auto.
    + right. eexists. reflexivity.
  - right. eexists. apply get_value_by_id_missing, Hel.
Qed.

(** Follows a successful run of the builder through its reads. *)
Ltac follow_reads H :=
  repeat match type of H with
         | context [bind (get_value_by_id ?f) ?k ?w] =>
             let x := fresh "x" in
             let Hx := fresh "Hx" in
             let Hr := fresh "Hr" in
             let e := fresh "e" in
             destruct (get_value_by_id_cases f w) as [(x & Hx & Hr)|(e & Hx)];
             [rewrite (bind_ok _ _ _ _ _ Hx) in H; cbv beta in H
             |rewrite (bind_raise _ _ _ _ _ Hx) in H; discriminate H]
         end.

Lemma get_user_config_reads test w :
  In test built_in_tests ->
  Forall (field_reads w) (form_fields test) ->
  exists cfg, get_user_config test w = (Ok cfg, w).
Proof.
  intros Htest. vm_compute in Htest.
  destruct Htest as [<-|[<-|[<-|[<-|[]]]]];
    intros Hall; vm_compute form_fields in Hall;
    repeat match goal with
           | H : Forall _ (_ :: _) |- _ => apply Forall_cons_1 in H; destruct H
           end;
    repeat match goal with
           | H : field_reads ?w ?f |- _ =>
               let x := fresh "x" in
               let Hx := fresh "Hx" in
               destruct (get_value_by_id_reads f w H) as [x Hx]; clear H
           end;
    eexists; unfold get_user_config; decide_test_names; unfold bind at 1;
    repeat match goal with
           | Hx : get_value_by_id ?f ?w = _
             |- context [bind (get_value_by_id ?f) ?k ?w] =>
               rewrite (bind_ok _ _ _ _ _ Hx); cbv beta
           end;
    reflexivity.
Qed.

(** X10: for each of the four built-in tests the builder succeeds exactly
    when every form field of the test, as the schema lists them, is on the
    page with a value [float] accepts; what it then returns holds one
    package, [qartod], with one entry, the selected test. *)
Theorem get_user_config_succeeds_iff_fields_read test (w : World) :
  In test built_in_tests ->
  (forall cfg,
      get_user_config test w = (Ok cfg, w) ->
      Forall (field_reads w) (form_fields test)
      /\ exists params, cfg = [("qartod", [(test, params)])])
  /\ (Forall (field_reads w) (form_fields test) ->
      exists cfg, get_user_config test w = (Ok cfg, w)).
Proof.
  intros Htest. split; [|apply get_user_config_reads; exact Htest].
  vm_compute in Htest.
  destruct Htest as [<-|[<-|[<-|[<-|[]]]]];
    intros cfg H; unfold get_user_config in H; revert H;
    decide_test_names; intros H; unfold bind at 1 in H;
    follow_reads H;
    unfold ret in H; injection H as <-;
    (split; [vm_compute form_fields; repeat constructor; assumption
            |eexists; reflexivity]).
Qed.

Lemma get_user_config_succeeds_iff_fields_read_witness :
  exists cfg,
    get_user_config "spike_test" (world_of None spike_page)
    = (Ok cfg, world_of None spike_page).
Proof.
  apply (proj2 (get_user_config_succeeds_iff_fields_read
                  "spike_test" (world_of None spike_page)
                  ltac:(vm_compute; tauto))).
  repeat constructor.
  - exists (input_with "0.8"), (PyFloat.Finite 8 (-1)). split; vm_compute; reflexivity.
  - exists (input_with "3"), (PyFloat.Finite 3 0). split; vm_compute; reflexivity.
Defined.

(** ** Errors of the test runner, and the download *)

Lemma frame_of_dict_without_test (d : gmap string (list Z)) n test :
  map_Forall (fun _ a => length a = n) d ->
  d !! test = None ->
  exists f,
    frame_of_dict d = Ok f
    /\ getitem_labelled f test = Raise (KeyError test).
Proof.
  intros Hlen Hnone.
  assert (Hall : forall c, c ∈ map_to_list d -> length (snd c) = n).
  { intros [k a] Hc. apply elem_of_map_to_list in Hc. exact (Hlen _ _ Hc). }
  assert (Habsent : test ∉ (map_to_list d).*1).
  { intros Hin. apply list_elem_of_fmap in Hin as ([k a] & -> & Hin).
    apply elem_of_map_to_list in Hin. cbn in Hnone. congruence. }
  unfold frame_of_dict.
  destruct (map_to_list d) as [|[k a] rest] eqn:E; [eexists; split; reflexivity|].
  assert (Ha : length a = n) by (apply (Hall (k, a)); left).
  assert (Hforall : forallb (fun c => (length (snd c) =? length a)%nat) rest = true).
  { apply forallb_forall. intros c Hc. apply Nat.eqb_eq.
    rewrite Ha. apply Hall. right. apply list_elem_of_In. exact Hc. }
  rewrite Hforall. eexists. split; [reflexivity|].
  unfold getitem_labelled. cbn [columns index].
  change (fun c : string * list Z => (fst c, map num_of_Z (snd c))) with flag_column.
  rewrite (filter_named_absent _ _ Habsent). reflexivity.
Qed.

Section RunnerFacts.

Variable qc : Type.
Variable QcConfig : ConfigDict -> string + qc.
Variable run :
  qc -> ndarray cell -> ndarray cell -> ndarray cell -> string + EngineResults.

Lemma config_step_run selected_test (use_defaults : bool) w cfg :
  fst ((if use_defaults then load_default_config
        else get_user_config selected_test) w) = Ok cfg ->
  (if use_defaults then load_default_config
   else get_user_config selected_test) w = (Ok cfg, w).
Proof.
  intros H. rewrite read_only_eq, H; [reflexivity|].
  destruct use_defaults;
    [apply read_only_load_default_config|apply read_only_get_user_config].
Qed.

(** X11: with a configuration the engine accepts, [run_tests] on a dataset
    that lacks one of the three columns it is given raises [KeyError] on the
    first one missing, in the order measurement, time, secondary, before the
    engine is run; the session is not changed. *)
Theorem run_tests_missing_column
        df variable selected_test x_var y_var (use_defaults : bool) (w : World)
        cfg q :
  fst ((if use_defaults then load_default_config
        else get_user_config selected_test) w) = Ok cfg ->
  QcConfig cfg = inr q ->
  (~ In variable (column_names df) ->
   run_tests QcConfig run df variable selected_test x_var y_var use_defaults w
   = (Raise (KeyError variable), w))
  /\ (In variable (column_names df) -> ~ In x_var (column_names df) ->
      run_tests QcConfig run df variable selected_test x_var y_var use_defaults w
      = (Raise (KeyError x_var), w))
  /\ (In variable (column_names df) -> In x_var (column_names df) ->
      ~ In y_var (column_names df) ->
      run_tests QcConfig run df variable selected_test x_var y_var use_defaults w
      = (Raise (KeyError y_var), w)).
Proof.
  intros Hcfg Hq.
  assert (Hpresent : forall label, In label (column_names df) ->
                                   exists a, getitem df label = Ok a).
  { intros label Hin. unfold getitem.
    destruct (List.filter (fun c => named label c) (columns df))
      as [|c [|c' cs]] eqn:E; eauto.
    exfalso. unfold column_names in Hin. apply in_map_iff in Hin as (c & <- & Hin).
    assert (Hc : In c (List.filter (fun c0 => named (fst c) c0) (columns df))).
    { apply filter_In. split; [exact Hin|]. unfold named. apply String.eqb_refl. }
    rewrite E in Hc. exact Hc. }
  unfold run_tests.
  rewrite (bind_ok _ _ _ _ _ (config_step_run _ _ _ _ Hcfg)).
  unfold bind, lift. rewrite Hq. cbn [from_library].
  split; [|split].
  - intros Hv. rewrite (getitem_missing _ _ Hv). reflexivity.
  - intros Hv Hx. destruct (Hpresent _ Hv) as [a ->].
    rewrite (getitem_missing _ _ Hx). reflexivity.
  - intros Hv Hx Hy. destruct (Hpresent _ Hv) as [a ->].
    destruct (Hpresent _ Hx) as [b ->].
    rewrite (getitem_missing _ _ Hy). reflexivity.
Qed.

(** X12: with [use_defaults] the form is not read: [run_tests] returns the
    same annotated dataset, or the same error, from any two sessions that
    hold the same bundled configuration, whatever their pages and datasets
    are. *)
Theorem run_tests_defaults_ignore_the_form
        df variable selected_test x_var y_var (w w' : World) :
  qc_config_json w = qc_config_json w' ->
  fst (run_tests QcConfig run df variable selected_test x_var y_var true w)
  = fst (run_tests QcConfig run df variable selected_test x_var y_var true w').
Proof.
  intros H. unfold run_tests.
  set (rest := fun qc_config : ConfigDict => bind _ _).
  assert (Hvalue : forall c u u', fst (rest c u) = fst (rest c u')).
  { intros c u u'. subst rest. cbv beta. unfold bind, lift.
    repeat match goal with
           | |- context [match ?x with _ => _ end] => destruct x
           end; reflexivity. }
  unfold bind, load_default_config. rewrite H.
  destruct (qc_config_json w') as [cfg|]; [apply Hvalue|reflexivity].
Qed.

(** X13: when the engine's answer has no [qartod] package, [run_tests]
    raises [KeyError] on [qartod]; when it has one without the selected test
    (as happens under a bundled configuration that does not list it),
    [KeyError] on the test. *)
Theorem run_tests_without_results
        df variable selected_test x_var y_var (use_defaults : bool) (w : World)
        cfg q inp tinp zinp (results : EngineResults) :
  fst ((if use_defaults then load_default_config
        else get_user_config selected_test) w) = Ok cfg ->
  QcConfig cfg = inr q ->
  getitem df variable = Ok inp ->
  getitem df x_var = Ok tinp ->
  getitem df y_var = Ok zinp ->
  run q inp tinp zinp = inr results ->
  (results !! "qartod" = None ->
   run_tests QcConfig run df variable selected_test x_var y_var use_defaults w
   = (Raise (KeyError "qartod"), w))
  /\ (forall (qartod : gmap string (list Z)) n,
         results !! "qartod" = Some qartod ->
         map_Forall (fun _ a => length a = n) qartod ->
         qartod !! selected_test = None ->
         run_tests QcConfig run df variable selected_test x_var y_var use_defaults w
         = (Raise (KeyError selected_test), w)).
Proof.
  intros Hcfg Hq Hinp Htinp Hzinp Hrun.
  unfold run_tests.
  rewrite (bind_ok _ _ _ _ _ (config_step_run _ _ _ _ Hcfg)).
  unfold bind, lift. rewrite Hq, Hinp, Htinp, Hzinp. cbn [from_library].
  rewrite Hrun. cbn [from_library]. split.
  - intros ->. reflexivity.
  - intros qartod n -> Hlen Hnone.
    destruct (frame_of_dict_without_test _ _ _ Hlen Hnone) as (f & -> & ->).
    reflexivity.
Qed.

End RunnerFacts.

Lemma run_tests_missing_column_witness :
  run_tests accept_config pass_all sample_df "salinity" "spike_test" "time" "z"
            false (world_of None spike_page)
  = (Raise (KeyError "salinity"), world_of None spike_page).
Proof.
  apply (proj1 (run_tests_missing_column
                  ConfigDict accept_config pass_all sample_df
                  "salinity" "spike_test" "time" "z" false
                  (world_of None spike_page) sample_config sample_config
                  ltac:(vm_compute; reflexivity) eq_refl)).
  simpl. intros H. decompose [or] H; discriminate || assumption.
Defined.

Lemma run_tests_defaults_ignore_the_form_witness :
  fst (run_tests accept_config pass_all sample_df
                 "sea_surface_height_above_sea_level" "spike_test" "time" "z"
                 true (bundled_world spike_page))
  = fst (run_tests accept_config pass_all sample_df
                   "sea_surface_height_above_sea_level" "spike_test" "time" "z"
                   true (bundled_world ∅)).
Proof.
  apply (run_tests_defaults_ignore_the_form
           ConfigDict accept_config pass_all sample_df
           "sea_surface_height_above_sea_level" "spike_test" "time" "z"
           (bundled_world spike_page) (bundled_world ∅)).
  reflexivity.
Defined.

Lemma run_tests_without_results_witness :
  run_tests accept_config gross_range_only sample_df
            "sea_surface_height_above_sea_level" "spike_test" "time" "z"
            false (world_of None spike_page)
  = (Raise (KeyError "spike_test"), world_of None spike_page).
Proof.
  apply (proj2 (run_tests_without_results
                  ConfigDict accept_config gross_range_only sample_df
                  "sea_surface_height_above_sea_level" "spike_test" "time" "z"
                  false (world_of None spike_page) sample_config sample_config
                  (Arr1 [Num (3 # 2); Num (1 # 2); Num (5 # 2)])
                  (Arr1 [num_of_Z 30; num_of_Z 10; num_of_Z 20])
                  (Arr1 [num_of_Z 0; num_of_Z 0; num_of_Z 0])
                  {["qartod" := {["gross_range_test" := [1; 1; 1]]}]}
                  ltac:(vm_compute; reflexivity) eq_refl eq_refl eq_refl eq_refl
                  eq_refl)
               {["gross_range_test" := [1; 1; 1]]} 3%nat).
  - vm_compute; reflexivity.
  - apply map_Forall_singleton. reflexivity.
  - vm_compute; reflexivity.
Defined.

Section DownloadFacts.

Variable qc : Type.
Variable QcConfig : ConfigDict -> string + qc.
Variable run :
  qc -> ndarray cell -> ndarray cell -> ndarray cell -> string + EngineResults.

(** The download reads the four selectors and hands their values to
    [run_tests]. *)
Lemma download_reads_selectors (w : World) df st sv sx sy :
  uploaded_df w = Some df ->
  document w !! "select" = Some st ->
  document w !! "variableSelect" = Some sv ->
  document w !! "xVariableSelect" = Some sx ->
  document w !! "yVariableSelect" = Some sy ->
  download_processed_data QcConfig run w
  = bind (run_tests QcConfig run df (value sv) (value st) (value sx) (value sy) false)
         (fun result =>
            bind (show_message "File successfully downloaded." "success")
                 (fun _ => ret (Some (to_csv_no_index result)))) w.
Proof.
  intros Hdf Hst Hsv Hsx Hsy.
  unfold download_processed_data.
  unfold bind at 1, get_uploaded_df at 1. rewrite Hdf.
  unfold bind at 1, getElementById at 1. rewrite Hst.
  unfold bind at 1, attr at 1, ret at 1.
  unfold bind at 1, getElementById at 1. rewrite Hsv.
  unfold bind at 1, attr at 1, ret at 1.
  unfold bind at 1, getElementById at 1. rewrite Hsx.
  unfold bind at 1, attr at 1, ret at 1.
  unfold bind at 1, getElementById at 1. rewrite Hsy.
  unfold bind at 1, attr at 1, ret at 1.
  reflexivity.
Qed.

(** X14: with no dataset loaded the download offers nothing: it shows the
    warning in the message area, returns no file, reads no selector and does
    not run the engine. *)
Theorem download_without_dataset (w : World) em :
  uploaded_df w = None ->
  document w !! "message" = Some em ->
  download_processed_data QcConfig run w
  = (Ok None,
     with_document w
       (<["message" :=
            message_shown em "No data to download. Please upload a file first."
                          "warning"]> (document w))).
Proof.
  intros Hdf Hm. unfold download_processed_data.
  unfold bind at 1, get_uploaded_df at 1. rewrite Hdf.
  rewrite (bind_ok _ _ _ _ _ (show_message_run _ _ w em Hm)). reflexivity.
Qed.

(** X15: the download has no handler of its own: when [run_tests] fails on
    the loaded dataset, the exception leaves [download_processed_data] as it
    is, no file is offered, and the page, message area included, stays as
    it was. *)
Theorem download_propagates_errors (w : World) df st sv sx sy e :
  uploaded_df w = Some df ->
  document w !! "select" = Some st ->
  document w !! "variableSelect" = Some sv ->
  document w !! "xVariableSelect" = Some sx ->
  document w !! "yVariableSelect" = Some sy ->
  fst (run_tests QcConfig run df (value sv) (value st) (value sx) (value sy) false w)
  = Raise e ->
  download_processed_data QcConfig run w = (Raise e, w).
Proof.
  intros Hdf Hst Hsv Hsx Hsy Hfail.
  rewrite (download_reads_selectors w df st sv sx sy Hdf Hst Hsv Hsx Hsy).
  apply bind_raise. rewrite read_only_eq, Hfail; [reflexivity|].
  apply read_only_run_tests.
Qed.

(** X16: on a well-formed dataset with default row labels whose time
    column is not named like the test, when the test runs with one flag per
    row, the file the download offers has as columns the dataset's columns
    other than the time column and then the test's flags, and one record
    per row: the time column is never in it.  The message area announces
    the download. *)
Theorem download_omits_the_time_column
        (w : World) df st sv sx sy em
        cfg q inp time zinp (results : EngineResults)
        (qartod : gmap string (list Z)) flags :
  uploaded_df w = Some df ->
  document w !! "select" = Some st ->
  document w !! "variableSelect" = Some sv ->
  document w !! "xVariableSelect" = Some sx ->
  document w !! "yVariableSelect" = Some sy ->
  document w !! "message" = Some em ->
  well_formed df ->
  fst (get_user_config (value st) w) = Ok cfg ->
  QcConfig cfg = inr q ->
  getitem df (value sv) = Ok inp ->
  getitem df (value sx) = Ok (Arr1 time) ->
  getitem df (value sy) = Ok zinp ->
  run q inp (Arr1 time) zinp = inr results ->
  results !! "qartod" = Some qartod ->
  map_Forall (fun _ a => length a = nrows df) qartod ->
  qartod !! (value st) = Some flags ->
  index df = range_index (nrows df) ->
  value sx <> value st ->
  exists csv,
    download_processed_data QcConfig run w
    = (Ok (Some csv),
       with_document w
         (<["message" :=
              message_shown em "File successfully downloaded." "success"]>
            (document w)))
    /\ header csv
       = List.filter (fun n => negb (String.eqb n (value sx))) (column_names df)
         ++ [value st]
    /\ ~ In (value sx) (header csv)
    /\ length (records csv) = nrows df.
Proof.
  intros Hdf Hst Hsv Hsx Hsy Hm Hwf Hcfg Hq Hinp Htime Hz Hrun Hpkg Hlen Hflags
         Hidx Hne.
  rewrite (download_reads_selectors w df st sv sx sy Hdf Hst Hsv Hsx Hsy).
  rewrite (bind_ok _ _ _ _ _
             (run_tests_returns qc QcConfig run df (value sv) (value st) (value sx)
                (value sy) false w cfg q inp time zinp results qartod flags
                Hcfg Hq Hinp Htime Hz Hrun Hpkg Hlen Hflags Hidx Hne)).
  rewrite (bind_ok _ _ _ _ _ (show_message_run _ _ w em Hm)).
  eexists. split; [reflexivity|].
  unfold to_csv_no_index, column_names, nrows. cbn [header records columns index].
  rewrite map_app, column_names_without. cbn [map fst].
  split; [reflexivity|]. split.
  - intros Hin. apply in_app_or in Hin as [Hin|[Hin|[]]]; [|congruence].
    apply filter_In in Hin as [_ Hin]. rewrite String.eqb_refl in Hin.
    discriminate.
  - rewrite length_map, length_seq.
    eapply getitem_column_length; eassumption.
Qed.

End DownloadFacts.

Lemma download_without_dataset_witness :
  fst (download_processed_data accept_config pass_all (world_of None chosen_page))
  = Ok None.
Proof.
  rewrite (download_without_dataset
             ConfigDict accept_config pass_all (world_of None chosen_page) blank);
    [reflexivity|reflexivity|vm_compute; reflexivity].
Defined.

(** The spike form's second field is cleared: the download ends in the
    error of [float]. *)
Lemma download_propagates_errors_witness :
  download_processed_data accept_config pass_all
                          (world_of (Some sample_df) chosen_page_cleared)
  = (Raise (ValueError "could not convert string to float: ''"),
     world_of (Some sample_df) chosen_page_cleared).
Proof.
  apply (download_propagates_errors
           ConfigDict accept_config pass_all
           (world_of (Some sample_df) chosen_page_cleared) sample_df
           (input_with "spike_test")
           (input_with "sea_surface_height_above_sea_level")
           (input_with "time") (input_with "z"));
    vm_compute; reflexivity.
Defined.

Lemma download_omits_the_time_column_witness :
  exists csv,
    fst (download_processed_data accept_config pass_all
                                 (world_of (Some sample_df) chosen_page))
    = Ok (Some csv)
    /\ header csv = ["z"; "sea_surface_height_above_sea_level"; "spike_test"].
Proof.
  destruct (download_omits_the_time_column
              ConfigDict accept_config pass_all
              (world_of (Some sample_df) chosen_page) sample_df
              (input_with "spike_test")
              (input_with "sea_surface_height_above_sea_level")
              (input_with "time") (input_with "z") blank
              sample_config sample_config
              (Arr1 [Num (3 # 2); Num (1 # 2); Num (5 # 2)])
              [num_of_Z 30; num_of_Z 10; num_of_Z 20]
              (Arr1 [num_of_Z 0; num_of_Z 0; num_of_Z 0])
              sample_results sample_flags [1; 1; 1])
    as (csv & Hrun & Hheader & _).
  - reflexivity.
  - vm_compute; reflexivity.
  - vm_compute; reflexivity.
  - vm_compute; reflexivity.
  - vm_compute; reflexivity.
  - vm_compute; reflexivity.
  - repeat constructor.
  - vm_compute; reflexivity.
  - reflexivity.
  - reflexivity.
  - reflexivity.
  - reflexivity.
  - vm_compute; reflexivity.
  - vm_compute; reflexivity.
  - apply map_Forall_singleton. reflexivity.
  - vm_compute; reflexivity.
  - reflexivity.
  - discriminate.
  - exists csv. rewrite Hrun. split; [reflexivity|exact Hheader].
Defined.

(** ** The form of a test *)

Lemma with_document_same w : with_document w (document w) = w.
Proof. destruct w; reflexivity. Qed.

Lemma append_child_run w c child_id child :
  document w !! "params-form" = Some c ->
  append_child "params-form" child_id child w
  = (Ok tt,
     with_document w
       (<["params-form" := with_child c child_id]>
          (<[child_id := child]> (document w)))).
Proof.
  intros H. unfold append_child, bind, getElementById. rewrite H. reflexivity.
Qed.

Lemma render_fields_run params w c :
  document w !! "params-form" = Some c ->
  for_each params
           (fun param => append_child "params-form" (name param) (new_input param)) w
  = (Ok tt, with_document w (add_fields params c (document w))).
Proof.
  revert w c. induction params as [|p params IH]; intros w c Hc.
  - cbn. now rewrite with_document_same.
  - cbn [for_each add_fields].
    rewrite (bind_ok _ _ _ _ _ (append_child_run w c (name p) (new_input p) Hc)).
    rewrite (IH _ (with_child c (name p))) by apply lookup_insert_eq.
    reflexivity.
Qed.

Lemma add_fields_form params c doc :
  doc !! "params-form" = Some c ->
  add_fields params c doc !! "params-form"
  = Some {| value := value c;
            className := className c;
            innerText := innerText c;
            display := display c;
            children := children c ++ map name params |}.
Proof.
  revert c doc. induction params as [|p params IH]; intros c doc Hc.
  - cbn. rewrite app_nil_r, Hc. now destruct c.
  - cbn [add_fields map]. rewrite (IH (with_child c (name p)))
      by apply lookup_insert_eq.
    cbn. now rewrite <- app_assoc.
Qed.

Lemma add_fields_other params c doc id :
  id <> "params-form" -> ~ In id (map name params) ->
  add_fields params c doc !! id = doc !! id.
Proof.
  intros Hform. revert c doc. induction params as [|p params IH];
    intros c doc Hid; [reflexivity|].
  cbn [add_fields]. rewrite IH by (intros H; apply Hid; right; exact H).
  rewrite lookup_insert_ne by congruence.
  rewrite lookup_insert_ne; [reflexivity|].
  intros E. apply Hid. left. exact E.
Qed.

Lemma add_fields_field params c doc p :
  List.NoDup (map name params) -> In p params -> name p <> "params-form" ->
  add_fields params c doc !! name p = Some (new_input p).
Proof.
  revert c doc. induction params as [|p' params IH]; intros c doc Hnodup Hin Hne;
    [destruct Hin|].
  cbn [add_fields]. inversion Hnodup as [|? ? Hfresh Hnodup']; subst.
  destruct Hin as [->|Hin].
  - rewrite add_fields_other by assumption.
    rewrite lookup_insert_ne by congruence. apply lookup_insert_eq.
  - apply IH; assumption.
Qed.

(** The run of [render_test_inputs] up to the lookup in the schema. *)
Lemma render_test_inputs_run w s c :
  document w !! "select" = Some s ->
  document w !! "params-form" = Some c ->
  render_test_inputs w
  = bind (lift (test_params_getitem (value s)))
         (fun params =>
            for_each params
                     (fun param =>
                        append_child "params-form" (name param) (new_input param)))
         (snd (clear_container "params-form" c w)).
Proof.
  intros Hs Hc. unfold render_test_inputs.
  unfold bind at 1, getElementById at 1. rewrite Hs.
  unfold bind at 1, attr at 1, ret at 1.
  unfold bind at 1, getElementById at 1. rewrite Hc.
  unfold bind at 1, attr at 1, ret at 1.
  unfold bind at 1. reflexivity.
Qed.

Lemma schema_names_are_fields test params :
  test_params_getitem test = Ok params ->
  form_fields test = map name params
  /\ List.NoDup (map name params)
  /\ Forall (fun p => name p <> "params-form"
                      /\ exists x, PyFloat.parse (value (new_input p)) = Some x)
            params.
Proof.
  unfold test_params_getitem, form_fields.
  destruct (List.find _ test_params) as [t|] eqn:E; [|discriminate].
  intros [= <-]. split; [reflexivity|].
  apply find_some in E as [Hin _].
  vm_compute in Hin.
  destruct Hin as [<-|[<-|[<-|[<-|[]]]]]; cbn [snd map name]; split;
    try (repeat constructor; cbn; intros H; decompose [or] H;
         discriminate || assumption);
    repeat (apply List.Forall_cons;
            [split; [discriminate|eexists; vm_compute; reflexivity]|]);
    apply List.Forall_nil.
Qed.

Lemma built_in_has_params test :
  In test built_in_tests -> exists params, test_params_getitem test = Ok params.
Proof.
  intros Htest. vm_compute in Htest.
  destruct Htest as [<-|[<-|[<-|[<-|[]]]]]; eexists; vm_compute; reflexivity.
Qed.

(** X17: with the selector on a built-in test, [render_test_inputs] leaves
    a form that holds exactly the test's fields, in the order of the schema,
    each on the page with its default as value; and the configuration
    builder, run on that form as it is, succeeds. *)
Theorem render_then_read (w : World) s c :
  document w !! "select" = Some s ->
  document w !! "params-form" = Some c ->
  In (value s) built_in_tests ->
  let after := snd (render_test_inputs w) in
  fst (render_test_inputs w) = Ok tt
  /\ option_map children (document after !! "params-form")
     = Some (form_fields (value s))
  /\ (forall params p,
         test_params_getitem (value s) = Ok params -> In p params ->
         option_map value (document after !! name p)
         = Some (py_str_number (default p)))
  /\ exists cfg, get_user_config (value s) after = (Ok cfg, after).
Proof.
  intros Hs Hc Htest after. subst after.
  rewrite (render_test_inputs_run w s c Hs Hc).
  destruct (built_in_has_params _ Htest) as [params Hparams]. rewrite Hparams.
  destruct (schema_names_are_fields _ _ Hparams) as (Hfields & Hnodup & Hgood).
  unfold bind, lift.
  set (w1 := snd (clear_container "params-form" c w)).
  set (c1 := {| value := value c; className := className c;
                innerText := innerText c; display := display c;
                children := [] |}).
  assert (Hc1 : document w1 !! "params-form" = Some c1)
    by (subst w1 c1; cbn; apply lookup_insert_eq).
  rewrite (render_fields_run params w1 c1 Hc1).
  cbn [fst snd with_document document].
  assert (Hfield : forall p, In p params ->
                             add_fields params c1 (document w1) !! name p
                             = Some (new_input p)).
  { intros p Hp. apply add_fields_field; [exact Hnodup|exact Hp|].
    rewrite Forall_forall in Hgood. apply Hgood, list_elem_of_In, Hp. }
  split; [reflexivity|]. split; [|split].
  - rewrite (add_fields_form params c1 _ Hc1). cbn. now rewrite Hfields.
  - intros params' p [= <-] Hp. rewrite (Hfield p Hp). reflexivity.
  - apply get_user_config_reads; [exact Htest|].
    rewrite Hfields. apply Forall_forall. intros f Hf.
    apply list_elem_of_In, in_map_iff in Hf as (p & <- & Hp).
    rewrite Forall_forall in Hgood.
    destruct (Hgood p (proj2 (list_elem_of_In _ _) Hp)) as (_ & x & Hx).
    exists (new_input p), x. split; [apply Hfield, Hp|exact Hx].
Qed.

Lemma render_then_read_witness :
  exists cfg,
    get_user_config "spike_test" (snd (render_test_inputs (world_of None flat_line_page)))
    = (Ok cfg, snd (render_test_inputs (world_of None flat_line_page))).
Proof.
  destruct (render_then_read
              (world_of None flat_line_page) (input_with "spike_test")
              {| value := ""; className := ""; innerText := ""; display := "";
                 children := ["tolerance"; "suspect_threshold"; "fail_threshold"] |})
    as (_ & _ & _ & Hcfg).
  - vm_compute; reflexivity.
  - vm_compute; reflexivity.
  - vm_compute; tauto.
  - exact Hcfg.
Defined.

(** X18: rendering takes the previous form off the page: an element that
    was in the form and is not a field of the newly selected test is no
    longer on the page.  With the selector on a test the schema does not
    have, [render_test_inputs] raises [KeyError] on it after the form was
    emptied. *)
Theorem render_clears_previous_form (w : World) s c :
  document w !! "select" = Some s ->
  document w !! "params-form" = Some c ->
  let after := snd (render_test_inputs w) in
  (forall id,
      In id (children c) -> id <> "params-form" ->
      ~ In id (form_fields (value s)) ->
      document after !! id = None)
  /\ (~ In (value s) built_in_tests ->
      fst (render_test_inputs w) = Raise (KeyError (value s))
      /\ option_map children (document after !! "params-form") = Some []).
Proof.
  intros Hs Hc after. subst after.
  rewrite (render_test_inputs_run w s c Hs Hc).
  set (w1 := snd (clear_container "params-form" c w)).
  set (c1 := {| value := value c; className := className c;
                innerText := innerText c; display := display c;
                children := [] |}).
  assert (Hc1 : document w1 !! "params-form" = Some c1)
    by (subst w1 c1; cbn; apply lookup_insert_eq).
  assert (Hgone : forall id, In id (children c) -> id <> "params-form" ->
                             document w1 !! id = None).
  { intros id Hid Hne. subst w1. cbn. rewrite lookup_insert_ne by congruence.
    apply lookup_foldr_delete, list_elem_of_In, Hid. }
  destruct (test_params_getitem (value s)) as [params|e] eqn:Hparams;
    unfold bind, lift.
  - destruct (schema_names_are_fields _ _ Hparams) as (Hfields & _ & _).
    rewrite (render_fields_run params w1 c1 Hc1).
    cbn [fst snd with_document document]. split.
    + intros id Hid Hne Hnew. rewrite add_fields_other;
        [apply Hgone; assumption|exact Hne|now rewrite <- Hfields].
    + intros Hnot. exfalso. apply Hnot.
      unfold test_params_getitem in Hparams.
      destruct (List.find _ test_params) as [t|] eqn:E; [|discriminate].
      apply find_some in E as [Hin Hname]. apply String.eqb_eq in Hname.
      rewrite <- Hname. unfold built_in_tests. apply in_map. exact Hin.
  - cbn [fst snd]. split.
    + intros id Hid Hne _. apply Hgone; assumption.
    + intros _. split; [|rewrite Hc1; reflexivity].
      unfold test_params_getitem in Hparams.
      destruct (List.find _ test_params); [discriminate|]. congruence.
Qed.

(** After the flat line form, the spike form: the tolerance field is gone. *)
Lemma render_clears_previous_form_witness :
  document (snd (render_test_inputs (world_of None flat_line_page))) !! "tolerance"
  = None.
Proof.
  apply (proj1 (render_clears_previous_form
                  (world_of None flat_line_page) (input_with "spike_test")
                  {| value := ""; className := ""; innerText := ""; display := "";
                     children := ["tolerance"; "suspect_threshold"; "fail_threshold"] |}
                  ltac:(vm_compute; reflexivity) ltac:(vm_compute; reflexivity))).
  - simpl. tauto.
  - discriminate.
  - vm_compute. intros H. decompose [or] H; discriminate || assumption.
Defined.

(** ** Plotting *)

Lemma keeps_present_bind id {A B} (m : M A) (k : A -> M B) :
  keeps_present id m -> (forall a, keeps_present id (k a)) ->
  keeps_present id (bind m k).
Proof.
  intros Hm Hk w Hw. unfold bind. specialize (Hm w Hw).
  destruct (m w) as [[a|e] w']; simpl in *; [apply Hk|]; exact Hm.
Qed.

Lemma keeps_present_read_only id {A} (m : M A) : read_only m -> keeps_present id m.
Proof. intros H w Hw. now rewrite H. Qed.

Lemma keeps_present_set_element id id' e : keeps_present id (set_element id' e).
Proof.
  intros w Hw. cbn. destruct (decide (id' = id)) as [->|Hne].
  - rewrite lookup_insert_eq. eauto.
  - rewrite lookup_insert_ne by exact Hne. exact Hw.
Qed.

Lemma keeps_present_same_page id {A} (m : M A) :
  (forall w, document (snd (m w)) = document w) -> keeps_present id m.
Proof. intros H w Hw. now rewrite H. Qed.

Lemma keeps_present_try_except id {A} (body : M A) handler :
  keeps_present id body -> (forall e, keeps_present id (handler e)) ->
  keeps_present id (try_except body handler).
Proof.
  intros Hm Hk w Hw. unfold try_except. specialize (Hm w Hw).
  destruct (body w) as [[a|e] w']; simpl in *; [|apply Hk]; exact Hm.
Qed.

Lemma keeps_present_attr id el attribute : keeps_present id (attr el attribute).
Proof. destruct el; intros w Hw; exact Hw. Qed.

Lemma keeps_present_set_display_if_present id id' d :
  keeps_present id (set_display_if_present id' d).
Proof.
  unfold set_display_if_present.
  apply keeps_present_bind;
    [apply keeps_present_read_only, read_only_getElementById|].
  intros [e|]; [apply keeps_present_set_element
               |apply keeps_present_read_only, read_only_ret].
Qed.

Ltac keeps_present_step :=
  match goal with
  | |- keeps_present _ (bind _ _) => apply keeps_present_bind; [|intros ?]
  | |- keeps_present _ (try_except _ _) =>
      apply keeps_present_try_except; [|intros ?]
  | |- keeps_present _ (getElementById _) =>
      apply keeps_present_read_only, read_only_getElementById
  | |- keeps_present _ (attr _ _) => apply keeps_present_attr
  | |- keeps_present _ (set_element _ _) => apply keeps_present_set_element
  | |- keeps_present _ (set_display_if_present _ _) =>
      apply keeps_present_set_display_if_present
  | |- keeps_present _ (set_uploaded_df _) =>
      apply keeps_present_same_page; reflexivity
  | |- keeps_present _ get_uploaded_df =>
      apply keeps_present_same_page; reflexivity
  | |- keeps_present _ (print _) => apply keeps_present_same_page; reflexivity
  | |- keeps_present _ (ret _) => apply keeps_present_read_only, read_only_ret
  | |- keeps_present _ (raise _) => apply keeps_present_read_only, read_only_raise
  | |- keeps_present _ (lift _) => apply keeps_present_read_only, read_only_lift
  | |- keeps_present _ (run_tests _ _ _ _ _ _ _ _) =>
      apply keeps_present_read_only, read_only_run_tests
  | |- keeps_present _ (if ?b then _ else _) => destruct b
  | |- keeps_present _ (let '(_, _) := ?p in _) => destruct p as [[? ?] ?]
  | |- keeps_present _ (match ?o with Some _ => _ | None => _ end) => destruct o
  end.

Lemma keeps_present_show_message id msg_html alert_type :
  keeps_present id (show_message msg_html alert_type).
Proof. unfold show_message. repeat keeps_present_step. Qed.

Lemma keeps_dataset_set_display_if_present id d :
  keeps_dataset (set_display_if_present id d).
Proof.
  unfold set_display_if_present.
  apply keeps_dataset_bind;
    [apply keeps_dataset_read_only, read_only_getElementById|].
  intros [e|]; [apply keeps_dataset_set_element
               |apply keeps_dataset_read_only, read_only_ret].
Qed.

Lemma set_display_if_present_ok id d w :
  fst (set_display_if_present id d w) = Ok tt.
Proof.
  unfold set_display_if_present, bind, getElementById.
  destruct (document w !! id); reflexivity.
Qed.

Lemma set_display_if_present_shows id d w e :
  document w !! id = Some e ->
  option_map display (document (snd (set_display_if_present id d w)) !! id)
  = Some d.
Proof.
  intros H. unfold set_display_if_present, bind, getElementById. rewrite H.
  cbn. rewrite lookup_insert_eq. reflexivity.
Qed.

Section PlotFacts.

Variable qc : Type.
Variable QcConfig : ConfigDict -> string + qc.
Variable run :
  qc -> ndarray cell -> ndarray cell -> ndarray cell -> string + EngineResults.
Variable astype_str : cell -> string.
Variable to_datetime : ndarray cell -> string + list cell.

Lemma keeps_present_plot_body id qc_test use_defaults :
  keeps_present id (plot_body QcConfig run astype_str to_datetime qc_test use_defaults).
Proof.
  unfold plot_body.
  repeat first [apply keeps_present_show_message | keeps_present_step].
Qed.

Lemma keeps_present_plot_handler id (e : exn) :
  keeps_present id
    (bind (show_message ("Error during plotting: " +:+ str_exn e) "danger")
          (fun _ => bind (print ("Plotting error: " +:+ str_exn e))
                         (fun _ => @ret (option Figure) None))).
Proof. repeat first [apply keeps_present_show_message | keeps_present_step]. Qed.

(** X19: whatever happens in between, dataset or none, test passing or
    failing, [plot] ends with the loading indicator hidden, if the page has
    one. *)
Theorem plot_hides_the_loader qc_test use_defaults (w : World) :
  is_Some (document w !! "loadingIndicator") ->
  option_map display
    (document (snd (plot QcConfig run astype_str to_datetime qc_test use_defaults w))
              !! "loadingIndicator")
  = Some "none".
Proof.
  intros Hw. unfold plot.
  pose proof (keeps_present_set_display_if_present
                "loadingIndicator" "loadingIndicator" "block" w Hw) as H1.
  unfold bind at 1.
  pose proof (set_display_if_present_ok "loadingIndicator" "block" w) as Hok.
  destruct (set_display_if_present "loadingIndicator" "block" w) as [r w1].
  cbn in Hok, H1. subst r.
  unfold try_finally.
  match goal with
  | |- context [try_except ?b ?h w1] =>
      pose proof (keeps_present_try_except "loadingIndicator" b h
                    (keeps_present_plot_body _ _ _)
                    (keeps_present_plot_handler _) w1 H1) as H2;
      destruct (try_except b h w1) as [r2 w2]
  end.
  cbn in H2. destruct H2 as [e2 He2].
  pose proof (set_display_if_present_shows "loadingIndicator" "none" w2 e2 He2) as H3.
  pose proof (set_display_if_present_ok "loadingIndicator" "none" w2) as Hok2.
  destruct (set_display_if_present "loadingIndicator" "none" w2) as [r3 w3].
  cbn in Hok2, H3. subst r3. exact H3.
Qed.

(** X20: on a page with a message area, [plot] never lets an exception
    out: a failure of the conversion of the times, of the test or of the
    masks ends in a message, not in an exception. *)
Theorem plot_never_raises qc_test use_defaults (w : World) :
  is_Some (document w !! "message") ->
  exists r,
    fst (plot QcConfig run astype_str to_datetime qc_test use_defaults w) = Ok r.
Proof.
  intros Hw. unfold plot.
  pose proof (keeps_present_set_display_if_present
                "message" "loadingIndicator" "block" w Hw) as H1.
  unfold bind at 1.
  pose proof (set_display_if_present_ok "loadingIndicator" "block" w) as Hok.
  destruct (set_display_if_present "loadingIndicator" "block" w) as [r w1].
  cbn in Hok, H1. subst r.
  unfold try_finally, try_except.
  pose proof (keeps_present_plot_body "message" qc_test use_defaults w1 H1) as H2.
  destruct (plot_body QcConfig run astype_str to_datetime qc_test use_defaults w1)
    as [[fig|e] w2]; cbn in H2.
  - pose proof (set_display_if_present_ok "loadingIndicator" "none" w2) as Hok2.
    destruct (set_display_if_present "loadingIndicator" "none" w2) as [r3 w3].
    cbn in Hok2. subst r3. eexists. reflexivity.
  - destruct H2 as [em Hem].
    rewrite (bind_ok _ _ _ _ _ (show_message_run _ _ w2 em Hem)).
    unfold bind, print, ret.
    match goal with
    | |- context [set_display_if_present ?i ?d ?u] =>
        pose proof (set_display_if_present_ok i d u) as Hok2;
        destruct (set_display_if_present i d u) as [r3 w3]
    end.
    cbn in Hok2. subst r3. eexists. reflexivity.
Qed.

Lemma set_display_if_present_frame id d w :
  uploaded_df (snd (set_display_if_present id d w)) = uploaded_df w
  /\ forall id', id' <> id ->
                 document (snd (set_display_if_present id d w)) !! id'
                 = document w !! id'.
Proof.
  unfold set_display_if_present, bind, getElementById.
  destruct (document w !! id); cbn; split; try reflexivity.
  intros id' Hne. now rewrite lookup_insert_ne by congruence.
Qed.

Lemma named_setitem_value label values (c : string * list cell) :
  named label (if named label c then (fst c, values) else c) = named label c.
Proof. destruct (named label c) eqn:E; [unfold named in *; exact E|exact E]. Qed.

Lemma filter_named_map_setitem label label' values cols :
  List.filter (fun c => named label' c)
              (map (fun c => if named label c then (fst c, values) else c) cols)
  = map (fun c => if named label c then (fst c, values) else c)
        (List.filter (fun c => named label' c) cols).
Proof.
  induction cols as [|c cols IH]; [reflexivity|].
  cbn [map List.filter].
  assert (Hname : named label' (if named label c then (fst c, values) else c)
                  = named label' c)
    by (destruct (named label c); reflexivity).
  rewrite Hname. destruct (named label' c); cbn [map]; now rewrite IH.
Qed.

Lemma getitem_exists df label a :
  getitem df label = Ok a -> existsb (fun c => named label c) (columns df) = true.
Proof.
  unfold getitem. intros H.
  destruct (List.filter (fun c => named label c) (columns df)) as [|c cs] eqn:E;
    [discriminate|].
  apply existsb_exists. exists c.
  apply (proj1 (filter_In (fun c => named label c) c (columns df))).
  rewrite E. left. reflexivity.
Qed.

Lemma getitem_setitem df label column values :
  getitem df label = Ok (Arr1 column) ->
  getitem (setitem df label values) label = Ok (Arr1 values).
Proof.
  intros H. pose proof (getitem_exists _ _ _ H) as Hex.
  destruct (getitem_one _ _ _ H) as (c & Hc & _).
  unfold getitem at 1, setitem. rewrite Hex. cbn [columns].
  rewrite filter_named_map_setitem, Hc. cbn [map].
  assert (Hnamed : named label c = true).
  { apply (proj1 (filter_In (fun c => named label c) c (columns df))).
    rewrite Hc. left. reflexivity. }
  rewrite Hnamed. reflexivity.
Qed.

Lemma setitem_setitem df label a column values values' :
  getitem df label = Ok a ->
  column = values ->
  setitem (setitem df label values) label values' = setitem df label values'.
Proof.
  intros H _. pose proof (getitem_exists _ _ _ H) as Hex.
  unfold setitem. cbn [columns index]. rewrite Hex.
  assert (Hex' : existsb (fun c => named label c)
                         (map (fun c => if named label c then (fst c, values) else c)
                              (columns df)) = true).
  { apply existsb_exists. apply existsb_exists in Hex as (c & Hin & Hc).
    exists (if named label c then (fst c, values) else c). split.
    - apply in_map_iff. exists c. split; [reflexivity|exact Hin].
    - rewrite named_setitem_value. exact Hc. }
  rewrite Hex'. f_equal. rewrite map_map. apply map_ext. intros c.
  destruct (named label c) eqn:E;
    [unfold named in *; cbn [fst]|]; rewrite E; reflexivity.
Qed.

(** The rest of [plot_body] once the times are converted. *)
Lemma keeps_dataset_after_conversion df2 variable qc_test x_var y_var use_defaults :
  keeps_dataset
    (bind (run_tests QcConfig run df2 variable qc_test x_var y_var use_defaults)
          (fun result =>
             bind (lift (make_mask df2 result variable qc_test))
                  (fun mask =>
                     bind (lift (build_figure astype_str df2 mask variable x_var qc_test))
                          (fun fig => ret (Some fig))))).
Proof.
  apply keeps_dataset_bind;
    [apply keeps_dataset_read_only, read_only_run_tests|intros ?].
  apply keeps_dataset_bind; [apply keeps_dataset_read_only, read_only_lift|intros ?].
  apply keeps_dataset_bind; [apply keeps_dataset_read_only, read_only_lift|intros ?].
  apply keeps_dataset_read_only, read_only_ret.
Qed.

Lemma keeps_dataset_plot_handler (e : exn) :
  keeps_dataset
    (bind (show_message ("Error during plotting: " +:+ str_exn e) "danger")
          (fun _ => bind (print ("Plotting error: " +:+ str_exn e))
                         (fun _ => @ret (option Figure) None))).
Proof.
  apply keeps_dataset_bind; [apply keeps_dataset_show_message|intros _].
  repeat keeps_dataset_step.
Qed.

(** The run of [plot_body] up to the conversion of the times. *)
Lemma plot_body_run qc_test use_defaults (w : World)
      df sv sx sy em variable x_var y_var column :
  uploaded_df w = Some df ->
  document w !! "variableSelect" = Some sv ->
  document w !! "xVariableSelect" = Some sx ->
  document w !! "yVariableSelect" = Some sy ->
  document w !! "message" = Some em ->
  chosen_columns (value sv) (value sx) (value sy) = (variable, x_var, y_var) ->
  getitem df x_var = Ok (Arr1 column) ->
  let df1 := setitem df x_var (stripped_strings astype_str column) in
  let w1 :=
    {| uploaded_df := Some df1;
       document :=
         <["message" := message_shown em (plot_notice (value sv)) "info"]>
           (document w);
       qc_config_json := qc_config_json w;
       stdout := stdout w |} in
  plot_body QcConfig run astype_str to_datetime qc_test use_defaults w
  = match to_datetime (Arr1 (stripped_strings astype_str column)) with
    | inl msg => (Raise (LibraryError msg), w1)
    | inr times =>
        bind (run_tests QcConfig run (setitem df x_var times)
                        variable qc_test x_var y_var use_defaults)
             (fun result =>
                bind (lift (make_mask (setitem df x_var times) result variable qc_test))
                     (fun mask =>
                        bind (lift (build_figure astype_str (setitem df x_var times)
                                                 mask variable x_var qc_test))
                             (fun fig => ret (Some fig))))
             {| uploaded_df := Some (setitem df x_var times);
                document := document w1;
                qc_config_json := qc_config_json w;
                stdout := stdout w |}
    end.
Proof.
  intros Hdf Hsv Hsx Hsy Hm Hchosen Hcol df1 w1. subst df1 w1.
  unfold plot_body.
  unfold bind at 1, get_uploaded_df at 1. rewrite Hdf.
  unfold bind at 1, getElementById at 1. rewrite Hsv.
  unfold bind at 1, attr at 1, ret at 1.
  unfold bind at 1, getElementById at 1. rewrite Hsx.
  unfold bind at 1, attr at 1, ret at 1.
  unfold bind at 1, getElementById at 1. rewrite Hsy.
  unfold bind at 1, attr at 1, ret at 1.
  rewrite Hchosen.
  assert (Hnotice :
            (if String.eqb (value sv) ""
             then show_message DEFAULT_FILE_MESSAGE "info"
             else show_message "Uploaded file loaded and used." "info") w
            = (Ok tt,
               with_document w
                 (<["message" := message_shown em (plot_notice (value sv)) "info"]>
                    (document w)))).
  { unfold plot_notice. destruct (String.eqb (value sv) "");
      apply show_message_run; exact Hm. }
  rewrite (bind_ok _ _ _ _ _ Hnotice).
  unfold bind at 1, lift at 1. rewrite Hcol.
  unfold bind at 1, lift at 1. cbn [astype_str_strip].
  fold (stripped_strings astype_str column).
  unfold bind at 1, set_uploaded_df at 1.
  cbn [with_document uploaded_df document qc_config_json stdout].
  unfold bind at 1, lift at 1.
  rewrite (getitem_setitem df x_var column _ Hcol).
  unfold bind at 1, lift at 1.
  destruct (to_datetime (Arr1 (stripped_strings astype_str column)))
    as [msg|times]; cbn [from_library]; [reflexivity|].
  unfold bind at 1, set_uploaded_df at 1.
  cbn [uploaded_df document qc_config_json stdout].
  rewrite (setitem_setitem df x_var _ _ _ times Hcol eq_refl).
  reflexivity.
Qed.

(** X21: [plot] converts the time column in the loaded dataset itself.
    Once the conversion succeeds the dataset of the session holds the
    converted times, whether the test then runs or fails.  When the
    conversion fails, [plot] ends with its error in the message area, no
    figure, and the time column of the dataset left as the stripped
    strings. *)
Theorem plot_converts_times_in_place
        qc_test use_defaults (w : World)
        df sv sx sy em variable x_var y_var column :
  uploaded_df w = Some df ->
  document w !! "variableSelect" = Some sv ->
  document w !! "xVariableSelect" = Some sx ->
  document w !! "yVariableSelect" = Some sy ->
  document w !! "message" = Some em ->
  chosen_columns (value sv) (value sx) (value sy) = (variable, x_var, y_var) ->
  getitem df x_var = Ok (Arr1 column) ->
  let final := plot QcConfig run astype_str to_datetime qc_test use_defaults w in
  (forall times,
      to_datetime (Arr1 (stripped_strings astype_str column)) = inr times ->
      uploaded_df (snd final) = Some (setitem df x_var times))
  /\ (forall msg,
         to_datetime (Arr1 (stripped_strings astype_str column)) = inl msg ->
         fst final = Ok None
         /\ uploaded_df (snd final)
            = Some (setitem df x_var (stripped_strings astype_str column))
         /\ document (snd final) !! "message"
            = Some (message_shown em ("Error during plotting: " +:+ msg) "danger")).
Proof.
  intros Hdf Hsv Hsx Hsy Hm Hchosen Hcol final.
  assert (Hfinal : final
                   = plot QcConfig run astype_str to_datetime qc_test use_defaults w)
    by reflexivity.
  clearbody final. unfold plot in Hfinal. unfold bind at 1 in Hfinal.
  pose proof (set_display_if_present_ok "loadingIndicator" "block" w) as Hok.
  destruct (set_display_if_present_frame "loadingIndicator" "block" w)
    as [Hdf0 Hpage0].
  destruct (set_display_if_present "loadingIndicator" "block" w) as [r0 w0].
  cbn [fst snd] in Hok, Hdf0, Hpage0. subst r0.
  assert (Hbody := plot_body_run qc_test use_defaults w0 df sv sx sy em
                     variable x_var y_var column).
  rewrite Hdf0, !Hpage0 in Hbody by discriminate.
  specialize (Hbody Hdf Hsv Hsx Hsy Hm Hchosen Hcol). cbv zeta in Hbody.
  unfold try_finally, try_except in Hfinal. rewrite Hbody in Hfinal. clear Hbody.
  split.
  - intros times Htimes. rewrite Htimes in Hfinal.
    match type of Hfinal with
    | context [bind ?m ?k ?u] =>
        pose proof (keeps_dataset_after_conversion
                      (setitem df x_var times) variable qc_test x_var y_var
                      use_defaults u) as Hrest;
        destruct (bind m k u) as [[fig|e] w2]
    end; cbn [snd uploaded_df] in Hrest.
    + destruct (set_display_if_present_frame "loadingIndicator" "none" w2)
        as [Hdf3 _].
      destruct (set_display_if_present "loadingIndicator" "none" w2)
        as [[r3|e3] w3];
        cbn [fst snd] in *; subst final; cbn [snd]; congruence.
    + pose proof (keeps_dataset_plot_handler e w2) as Hh.
      match type of Hfinal with
      | context [bind ?m ?k w2] => destruct (bind m k w2) as [r4 w4]
      end.
      cbn [snd] in Hh.
      destruct (set_display_if_present_frame "loadingIndicator" "none" w4)
        as [Hdf3 _].
      destruct (set_display_if_present "loadingIndicator" "none" w4)
        as [[r5|e5] w5];
        cbn [fst snd] in *; subst final; cbn [snd]; congruence.
  - intros msg Hmsg. rewrite Hmsg in Hfinal.
    match type of Hfinal with
    | context [bind (show_message ?m ?t) ?k ?u] =>
        rewrite (bind_ok _ k u _ _
                   (show_message_run
                      m t u (message_shown em (plot_notice (value sv)) "info")
                      ltac:(cbn [document]; apply lookup_insert_eq)))
          in Hfinal
    end.
    unfold bind, print, ret in Hfinal.
    match type of Hfinal with
    | context [set_display_if_present ?i ?d ?u] =>
        pose proof (set_display_if_present_ok i d u) as Hok3;
        destruct (set_display_if_present_frame i d u) as [Hdf3 Hpage3];
        destruct (set_display_if_present i d u) as [r3 w3]
    end.
    cbn [fst snd] in *. subst r3 final. cbn [fst snd].
    split; [reflexivity|]. split; [exact Hdf3|].
    rewrite Hpage3 by discriminate.
    cbn [document with_document]. rewrite lookup_insert_eq.
    reflexivity.
Qed.

End PlotFacts.

Lemma plot_hides_the_loader_witness :
  option_map display
    (document (snd (plot accept_config pass_all sample_astype_str sample_to_datetime
                         "spike_test" false (world_of (Some sample_df) full_page)))
              !! "loadingIndicator")
  = Some "none".
Proof.
  apply (plot_hides_the_loader
           ConfigDict accept_config pass_all sample_astype_str sample_to_datetime
           "spike_test" false (world_of (Some sample_df) full_page)).
  exists blank. vm_compute. reflexivity.
Defined.

Lemma plot_never_raises_witness :
  exists r,
    fst (plot accept_config pass_all sample_astype_str sample_to_datetime
              "climatology_test" false (world_of (Some sample_df) full_page))
    = Ok r.
Proof.
  apply (plot_never_raises
           ConfigDict accept_config pass_all sample_astype_str sample_to_datetime
           "climatology_test" false (world_of (Some sample_df) full_page)).
  exists blank. vm_compute. reflexivity.
Defined.

(** The times of [sample_df_bad_time] do not convert: the dataset keeps
    them as stripped strings. *)
Lemma plot_converts_times_in_place_witness :
  uploaded_df
    (snd (plot accept_config pass_all sample_astype_str sample_to_datetime
               "spike_test" false (world_of (Some sample_df_bad_time) full_page)))
  = Some (setitem sample_df_bad_time "time" [Str "noon"; Str "10"; Str "20"]).
Proof.
  destruct (plot_converts_times_in_place
              ConfigDict accept_config pass_all sample_astype_str sample_to_datetime
              "spike_test" false (world_of (Some sample_df_bad_time) full_page)
              sample_df_bad_time
              (input_with "sea_surface_height_above_sea_level")
              (input_with "time") (input_with "z") blank
              "sea_surface_height_above_sea_level" "time" "z"
              [Str " noon "; Str "10"; Str "20"])
    as [_ Hfail]; [vm_compute; reflexivity..|].
  destruct (Hfail "Unknown datetime string format") as (_ & Hdf & _);
    [vm_compute; reflexivity|].
  exact Hdf.
Defined.

Lemma set_display_missing id d w :
  document w !! id = None ->
  set_display id d w
  = (Raise (AttributeError "'NoneType' object has no attribute 'style'"), w).
Proof.
  intros H. unfold set_display, bind, getElementById. rewrite H. reflexivity.
Qed.

Lemma set_display_run id d w e :
  document w !! id = Some e ->
  set_display id d w
  = (Ok tt,
     with_document w
       (<[id := {| value := value e;
                   className := className e;
                   innerText := innerText e;
                   display := d;
                   children := children e |}]> (document w))).
Proof.
  intros H. unfold set_display, bind, getElementById. rewrite H. reflexivity.
Qed.

Section PlotEdges.

Variable qc : Type.
Variable QcConfig : ConfigDict -> string + qc.
Variable run :
  qc -> ndarray cell -> ndarray cell -> ndarray cell -> string + EngineResults.
Variable astype_str : cell -> string.
Variable to_datetime : ndarray cell -> string + list cell.
Variable read_example_csv : string + DataFrame.

(** X22: with no dataset loaded, [plot] draws nothing and says so: it ends
    normally without a figure, the message area reads [No file uploaded.],
    and the engine is not run. *)
Theorem plot_without_dataset qc_test use_defaults (w : World) em :
  uploaded_df w = None ->
  document w !! "message" = Some em ->
  let final := plot QcConfig run astype_str to_datetime qc_test use_defaults w in
  fst final = Ok None
  /\ uploaded_df (snd final) = None
  /\ document (snd final) !! "message"
     = Some (message_shown em "No file uploaded." "info").
Proof.
  intros Hdf Hm final.
  assert (Hfinal : final
                   = plot QcConfig run astype_str to_datetime qc_test use_defaults w)
    by reflexivity.
  clearbody final. unfold plot in Hfinal. unfold bind at 1 in Hfinal.
  pose proof (set_display_if_present_ok "loadingIndicator" "block" w) as Hok.
  destruct (set_display_if_present_frame "loadingIndicator" "block" w)
    as [Hdf0 Hpage0].
  destruct (set_display_if_present "loadingIndicator" "block" w) as [r0 w0].
  cbn [fst snd] in Hok, Hdf0, Hpage0. subst r0.
  assert (Hm0 : document w0 !! "message" = Some em)
    by (rewrite Hpage0 by discriminate; exact Hm).
  unfold try_finally, try_except, plot_body in Hfinal.
  unfold bind at 1, get_uploaded_df at 1 in Hfinal.
  rewrite Hdf0, Hdf in Hfinal.
  rewrite (bind_ok _ _ _ _ _ (show_message_run _ _ w0 em Hm0)) in Hfinal.
  unfold ret in Hfinal.
  match type of Hfinal with
  | context [set_display_if_present ?i ?d ?u] =>
      pose proof (set_display_if_present_ok i d u) as Hok3;
      destruct (set_display_if_present_frame i d u) as [Hdf3 Hpage3];
      destruct (set_display_if_present i d u) as [r3 w3]
  end.
  cbn [fst snd] in *. subst r3 final. cbn [fst snd].
  split; [reflexivity|]. split; [rewrite Hdf3; cbn; congruence|].
  rewrite Hpage3 by discriminate. cbn. apply lookup_insert_eq.
Qed.

(** X23: [run_qc_test] reads the test selector before anything else and
    outside its [try]: without the selector on the page it raises
    [AttributeError].  With the selector but no dataset it shows the
    warning, returns, and does not call [plot]: the rest of the page is
    untouched. *)
Theorem run_qc_test_without_dataset (w : World) :
  (document w !! "select" = None ->
   run_qc_test QcConfig run astype_str to_datetime w
   = (Raise (AttributeError "'NoneType' object has no attribute 'value'"), w))
  /\ (forall s em,
         document w !! "select" = Some s ->
         uploaded_df w = None ->
         document w !! "message" = Some em ->
         run_qc_test QcConfig run astype_str to_datetime w
         = (Ok None,
            with_document w
              (<["message" :=
                   message_shown
                     em "No uploaded file found. Please upload a file first."
                     "warning"]> (document w)))).
Proof.
  split.
  - intros Hs. unfold run_qc_test, bind, getElementById. rewrite Hs. reflexivity.
  - intros s em Hs Hdf Hm. unfold run_qc_test.
    unfold bind at 1, getElementById at 1. rewrite Hs.
    unfold bind at 1, attr at 1, ret at 1.
    unfold bind at 1, get_uploaded_df at 1. rewrite Hdf.
    rewrite (bind_ok _ _ _ _ _ (show_message_run _ _ w em Hm)). reflexivity.
Qed.

(** X24: the example button when the example cannot be had.  If the page
    lacks the button's container, the example file is not even read: the
    handler ends with the [AttributeError] in the message area and the
    dataset as it was.  If the container is there and reading the file
    fails, the container is hidden, the reader's error is in the message
    area, and the dataset is as it was.  In both cases nothing is plotted. *)
Theorem handle_example_btn_failures (w : World) em :
  document w !! "message" = Some em ->
  let final :=
    handle_example_btn QcConfig run astype_str to_datetime read_example_csv w in
  (document w !! "defaultDataBtnContainer" = None ->
   fst final = Ok None
   /\ uploaded_df (snd final) = uploaded_df w
   /\ document (snd final) !! "message"
      = Some (message_shown
                em
                "Error loading example dataset: 'NoneType' object has no attribute 'style'"
                "danger"))
  /\ (forall eb msg,
         document w !! "defaultDataBtnContainer" = Some eb ->
         read_example_csv = inl msg ->
         fst final = Ok None
         /\ uploaded_df (snd final) = uploaded_df w
         /\ option_map display (document (snd final) !! "defaultDataBtnContainer")
            = Some "none"
         /\ document (snd final) !! "message"
            = Some (message_shown em ("Error loading example dataset: " +:+ msg)
                                  "danger")).
Proof.
  intros Hm final.
  assert (Hfinal : final
                   = handle_example_btn QcConfig run astype_str to_datetime
                                        read_example_csv w) by reflexivity.
  clearbody final. unfold handle_example_btn, try_except in Hfinal.
  rewrite (bind_ok _ _ _ _ _ (show_message_run _ _ w em Hm)) in Hfinal.
  set (w1 := with_document w
               (<["message" := message_shown em DEFAULT_FILE_MESSAGE "info"]>
                  (document w))) in Hfinal.
  assert (Hm1 : document w1 !! "message"
                = Some (message_shown em DEFAULT_FILE_MESSAGE "info"))
    by (subst w1; cbn; apply lookup_insert_eq).
  assert (Hb1 : document w1 !! "defaultDataBtnContainer"
                = document w !! "defaultDataBtnContainer")
    by (subst w1; cbn; now rewrite lookup_insert_ne by discriminate).
  split.
  - intros Hb. rewrite Hb in Hb1.
    rewrite (bind_raise _ _ _ _ _ (set_display_missing _ "none" w1 Hb1)) in Hfinal.
    rewrite (bind_ok _ _ _ _ _ (show_message_run _ _ w1 _ Hm1)) in Hfinal.
    subst final w1. cbn. rewrite lookup_insert_eq. repeat split.
  - intros eb msg Hb Hread. rewrite Hb in Hb1.
    rewrite (bind_ok _ _ _ _ _ (set_display_run _ "none" w1 eb Hb1)) in Hfinal.
    unfold bind at 1, lift at 1 in Hfinal. rewrite Hread in Hfinal.
    cbn [from_library] in Hfinal.
    match type of Hfinal with
    | context [bind (show_message ?m ?t) ?k ?u] =>
        assert (Hm2 : document u !! "message"
                      = Some (message_shown em DEFAULT_FILE_MESSAGE "info"))
          by (cbn; rewrite lookup_insert_ne by discriminate; exact Hm1);
        rewrite (bind_ok _ k u _ _ (show_message_run m t u _ Hm2)) in Hfinal
    end.
    subst final w1. cbn. rewrite lookup_insert_eq.
    rewrite lookup_insert_ne by discriminate. rewrite lookup_insert_eq.
    repeat split.
Qed.

End PlotEdges.

Lemma plot_without_dataset_witness :
  fst (plot accept_config pass_all sample_astype_str sample_to_datetime
            "spike_test" false (world_of None full_page))
  = Ok None.
Proof.
  apply (plot_without_dataset
           ConfigDict accept_config pass_all sample_astype_str sample_to_datetime
           "spike_test" false (world_of None full_page) blank);
    [reflexivity|vm_compute; reflexivity].
Defined.

Lemma run_qc_test_without_dataset_witness :
  fst (run_qc_test accept_config pass_all sample_astype_str sample_to_datetime
                   (world_of None full_page))
  = Ok None.
Proof.
  rewrite (proj2 (run_qc_test_without_dataset
                    ConfigDict accept_config pass_all sample_astype_str
                    sample_to_datetime (world_of None full_page))
                 (input_with "spike_test") blank);
    [reflexivity|vm_compute; reflexivity|reflexivity|vm_compute; reflexivity].
Defined.

Lemma handle_example_btn_failures_witness :
  uploaded_df
    (snd (handle_example_btn accept_config pass_all sample_astype_str
                             sample_to_datetime (inl "HTTP 404")
                             (world_of (Some sample_df) full_page)))
  = Some sample_df.
Proof.
  destruct (handle_example_btn_failures
              ConfigDict accept_config pass_all sample_astype_str
              sample_to_datetime (inl "HTTP 404")
              (world_of (Some sample_df) full_page) blank)
    as [_ Hread]; [vm_compute; reflexivity|].
  destruct (Hread blank "HTTP 404") as (_ & Hdf & _);
    [vm_compute; reflexivity|reflexivity|].
  exact Hdf.
Defined.

(** ** What [plot] draws *)

Lemma lookup_map_some {A B} (f : A -> B) (xs : list A) (i : nat) a :
  xs !! i = Some a -> map f xs !! i = Some (f a).
Proof.
  revert i; induction xs as [|x xs IH]; intros [|i]; simpl; try discriminate.
  - intros [= ->]. reflexivity.
  - apply IH.
Qed.

Lemma has_code_num_of_Z code : has_code (num_of_Z code) code.
Proof. unfold has_code. apply cell_eqb_refl. Qed.

Lemma column_names_setitem df label a values :
  getitem df label = Ok a ->
  column_names (setitem df label values) = column_names df.
Proof.
  intros H. unfold column_names, setitem. cbn [columns].
  rewrite (getitem_exists _ _ _ H). rewrite map_map. apply map_ext.
  intros c. destruct (named label c); reflexivity.
Qed.

(** The flag column of the frame [run_tests] returns. *)
Lemma annotated_flags df time label test flag_cells :
  ~ In test (column_names df) ->
  getitem {| index := time;
             columns :=
               List.filter (fun c => negb (named label c)) (columns df)
               ++ [(test, flag_cells)] |} test
  = Ok (Arr1 flag_cells).
Proof.
  intros Hfresh. unfold getitem. cbn [columns].
  rewrite filter_named_app, (filter_named_none _ _ _ Hfresh).
  cbn. rewrite String.eqb_refl. reflexivity.
Qed.

Lemma bind_frame {A B} (m : M A) (k : A -> M B) w w' :
  read_only m ->
  fst (m w') = fst (m w) ->
  (forall a, fst (k a w') = fst (k a w)) ->
  fst (bind m k w') = fst (bind m k w).
Proof.
  intros Hm Hfst Hk. unfold bind.
  rewrite (read_only_eq m w Hm), (read_only_eq m w' Hm), Hfst.
  destruct (fst (m w)); [apply Hk|reflexivity].
Qed.

Lemma get_value_by_id_frame id w w' :
  document w' !! id = document w !! id ->
  fst (get_value_by_id id w') = fst (get_value_by_id id w).
Proof.
  intros H. unfold get_value_by_id, bind, getElementById. rewrite H.
  destruct (document w !! id); reflexivity.
Qed.

(** The builder reads nothing of the message area nor of the loading
    indicator. *)
Lemma config_step_frame selected_test (use_defaults : bool) w w' :
  (forall id, id <> "message" -> id <> "loadingIndicator" ->
              document w' !! id = document w !! id) ->
  qc_config_json w' = qc_config_json w ->
  fst ((if use_defaults then load_default_config
        else get_user_config selected_test) w')
  = fst ((if use_defaults then load_default_config
          else get_user_config selected_test) w).
Proof.
  intros Hpage Hjson. destruct use_defaults.
  - unfold load_default_config. rewrite Hjson.
    destruct (qc_config_json w); reflexivity.
  - unfold get_user_config. apply bind_frame; [| |reflexivity].
    + repeat match goal with
             | |- read_only (if ?b then _ else _) => destruct b
             | |- read_only (bind _ _) => apply read_only_bind; [|intros ?]
             | |- read_only (get_value_by_id _) => apply read_only_get_value_by_id
             | |- read_only (ret _) => apply read_only_ret
             | |- read_only (raise _) => apply read_only_raise
             end.
    + repeat match goal with
             | |- context [String.eqb selected_test ?t] =>
                 destruct (String.eqb selected_test t)
             end;
        repeat (apply bind_frame;
                [apply read_only_get_value_by_id
                |apply get_value_by_id_frame, Hpage; discriminate
                |intros ?]);
        reflexivity.
Qed.

Section PlotFigure.

Variable qc : Type.
Variable QcConfig : ConfigDict -> string + qc.
Variable run :
  qc -> ndarray cell -> ndarray cell -> ndarray cell -> string + EngineResults.
Variable astype_str : cell -> string.
Variable to_datetime : ndarray cell -> string + list cell.

(** X25: take a dataset with default row labels and no column named like
    the test, on a page with the message area and the three selectors.
    When its times convert and the test runs with one flag per row, [plot]
    hands Plotly five series over the same converted times: the line of the
    measurements, then the markers Fail, Not Run, Suspect and Pass.  A row
    flagged 1, 2, 3 or 4 is a point of exactly one marker series, the one
    of its flag (Pass for 1, Not Run for 2, Suspect for 3, Fail for 4),
    with the measurement of the line as its value. *)
Theorem plot_draws_each_flagged_point_once
        qc_test (use_defaults : bool) (w : World)
        df sv sx sy em variable x_var y_var column times
        cfg q (obs : list cell) zinp (results : EngineResults)
        (qartod : gmap string (list Z)) (flags : list Z) :
  uploaded_df w = Some df ->
  document w !! "variableSelect" = Some sv ->
  document w !! "xVariableSelect" = Some sx ->
  document w !! "yVariableSelect" = Some sy ->
  document w !! "message" = Some em ->
  chosen_columns (value sv) (value sx) (value sy) = (variable, x_var, y_var) ->
  getitem df x_var = Ok (Arr1 column) ->
  to_datetime (Arr1 (stripped_strings astype_str column)) = inr times ->
  fst ((if use_defaults then load_default_config
        else get_user_config qc_test) w) = Ok cfg ->
  QcConfig cfg = inr q ->
  getitem (setitem df x_var times) variable = Ok (Arr1 obs) ->
  getitem (setitem df x_var times) y_var = Ok zinp ->
  run q (Arr1 obs) (Arr1 times) zinp = inr results ->
  results !! "qartod" = Some qartod ->
  map_Forall (fun _ a => length a = nrows df) qartod ->
  qartod !! qc_test = Some flags ->
  length obs = nrows df ->
  index df = range_index (nrows df) ->
  ~ In qc_test (column_names df) ->
  exists line fail notrun suspect pass ys_fail ys_notrun ys_suspect ys_pass,
    fst (plot QcConfig run astype_str to_datetime qc_test use_defaults w)
    = Ok (Some {| traces := [line; fail; notrun; suspect; pass];
                  title := variable +:+ " - " +:+ qc_test;
                  xaxis_title := x_var;
                  yaxis_title := variable |})
    /\ Forall (fun t => trace_x t = Arr1 (map astype_str times))
              [line; fail; notrun; suspect; pass]
    /\ trace_y line = Arr1 (map Some obs)
    /\ map trace_name [fail; notrun; suspect; pass]
       = ["Fail"; "Not Run"; "Suspect"; "Pass"]
    /\ trace_y fail = Arr1 ys_fail
    /\ trace_y notrun = Arr1 ys_notrun
    /\ trace_y suspect = Arr1 ys_suspect
    /\ trace_y pass = Arr1 ys_pass
    /\ (forall (i : nat) v code,
           obs !! i = Some v -> flags !! i = Some code -> In code flag_codes ->
           ys_pass !! i = Some (if code =? 1 then Some v else None)
           /\ ys_notrun !! i = Some (if code =? 2 then Some v else None)
           /\ ys_suspect !! i = Some (if code =? 3 then Some v else None)
           /\ ys_fail !! i = Some (if code =? 4 then Some v else None)).
Proof.
  intros Hdf Hsv Hsx Hsy Hm Hchosen Hcol Htimes Hcfg Hq Hobs Hz Hrun Hpkg Hlen
         Hflags Hobs_len Hidx Hfresh.
  set (df2 := setitem df x_var times) in *.
  assert (Hnames : column_names df2 = column_names df)
    by (apply (column_names_setitem df x_var _ times Hcol)).
  assert (Htimes2 : getitem df2 x_var = Ok (Arr1 times))
    by (apply (getitem_setitem df x_var column times Hcol)).
  assert (Hne : x_var <> qc_test).
  { intros ->. apply Hfresh. rewrite <- Hnames.
    destruct (getitem_one _ _ _ Htimes2) as (c & Hc & _).
    unfold column_names. apply in_map_iff. exists c.
    assert (Hin : In c (List.filter (fun c => named qc_test c) (columns df2)))
      by (rewrite Hc; left; reflexivity).
    apply filter_In in Hin as [Hin Hname]. split; [|exact Hin].
    apply String.eqb_eq. exact Hname. }
  remember (plot QcConfig run astype_str to_datetime qc_test use_defaults w)
    as final eqn:Hfinal.
  unfold plot in Hfinal. unfold bind at 1 in Hfinal.
  pose proof (set_display_if_present_ok "loadingIndicator" "block" w) as Hok.
  destruct (set_display_if_present_frame "loadingIndicator" "block" w)
    as [Hdf0 Hpage0].
  assert (Hjson0 : qc_config_json (snd (set_display_if_present
                                          "loadingIndicator" "block" w))
                   = qc_config_json w).
  { unfold set_display_if_present, bind, getElementById.
    destruct (document w !! "loadingIndicator"); reflexivity. }
  destruct (set_display_if_present "loadingIndicator" "block" w) as [r0 w0].
  cbn [fst snd] in Hok, Hdf0, Hpage0, Hjson0. subst r0.
  assert (Hbody := plot_body_run qc QcConfig run astype_str to_datetime
                     qc_test use_defaults w0 df sv sx sy em
                     variable x_var y_var column).
  rewrite Hdf0, !Hpage0 in Hbody by discriminate.
  specialize (Hbody Hdf Hsv Hsx Hsy Hm Hchosen Hcol). cbv zeta in Hbody.
  unfold try_finally, try_except in Hfinal. rewrite Hbody in Hfinal. clear Hbody.
  rewrite Htimes in Hfinal. fold df2 in Hfinal.
  match type of Hfinal with
  | context [bind (run_tests _ _ _ _ _ _ _ _) ?k ?u] =>
      assert (Hcfg_u : fst ((if use_defaults then load_default_config
                             else get_user_config qc_test) u) = Ok cfg);
      [rewrite <- Hcfg; apply config_step_frame;
       [intros id Hid1 Hid2; cbn [document];
        rewrite lookup_insert_ne by congruence; apply Hpage0; exact Hid2
       |exact Hjson0]
      |pose proof (run_tests_returns
                     qc QcConfig run df2 variable qc_test x_var y_var use_defaults u
                     cfg q (Arr1 obs) times zinp results qartod flags
                     Hcfg_u Hq Hobs Htimes2 Hz Hrun Hpkg Hlen Hflags Hidx Hne)
         as Hrt;
       rewrite (bind_ok _ k u _ _ Hrt) in Hfinal]
  end.
  pose proof (annotated_flags df2 times x_var qc_test (map num_of_Z flags)
                ltac:(rewrite Hnames; exact Hfresh)) as Hmask.
  assert (Hflags_len : length (map num_of_Z flags) = length obs)
    by (rewrite length_map, (Hlen _ _ Hflags); congruence).
  unfold bind at 1, lift at 1 in Hfinal.
  rewrite (make_mask_1d _ _ _ _ _ _ Hobs Hmask Hflags_len) in Hfinal.
  unfold bind at 1, lift at 1, build_figure in Hfinal.
  rewrite Htimes2, Hobs in Hfinal.
  cbn [outcome_bind ndarray_map qc_pass qc_suspect qc_fail qc_notrun masked_tolist
       ma_data ma_mask mask_1d] in Hfinal.
  unfold ret in Hfinal.
  match type of Hfinal with
  | context [set_display_if_present ?i ?d ?u] =>
      pose proof (set_display_if_present_ok i d u) as Hok3;
      destruct (set_display_if_present i d u) as [r3 w3]
  end.
  cbn [fst] in Hok3. subst r3 final. cbn [fst].
  do 9 eexists.
  split; [reflexivity|].
  split; [repeat constructor|].
  split; [reflexivity|]. split; [reflexivity|].
  do 4 (split; [reflexivity|]).
  intros i v code Hv Hcode Hin.
  assert (Hrow : forall k,
             tolist (mask_1d obs (map (cell_ne k) (map num_of_Z flags))) !! i
             = Some (if code =? k then Some v else None)).
  { intros k.
    rewrite (tolist_lookup obs _ i v (cell_ne k (num_of_Z code)) Hv).
    - rewrite (cell_ne_code _ _ _ (has_code_num_of_Z code)).
      destruct (code =? k); reflexivity.
    - apply lookup_map_some, lookup_map_some. exact Hcode. }
  repeat split; apply Hrow.
Qed.

End PlotFigure.

(** [dated_df] under the spike test: the three dates convert, every row
    passes, and the five series go to Plotly over the converted dates. *)
Lemma plot_draws_each_flagged_point_once_witness :
  exists fig,
    fst (plot accept_config pass_all sample_astype_str iso_to_datetime
              "spike_test" false (world_of (Some dated_df) full_page))
    = Ok (Some fig)
    /\ map trace_name (traces fig)
       = ["sea_surface_height_above_sea_level"; "Fail"; "Not Run"; "Suspect"; "Pass"]
    /\ Forall (fun t => trace_x t = Arr1 ["2021-03-03"; "2021-03-01"; "2021-03-02"])
              (traces fig).
Proof.
  destruct (plot_draws_each_flagged_point_once
              ConfigDict accept_config pass_all sample_astype_str iso_to_datetime
              "spike_test" false (world_of (Some dated_df) full_page)
              dated_df
              (input_with "sea_surface_height_above_sea_level")
              (input_with "time") (input_with "z") blank
              "sea_surface_height_above_sea_level" "time" "z"
              [Str " 2021-03-03"; Str "2021-03-01"; Str "2021-03-02 "]
              [Str "2021-03-03"; Str "2021-03-01"; Str "2021-03-02"]
              sample_config sample_config
              [Num (3 # 2); Num (1 # 2); Num (5 # 2)]
              (Arr1 [num_of_Z 0; num_of_Z 0; num_of_Z 0])
              sample_results sample_flags [1; 1; 1])
    as (line & fail & notrun & suspect & pass & ? & ? & ? & ?
        & Hrun & Hx & _ & Hnames & _).
  - reflexivity.
  - vm_compute; reflexivity.
  - vm_compute; reflexivity.
  - vm_compute; reflexivity.
  - vm_compute; reflexivity.
  - reflexivity.
  - reflexivity.
  - vm_compute; reflexivity.
  - vm_compute; reflexivity.
  - reflexivity.
  - reflexivity.
  - reflexivity.
  - vm_compute; reflexivity.
  - vm_compute; reflexivity.
  - apply map_Forall_singleton. reflexivity.
  - vm_compute; reflexivity.
  - reflexivity.
  - reflexivity.
  - simpl. intros H. decompose [or] H; discriminate || assumption.
  - eexists. split; [exact Hrun|]. split; [|exact Hx].
    cbn [traces map]. injection Hnames as -> -> -> ->.
    f_equal.
    vm_compute in Hrun. injection Hrun as Hline _ _ _ _.
    rewrite <- Hline. reflexivity.
Defined.

(** ** The cleaning of a NetCDF upload *)

Lemma select_map_filter {A} (p : A -> bool) (l : list A) :
  select (map p l) l = List.filter p l.
Proof.
  induction l as [|x l IH]; [reflexivity|].
  simpl. destruct (p x); now rewrite IH.
Qed.

Lemma select_In {A} keep (l : list A) x : In x (select keep l) -> In x l.
Proof.
  revert l; induction keep as [|k keep IH]; intros [|y l] H; simpl in *;
    try contradiction.
  destruct k; [destruct H as [->|H]|]; auto.
Qed.

Lemma select_length {A B} keep (xs : list A) (ys : list B) :
  length xs = length ys -> length (select keep xs) = length (select keep ys).
Proof.
  revert xs ys; induction keep as [|k keep IH]; intros [|x xs] [|y ys] H;
    simpl in *; try discriminate; try reflexivity.
  injection H as H. destruct k; simpl; now rewrite (IH xs ys H).
Qed.

(** A selection, read through the positions selected. *)
Lemma select_positions {A} (d : A) keep (xs : list A) off :
  length xs = length keep ->
  select keep xs
  = map (fun i => nth (i - off) xs d) (select keep (seq off (length keep))).
Proof.
  revert xs off; induction keep as [|k keep IH]; intros [|x xs] off H;
    simpl in *; try discriminate; try reflexivity.
  injection H as H.
  assert (Htail : select keep xs
                  = map (fun i => nth (i - off) (x :: xs) d)
                        (select keep (seq (S off) (length keep)))).
  { rewrite (IH xs (S off) H). apply map_ext_in. intros i Hi.
    apply select_In, in_seq in Hi.
    replace (i - off)%nat with (S (i - S off)) by lia. reflexivity. }
  destruct k; simpl; [rewrite Nat.sub_diag; simpl; f_equal|]; exact Htail.
Qed.

Lemma map_nth_seq {A} (d : A) (l : list A) :
  map (fun j => nth j l d) (seq 0 (length l)) = l.
Proof.
  induction l as [|x l IH]; [reflexivity|].
  simpl. f_equal. rewrite <- seq_shift, map_map. exact IH.
Qed.

Lemma nth_map_inside {A B} (f : A -> B) (l : list A) d d' j :
  (j < length l)%nat -> nth j (map f l) d = f (nth j l d').
Proof.
  revert j; induction l as [|x l IH]; intros [|j] H; simpl in *; try lia;
    [reflexivity|apply IH; lia].
Qed.

Lemma keep_rows_length df : length (keep_rows df) = nrows df.
Proof. unfold keep_rows. now rewrite length_map, length_seq. Qed.

(** The rows [dropna] keeps are the rows with a value, in their order. *)
Lemma rows_dropna_all df :
  well_formed df ->
  rows (dropna_all df) = List.filter has_value (rows df).
Proof.
  intros Hwf. unfold rows at 2.
  rewrite <- select_map_filter, map_map.
  change (map (fun x => has_value (row_at df x)) (seq 0 (nrows df)))
    with (keep_rows df).
  set (kept := select (keep_rows df) (seq 0 (nrows df))).
  assert (Hcol : forall c, In c (columns df) ->
                           select (keep_rows df) (snd c)
                           = map (fun i => nth i (snd c) NaN) kept).
  { intros c Hc. unfold well_formed in Hwf. rewrite Forall_forall in Hwf.
    pose proof (Hwf c (proj2 (list_elem_of_In _ _) Hc)) as Hlen.
    rewrite (select_positions NaN (keep_rows df) (snd c) 0)
      by (rewrite keep_rows_length; exact Hlen).
    rewrite keep_rows_length. apply map_ext. intros i.
    now rewrite Nat.sub_0_r. }
  assert (Hn : nrows (dropna_all df) = length kept).
  { unfold nrows, dropna_all. cbn [index]. subst kept.
    apply select_length. unfold nrows. now rewrite length_seq. }
  assert (Hselect : select (keep_rows df) (map (row_at df) (seq 0 (nrows df)))
                    = map (row_at df) kept).
  { subst kept. generalize (keep_rows df) (seq 0 (nrows df)).
    intros keep l. revert l. induction keep as [|k keep IH]; intros [|x l];
      simpl; try reflexivity.
    destruct k; simpl; now rewrite IH. }
  rewrite Hselect. unfold rows. rewrite Hn.
  rewrite <- (map_nth_seq 0%nat kept) at 2. rewrite map_map.
  apply map_ext_in. intros j Hj. apply in_seq in Hj.
  unfold row_at at 1, dropna_all. cbn [columns]. rewrite map_map.
  unfold row_at. apply map_ext_in. intros c Hc. cbn [snd].
  rewrite (Hcol c Hc).
  apply (nth_map_inside (fun i => nth i (snd c) NaN) kept NaN 0%nat). lia.
Qed.

Lemma well_formed_dropna_all df : well_formed df -> well_formed (dropna_all df).
Proof.
  intros Hwf. unfold well_formed in *. rewrite Forall_forall in *.
  intros c Hc. apply list_elem_of_In in Hc.
  unfold dropna_all in Hc. cbn [columns] in Hc.
  apply in_map_iff in Hc as (c0 & <- & Hc0). cbn [snd].
  unfold nrows, dropna_all. cbn [index]. apply select_length.
  apply Hwf, list_elem_of_In, Hc0.
Qed.

Section NetcdfFacts.

Variable read_csv : string -> ascii -> string + DataFrame.
Variable open_dataset_to_dataframe : string -> string + DataFrame.

(** X26: the dataset a NetCDF upload leaves is the decoded table without
    its rows that are empty in every column: its rows are the decoded rows
    that have a value, in their order, none of them is empty throughout,
    and every column still has one cell per row. *)
Theorem netcdf_upload_drops_empty_rows filename content (w : World) decoded :
  PyStr.endswith filename ".nc" = true ->
  open_dataset_to_dataframe content = inr decoded ->
  well_formed decoded ->
  exists ds,
    uploaded_df (snd (ingest read_csv open_dataset_to_dataframe filename content w))
    = Some ds
    /\ rows ds = List.filter has_value (rows decoded)
    /\ Forall (fun row => has_value row = true) (rows ds)
    /\ well_formed ds.
Proof.
  intros Hnc Hopen Hwf. exists (dropna_all decoded).
  rewrite (ingest_nc read_csv open_dataset_to_dataframe _ _ _ Hnc), Hopen.
  split; [reflexivity|].
  split; [apply rows_dropna_all, Hwf|].
  split; [|apply well_formed_dropna_all, Hwf].
  rewrite (rows_dropna_all _ Hwf). apply Forall_forall. intros row Hrow.
  apply list_elem_of_In, filter_In in Hrow. apply Hrow.
Qed.

End NetcdfFacts.

Lemma netcdf_upload_drops_empty_rows_witness :
  exists ds,
    uploaded_df (snd (ingest sample_read_csv sample_open_dataset "grid.nc" "CDF"
                             (world_of None spike_page)))
    = Some ds
    /\ length (rows ds) = 2%nat.
Proof.
  destruct (netcdf_upload_drops_empty_rows
              sample_read_csv sample_open_dataset "grid.nc" "CDF"
              (world_of None spike_page) decoded_with_empty_row)
    as (ds & Hds & Hrows & _).
  - reflexivity.
  - reflexivity.
  - repeat constructor.
  - exists ds. split; [exact Hds|]. rewrite Hrows. reflexivity.
Defined.
